(** * xk6-dashboard: the ingestion pipeline and the instrument registry

    A shallow embedding of [dashboard.go] (package [dashboard]) and of the
    Prometheus adapter (package [internal]), with the properties of the
    specification stated and proved over it.

    Conventions.
    - Go's [int] is a 64-bit two's complement integer: it is a [Z], and the
      additions and subtractions of the source go through [int_add] and
      [int_sub].
    - Go's [float64] sample values are idealised as real numbers ([R]); the
      specification's "within floating-point tolerance" covers the rounding
      that this idealisation leaves out.
    - A panic, a value that is [nil] and an exhausted loop budget are
      explicit results ([outcome], [option]). *)

From Stdlib Require Import ZArith String Ascii Bool Reals Lra Lia List Permutation.
Import ListNotations.

Local Open Scope Z_scope.

(* ===================================================================== *)
(** * Go integers and slices *)
(* ===================================================================== *)

Module GoInt.

Definition int_min : Z := - 2 ^ 63.
Definition int_max : Z := 2 ^ 63 - 1.

(** Two's complement wrap-around of a mathematical integer into [int]. *)
Definition wrap (z : Z) : Z := (z + 2 ^ 63) mod 2 ^ 64 - 2 ^ 63.

(** [a + b] and [a - b] on [int]. *)
Definition int_add (a b : Z) : Z := wrap (a + b).
Definition int_sub (a b : Z) : Z := wrap (a - b).

End GoInt.

Module GoSlice.
Section Slices.
Context {A : Type}.

(** [len(s)] as an [int]. *)
Definition len (s : list A) : Z := Z.of_nat (length s).

(** [s[lo:hi]]: the run-time check [0 <= lo <= hi <= len(s)] fails with a
    panic ([None]).  Go checks [hi] against the capacity; the slices
    sliced here are never re-sliced beyond their length. *)
Definition slice (s : list A) (lo hi : Z) : option (list A) :=
  if (0 <=? lo) && (lo <=? hi) && (hi <=? len s)
  then Some (firstn (Z.to_nat (hi - lo)) (skipn (Z.to_nat lo) s))
  else None.

End Slices.
End GoSlice.

Import GoInt GoSlice.

(** The three ways a modelled Go function can end. *)
Inductive outcome (A : Type) : Type :=
| Done (a : A)      (* returned normally *)
| Panic             (* a run-time panic *)
| OutOfFuel.        (* the loop budget of the model was too small *)
Arguments Done {A} a.
Arguments Panic {A}.
Arguments OutOfFuel {A}.

(* ===================================================================== *)
(** * flushMetrics: the batch splitting loop *)
(* ===================================================================== *)

Module Flush.
Section Loop.
Context {A : Type}.

(** The [for lower <= bufferSize-1] loop of [flushMetrics].  [sent]
    accumulates, oldest first, the slices sent on [o.sampleChannel]. *)
Fixpoint flushLoop (fuel : nat) (bufferSamples : list A)
         (batchSize lower upper : Z) (sent : list (list A))
  : outcome (list (list A)) :=
  let bufferSize := len bufferSamples in
  if lower <=? int_sub bufferSize 1 then
    match fuel with
    | O => OutOfFuel
    | S fuel' =>
        match slice bufferSamples lower upper with
        | None => Panic
        | Some samplesGroup =>
            let sent := sent ++ [samplesGroup] in
            let lower := upper in
            let upper := int_add upper batchSize in
            let upper := if upper >=? bufferSize then bufferSize else upper in
            flushLoop fuel' bufferSamples batchSize lower upper sent
        end
    end
  else Done sent.

(** The body of [flushMetrics] between the drain and the log line, for a
    given [batchSize]. *)
Definition splitAndSend (fuel : nat) (batchSize : Z) (bufferSamples : list A)
  : outcome (list (list A)) :=
  let lower := 0 in
  let bufferSize := len bufferSamples in
  let upper := if batchSize >? bufferSize then bufferSize else batchSize in
  flushLoop fuel bufferSamples batchSize lower upper [].

End Loop.
End Flush.

Import Flush.

(* ===================================================================== *)
(** * What "the consecutive windows of a slice" means *)
(* ===================================================================== *)

Module Windows.
Section Def.
Context {A : Type}.

(** [windows k l ws]: [ws] cuts [l] into consecutive runs, every run but
    the last of length exactly [k], the last one non-empty and of length
    at most [k]; the empty slice has no window at all. *)
Inductive windows (k : Z) : list A -> list (list A) -> Prop :=
| windows_nil : windows k [] []
| windows_last w :
    w <> [] -> len w <= k -> windows k w [w]
| windows_cons w rest ws :
    len w = k -> rest <> [] -> windows k rest ws ->
    windows k (w ++ rest) (w :: ws).

End Def.
End Windows.

Import Windows.

(* ===================================================================== *)
(** * The k6 sample model (package [go.k6.io/k6/metrics]) *)
(* ===================================================================== *)

Module Metrics.

(** Modelled from the spec: [metrics.MetricType] is declared by k6, not by
    this repository.  It is an integer-valued tag with the four named
    constants below; any other integer is a tag too, and is the "unknown
    type" of the specification. *)
Definition MetricType := Z.
Definition Counter : MetricType := 0.
Definition Gauge   : MetricType := 1.
Definition Trend   : MetricType := 2.
Definition Rate    : MetricType := 3.

Record Metric := { Name : string; Type_ : MetricType }.

(** A sample: the fields of [metrics.Sample] that the source reads. *)
Record Sample := { metric : Metric; Value : R }.

(** [metrics.SampleContainer]: anything with a [GetSamples] method. *)
Record SampleContainer := { GetSamples : list Sample }.

End Metrics.

(* ===================================================================== *)
(** * The Prometheus instruments (package [prometheus]) *)
(* ===================================================================== *)

Module Prometheus.

(** [prometheus.CounterOpts], [GaugeOpts] and [HistogramOpts]: the fields
    that the source fills in. *)
Record Opts := { Namespace : string; Subsystem : string;
                 OName : string; Help : string }.

(** Modelled from the spec: [prometheus.Counter], whose implementation is
    Prometheus' own.  The specification gives it as an accumulated total
    that supports only "add". *)
Record CounterI := { counterOpts : Opts; total : R }.

(** Modelled from the spec: [prometheus.Gauge], a last-writer-wins current
    value that supports only "set". *)
Record GaugeI := { gaugeOpts : Opts; current : R }.

(** Modelled from the spec: [prometheus.Histogram], which records the
    sequence of observed values (oldest first here) against fixed buckets
    and supports only "observe". *)
Record HistogramI := { histogramOpts : Opts; Buckets : list R;
                       observations : list R }.

Definition NewCounter (o : Opts) : CounterI :=
  {| counterOpts := o; total := 0%R |}.
Definition NewGauge (o : Opts) : GaugeI :=
  {| gaugeOpts := o; current := 0%R |}.
(** The histogram that [prometheus.NewHistogram] builds when it accepts
    the bounds; its check of their order is in [Guarded], below. *)
Definition NewHistogram (o : Opts) (buckets : list R) : HistogramI :=
  {| histogramOpts := o; Buckets := buckets; observations := [] |}.

(** The addition of [Add].  [prometheus.Counter.Add] refuses a negative
    increment before it adds: that guard is in [Guarded], below. *)
Definition Add (v : R) (c : CounterI) : CounterI :=
  {| counterOpts := counterOpts c; total := (total c + v)%R |}.
Definition Set_ (v : R) (g : GaugeI) : GaugeI :=
  {| gaugeOpts := gaugeOpts g; current := v |}.
Definition Observe (v : R) (h : HistogramI) : HistogramI :=
  {| histogramOpts := histogramOpts h; Buckets := Buckets h;
     observations := observations h ++ [v] |}.

(** The number of observations a histogram has registered. *)
Definition sampleCount (h : HistogramI) : nat := length (observations h).

(** [prometheus.ExponentialBuckets(start, factor, count)]. *)
Fixpoint ExponentialBuckets (start factor : R) (count : nat) : list R :=
  match count with
  | O => []
  | S n => start :: ExponentialBuckets (start * factor) factor n
  end.

(** What a registry knows of a collector: its kind and its options. *)
Inductive Kind := KCounter | KGauge | KHistogram.
Record Collector := { kind : Kind; opts : Opts }.

Definition Error := string.

(** Modelled from the spec: [prometheus.Registry], the thread-safe registry
    that exposes the instruments.  It is the collectors registered so far,
    oldest first, and the check that [Register] applies to a new one
    (validity of the descriptor, uniqueness against the ones already
    there), which is Prometheus' own and is kept as a component of the
    object. *)
Record Registry := {
  collectors : list Collector;
  check : list Collector -> Collector -> option Error
}.

(** [registry.Register(c)]: the updated registry and the error, if any. *)
Definition Register (r : Registry) (c : Collector) : Registry * option Error :=
  match check r (collectors r) c with
  | Some err => (r, Some err)
  | None => ({| collectors := collectors r ++ [c]; check := check r |}, None)
  end.

(** Whether a run of collectors can be registered one after the other on
    top of the collectors [cs]. *)
Fixpoint acceptsAll (chk : list Collector -> Collector -> option Error)
         (cs pre : list Collector) : bool :=
  match pre with
  | [] => true
  | c :: pre =>
      match chk cs c with
      | Some _ => false
      | None => acceptsAll chk (cs ++ [c]) pre
      end
  end.

End Prometheus.

(* ===================================================================== *)
(** * Logging (package [logrus]) *)
(* ===================================================================== *)

Module Logrus.

Inductive Level := InfoLevel | WarnLevel.

(** One line written through a [logrus.FieldLogger]: its level, the format
    string (or message), the arguments and the structured fields. *)
Record Entry := {
  level : Level;
  message : string;
  args : list Z;
  fields : list (string * Z)
}.

(** A logger is what has been written through it, oldest entry first. *)
Definition FieldLogger := list Entry.

Definition Warnf (fmt : string) (arg : Z) (l : FieldLogger) : FieldLogger :=
  l ++ [ {| level := WarnLevel; message := fmt; args := [arg]; fields := [] |} ].
Definition Infof (fmt : string) (arg : Z) (l : FieldLogger) : FieldLogger :=
  l ++ [ {| level := InfoLevel; message := fmt; args := [arg]; fields := [] |} ].
Definition WithField_Info (key : string) (val : Z) (msg : string)
           (l : FieldLogger) : FieldLogger :=
  l ++ [ {| level := InfoLevel; message := msg; args := [];
            fields := [(key, val)] |} ].

End Logrus.

(* ===================================================================== *)
(** * The Prometheus adapter (package [internal]) *)
(* ===================================================================== *)

Module Internal.
Import Metrics Prometheus Logrus.

(** The fields of [struct builtinMetrics], one enumeration per instrument
    kind.  [HTTPReqFailedCurrent] is declared in the struct but never
    constructed nor used: it stays [nil] and has no place here. *)
Inductive gaugeField :=
| VUS | VUSMax
| HTTPReqBlockedCurrent | HTTPReqConnectingCurrent | HTTPReqDurationCurrent
| HTTPReqReceivingCurrent | HTTPReqSendingCurrent
| HTTPReqTLSHandshakingCurrent | HTTPReqWaitingCurrent
| IterationDurationCurrent.

Inductive counterField :=
| DataReceived | DataSent | HTTPReqs | Iterations | DroppedIterations.

Inductive histogramField :=
| HTTPReqBlocked | HTTPReqConnecting | HTTPReqDuration | HTTPReqReceiving
| HTTPReqSending | HTTPReqTLSHandshaking | HTTPReqWaiting
| IterationDuration | Checks | HTTPReqFailed.

Definition gaugeField_eq_dec (x y : gaugeField) : {x = y} + {x <> y}.
Proof. decide equality. Defined.
Definition counterField_eq_dec (x y : counterField) : {x = y} + {x <> y}.
Proof. decide equality. Defined.
Definition histogramField_eq_dec (x y : histogramField) : {x = y} + {x <> y}.
Proof. decide equality. Defined.

(** [struct builtinMetrics]: the instrument behind every field. *)
Record builtinMetrics := {
  gauges : gaugeField -> GaugeI;
  counters : counterField -> CounterI;
  histograms : histogramField -> HistogramI
}.

(** [m.<f>.Add(v)], [m.<f>.Set(v)] and [m.<f>.Observe(v)]. *)
Definition counterAdd (f : counterField) (v : R) (m : builtinMetrics) :=
  {| gauges := gauges m;
     counters := fun f' => if counterField_eq_dec f' f
                           then Add v (counters m f') else counters m f';
     histograms := histograms m |}.

Definition gaugeSet (f : gaugeField) (v : R) (m : builtinMetrics) :=
  {| gauges := fun f' => if gaugeField_eq_dec f' f
                         then Set_ v (gauges m f') else gauges m f';
     counters := counters m;
     histograms := histograms m |}.

Definition histogramObserve (f : histogramField) (v : R) (m : builtinMetrics) :=
  {| gauges := gauges m;
     counters := counters m;
     histograms := fun f' => if histogramField_eq_dec f' f
                             then Observe v (histograms m f') else histograms m f' |}.

(** [type PrometheusAdapter struct].  The [metrics] map and the [lock] are
    declared but never touched by the code and carry no state here. *)
Record PrometheusAdapter := {
  Subsystem : string;
  Namespace : string;
  logger : FieldLogger;
  registry : Registry;
  builtin : builtinMetrics
}.

Definition withBuiltin (a : PrometheusAdapter) (m : builtinMetrics) :=
  {| Subsystem := Subsystem a; Namespace := Namespace a; logger := logger a;
     registry := registry a; builtin := m |}.

Definition withLogger (a : PrometheusAdapter) (l : FieldLogger) :=
  {| Subsystem := Subsystem a; Namespace := Namespace a; logger := l;
     registry := registry a; builtin := builtin a |}.

Local Open Scope string_scope.

(** ** Constructors of instruments *)

Definition NewCounter (registry : Registry) (namespace subsystem name help : string)
  : CounterI :=
  Prometheus.NewCounter {| Prometheus.Namespace := namespace;
                           Prometheus.Subsystem := subsystem;
                           OName := name; Help := help |}.

Definition NewGauge (registry : Registry) (namespace subsystem name help : string)
  : GaugeI :=
  Prometheus.NewGauge {| Prometheus.Namespace := namespace;
                         Prometheus.Subsystem := subsystem;
                         OName := name; Help := help |}.

Definition defaultBuckets : list R :=
  ([0.1; 0.2; 0.3; 0.4; 0.5; 0.6; 0.7; 0.8; 0.9]%R
     ++ ExponentialBuckets 1 2 16)%list.

Definition NewHistogram (registry : Registry) (namespace subsystem name help : string)
           (buckets : list R) : HistogramI :=
  let buckets := match buckets with [] => defaultBuckets | _ => buckets end in
  Prometheus.NewHistogram {| Prometheus.Namespace := namespace;
                             Prometheus.Subsystem := subsystem;
                             OName := name; Help := help |} buckets.

(** ** NewPrometheusAdapter *)

(** The [builtinMetrics] literal of [NewPrometheusAdapter]. *)
Definition newBuiltinMetrics (registry : Registry) (ns sub : string) : builtinMetrics :=
  {| gauges := fun f =>
       match f with
       | VUS => NewGauge registry ns sub "vus" "Current number of active virtual users"
       | VUSMax => NewGauge registry ns sub "vus_max" "Max possible number of virtual users"
       | HTTPReqBlockedCurrent => NewGauge registry ns sub "http_req_blocked_current" "Time spent blocked  before initiating the request"
       | HTTPReqConnectingCurrent => NewGauge registry ns sub "http_req_connecting_current" "Time spent establishing TCP connection"
       | HTTPReqDurationCurrent => NewGauge registry ns sub "http_req_duration_current" "Total time for the request"
       | HTTPReqReceivingCurrent => NewGauge registry ns sub "http_req_receiving_current" "Time spent receiving response data"
       | HTTPReqSendingCurrent => NewGauge registry ns sub "http_req_sending_current" "Time spent sending data"
       | HTTPReqTLSHandshakingCurrent => NewGauge registry ns sub "http_req_tls_handshaking_current" "Time spent handshaking TLS session"
       | HTTPReqWaitingCurrent => NewGauge registry ns sub "http_req_waiting_current" "Time spent waiting for response"
       | IterationDurationCurrent => NewGauge registry ns sub "iteration_duration_current" "The time it took to complete one full iteration"
       end;
     counters := fun f =>
       match f with
       | DataReceived => NewCounter registry ns sub "data_received" "The amount of received data"
       | DataSent => NewCounter registry ns sub "data_sent" "The amount of data sent"
       | HTTPReqs => NewCounter registry ns sub "http_reqs" "How many HTTP requests has k6 generated, in total"
       | Iterations => NewCounter registry ns sub "iterations" "The aggregate number of times the VUs in the test have executed"
       | DroppedIterations => NewCounter registry ns sub "dropped_iterations" "The number of iterations that could not be started"
       end;
     histograms := fun f =>
       match f with
       | HTTPReqBlocked => NewHistogram registry ns sub "http_req_blocked" "time spent blocked  before initiating the request" []
       | HTTPReqConnecting => NewHistogram registry ns sub "http_req_connecting" "time spent establishing tcp connection" []
       | HTTPReqReceiving => NewHistogram registry ns sub "http_req_receiving" "time spent receiving response data" []
       | HTTPReqSending => NewHistogram registry ns sub "http_req_sending" "time spent sending data" []
       | HTTPReqTLSHandshaking => NewHistogram registry ns sub "http_req_tls_handshaking" "time spent handshaking tls session" []
       | HTTPReqWaiting => NewHistogram registry ns sub "http_req_waiting" "time spent waiting for response" []
       | HTTPReqDuration => NewHistogram registry ns sub "http_req_duration" "total time for the request" []
       | IterationDuration => NewHistogram registry ns sub "iteration_duration" "the time it took to complete one full iteration" []
       | Checks => NewHistogram registry ns sub "checks" "The rate of successful checks" []
       | HTTPReqFailed => NewHistogram registry ns sub "http_req_failed" "The rate of failed requests" []
       end |}.

Definition gaugeCollector (m : builtinMetrics) (f : gaugeField) : Collector :=
  {| kind := KGauge; opts := gaugeOpts (gauges m f) |}.
Definition counterCollector (m : builtinMetrics) (f : counterField) : Collector :=
  {| kind := KCounter; opts := counterOpts (counters m f) |}.
Definition histogramCollector (m : builtinMetrics) (f : histogramField) : Collector :=
  {| kind := KHistogram; opts := histogramOpts (histograms m f) |}.

(** The slice [metrics] of collectors to register, in the source's order
    (the [IterationDuration] histogram is not in it). *)
Definition builtinCollectors (m : builtinMetrics) : list Collector :=
  [ gaugeCollector m VUS;
    gaugeCollector m VUSMax;
    gaugeCollector m HTTPReqBlockedCurrent;
    gaugeCollector m HTTPReqConnectingCurrent;
    gaugeCollector m HTTPReqDurationCurrent;
    gaugeCollector m HTTPReqReceivingCurrent;
    gaugeCollector m HTTPReqSendingCurrent;
    gaugeCollector m HTTPReqTLSHandshakingCurrent;
    gaugeCollector m HTTPReqWaitingCurrent;
    gaugeCollector m IterationDurationCurrent;
    counterCollector m DataReceived;
    counterCollector m DataSent;
    counterCollector m HTTPReqs;
    counterCollector m Iterations;
    counterCollector m DroppedIterations;
    histogramCollector m HTTPReqBlocked;
    histogramCollector m HTTPReqConnecting;
    histogramCollector m HTTPReqReceiving;
    histogramCollector m HTTPReqSending;
    histogramCollector m HTTPReqTLSHandshaking;
    histogramCollector m HTTPReqWaiting;
    histogramCollector m HTTPReqDuration;
    histogramCollector m Checks;
    histogramCollector m HTTPReqFailed ].

(** The registration loop: [true] when every collector was registered,
    [false] at the first error (where the source returns [nil]); in both
    cases with the state the registry object is left in. *)
Fixpoint registerAll (registry : Registry) (metrics : list Collector)
  : Registry * bool :=
  match metrics with
  | [] => (registry, true)
  | collector :: rest =>
      match Register registry collector with
      | (registry', Some _) => (registry', false)
      | (registry', None) => registerAll registry' rest
      end
  end.

(** [NewPrometheusAdapter]: the adapter ([None] is [nil]) and the state in
    which the registry passed in is left. *)
Definition NewPrometheusAdapter (registry : Registry) (logger : FieldLogger)
           (ns sub : string) : option PrometheusAdapter * Registry :=
  let builtinMetrics := newBuiltinMetrics registry ns sub in
  let metrics := builtinCollectors builtinMetrics in
  match registerAll registry metrics with
  | (registry', false) => (None, registry')
  | (registry', true) =>
      (Some {| Subsystem := sub; Namespace := ns; logger := logger;
               registry := registry'; builtin := builtinMetrics |},
       registry')
  end.

(** ** The sample handlers *)

Definition handleCounter (a : PrometheusAdapter) (sample : Sample) : PrometheusAdapter :=
  let name := Name (metric sample) in
  if String.eqb name "data_received" then
    withBuiltin a (counterAdd DataReceived (Value sample) (builtin a))
  else if String.eqb name "data_sent" then
    withBuiltin a (counterAdd DataSent (Value sample) (builtin a))
  else if String.eqb name "http_reqs" then
    withBuiltin a (counterAdd HTTPReqs (Value sample) (builtin a))
  else if String.eqb name "iterations" then
    withBuiltin a (counterAdd Iterations (Value sample) (builtin a))
  else a.

Definition handleGauge (a : PrometheusAdapter) (sample : Sample) : PrometheusAdapter :=
  let name := Name (metric sample) in
  if String.eqb name "vus" then
    withBuiltin a (gaugeSet VUS (Value sample) (builtin a))
  else if String.eqb name "vus_max" then
    withBuiltin a (gaugeSet VUSMax (Value sample) (builtin a))
  else if String.eqb name "http_req_blocked_current" then
    withBuiltin a (gaugeSet HTTPReqBlockedCurrent (Value sample) (builtin a))
  else if String.eqb name "http_req_connecting_current" then
    withBuiltin a (gaugeSet HTTPReqConnectingCurrent (Value sample) (builtin a))
  else if String.eqb name "http_req_duration_current" then
    withBuiltin a (gaugeSet HTTPReqDurationCurrent (Value sample) (builtin a))
  else if String.eqb name "http_req_receiving_current" then
    withBuiltin a (gaugeSet HTTPReqReceivingCurrent (Value sample) (builtin a))
  else if String.eqb name "http_req_sending_current" then
    withBuiltin a (gaugeSet HTTPReqSendingCurrent (Value sample) (builtin a))
  else if String.eqb name "http_req_tls_handshaking_current" then
    withBuiltin a (gaugeSet HTTPReqTLSHandshakingCurrent (Value sample) (builtin a))
  else if String.eqb name "http_req_waiting_current" then
    withBuiltin a (gaugeSet HTTPReqWaitingCurrent (Value sample) (builtin a))
  else if String.eqb name "iteration_duration_current" then
    withBuiltin a (gaugeSet IterationDurationCurrent (Value sample) (builtin a))
  else a.

Definition handleRate (a : PrometheusAdapter) (sample : Sample) : PrometheusAdapter :=
  let name := Name (metric sample) in
  if String.eqb name "checks" then
    withBuiltin a (histogramObserve Checks (Value sample) (builtin a))
  else if String.eqb name "http_req_failed" then
    withBuiltin a (histogramObserve HTTPReqFailed (Value sample) (builtin a))
  else a.

(** The two statements of a case of [handleTrend]. *)
Definition setAndObserve (g : gaugeField) (h : histogramField) (v : R)
           (m : builtinMetrics) : builtinMetrics :=
  histogramObserve h v (gaugeSet g v m).

Definition handleTrend (a : PrometheusAdapter) (sample : Sample) : PrometheusAdapter :=
  let name := Name (metric sample) in
  if String.eqb name "http_req_blocked" then
    withBuiltin a (setAndObserve HTTPReqBlockedCurrent HTTPReqBlocked (Value sample) (builtin a))
  else if String.eqb name "http_req_connecting" then
    withBuiltin a (setAndObserve HTTPReqConnectingCurrent HTTPReqConnecting (Value sample) (builtin a))
  else if String.eqb name "http_req_duration" then
    withBuiltin a (setAndObserve HTTPReqDurationCurrent HTTPReqDuration (Value sample) (builtin a))
  else if String.eqb name "http_req_receiving" then
    withBuiltin a (setAndObserve HTTPReqReceivingCurrent HTTPReqReceiving (Value sample) (builtin a))
  else if String.eqb name "http_req_sending" then
    withBuiltin a (setAndObserve HTTPReqSendingCurrent HTTPReqSending (Value sample) (builtin a))
  else if String.eqb name "http_req_tls_handshaking" then
    withBuiltin a (setAndObserve HTTPReqTLSHandshakingCurrent HTTPReqTLSHandshaking (Value sample) (builtin a))
  else if String.eqb name "http_req_waiting" then
    withBuiltin a (setAndObserve HTTPReqWaitingCurrent HTTPReqWaiting (Value sample) (builtin a))
  else if String.eqb name "iteration_duration" then
    withBuiltin a (setAndObserve IterationDurationCurrent IterationDuration (Value sample) (builtin a))
  else a.

(** [HandleSample]: the switch on the type tag; the [default] case warns
    and returns. *)
Definition HandleSample (a : PrometheusAdapter) (sample : Sample) : PrometheusAdapter :=
  let t := Type_ (metric sample) in
  if (t =? Counter)%Z then handleCounter a sample
  else if (t =? Gauge)%Z then handleGauge a sample
  else if (t =? Rate)%Z then handleRate a sample
  else if (t =? Trend)%Z then handleTrend a sample
  else withLogger a (Warnf "Unknown metric type: %v" t (logger a)).

(** ** The names each handler recognises

    The case labels of the four [switch] statements, each with the
    instruments its case updates. *)
Definition counterCatalog : list (string * counterField) :=
  [ ("data_received", DataReceived); ("data_sent", DataSent);
    ("http_reqs", HTTPReqs); ("iterations", Iterations) ].

Definition gaugeCatalog : list (string * gaugeField) :=
  [ ("vus", VUS); ("vus_max", VUSMax);
    ("http_req_blocked_current", HTTPReqBlockedCurrent);
    ("http_req_connecting_current", HTTPReqConnectingCurrent);
    ("http_req_duration_current", HTTPReqDurationCurrent);
    ("http_req_receiving_current", HTTPReqReceivingCurrent);
    ("http_req_sending_current", HTTPReqSendingCurrent);
    ("http_req_tls_handshaking_current", HTTPReqTLSHandshakingCurrent);
    ("http_req_waiting_current", HTTPReqWaitingCurrent);
    ("iteration_duration_current", IterationDurationCurrent) ].

Definition rateCatalog : list (string * histogramField) :=
  [ ("checks", Checks); ("http_req_failed", HTTPReqFailed) ].

Definition trendCatalog : list (string * (gaugeField * histogramField)) :=
  [ ("http_req_blocked", (HTTPReqBlockedCurrent, HTTPReqBlocked));
    ("http_req_connecting", (HTTPReqConnectingCurrent, HTTPReqConnecting));
    ("http_req_duration", (HTTPReqDurationCurrent, HTTPReqDuration));
    ("http_req_receiving", (HTTPReqReceivingCurrent, HTTPReqReceiving));
    ("http_req_sending", (HTTPReqSendingCurrent, HTTPReqSending));
    ("http_req_tls_handshaking", (HTTPReqTLSHandshakingCurrent, HTTPReqTLSHandshaking));
    ("http_req_waiting", (HTTPReqWaitingCurrent, HTTPReqWaiting));
    ("iteration_duration", (IterationDurationCurrent, IterationDuration)) ].

(** The type tags with a handler, and the names of a tag's handler. *)
Definition knownType (t : MetricType) : bool :=
  ((t =? Counter) || (t =? Gauge) || (t =? Rate) || (t =? Trend))%Z.

Definition handlerNames (t : MetricType) : list string :=
  if (t =? Counter)%Z then map fst counterCatalog
  else if (t =? Gauge)%Z then map fst gaugeCatalog
  else if (t =? Rate)%Z then map fst rateCatalog
  else if (t =? Trend)%Z then map fst trendCatalog
  else [].

(** Handling [s] appended one entry at warning level to the log. *)
Definition warned (a : PrometheusAdapter) (s : Sample) : Prop :=
  exists e, logger (HandleSample a s) = (logger a ++ [e])%list
            /\ level e = WarnLevel.

(** A sample as the specification writes it: [{name, type, value}]. *)
Definition mkSample (name : string) (t : MetricType) (v : R) : Sample :=
  {| metric := {| Name := name; Type_ := t |}; Value := v |}.

End Internal.

(* ===================================================================== *)
(** * The output extension (package [dashboard]) *)
(* ===================================================================== *)

Module Dashboard.
Import Metrics Prometheus Logrus.

Definition pathMetrics : string := "/api/metrics".
Definition defaultPort : Z := 5665.
Definition defaultPeriod : Z := 10.

Record options := {
  Port : Z;
  Host : string;
  Period : Z;
  UI : string;
  Wait : Z
}.

(** A Go channel of sample groups: the values sent and not yet received,
    oldest first, and whether it has been closed. *)
Record channel := {
  queue : list (list SampleContainer);
  closed : bool
}.

(** [output.PeriodicFlusher]: its period and whether its timer still runs. *)
Record PeriodicFlusher := { period : Z; running : bool }.

(** [type Output struct].  The embedded [output.SampleBuffer] is the list
    of buffered containers; the embedded [*internal.PrometheusAdapter] and
    the [flusher] are pointers and may be [nil] ([None]); [wg] is the
    counter of the wait group. *)
Record Output := {
  SampleBuffer : list SampleContainer;
  PrometheusAdapter : option Internal.PrometheusAdapter;
  flusher : option PeriodicFlusher;
  addr : string;
  arg : string;
  logger : FieldLogger;
  sampleChannel : channel;
  wg : Z;
  workGroupCount : Z
}.

(** [output.Params]: the fields that [New] reads. *)
Record Params := { ConfigArgument : string; Logger : FieldLogger }.

(** What a lifecycle call does to the outside world, in order. *)
Inductive Event :=
| EvListen (addr : string)          (* net.Listen("tcp", addr) succeeded *)
| EvGoServe                         (* go http.Serve(listener, handler) *)
| EvGoMetricWorker                  (* go o.MetricWorker() *)
| EvFlusherStart (period : Z)       (* output.NewPeriodicFlusher succeeded *)
| EvFlusherStop                     (* o.flusher.Stop() *)
| EvWgWait                          (* o.wg.Wait() returned *)
| EvSleep (seconds : Z)             (* time.Sleep *)
| EvCloseChannel.                   (* close(o.sampleChannel) *)

(** The two nested [range] loops of a worker of [MetricWorker], on the
    adapter that the Output embeds. *)
Definition processGroup (a : Internal.PrometheusAdapter)
           (sampleGroup : list SampleContainer) : Internal.PrometheusAdapter :=
  fold_left
    (fun a sc =>
       let samples := GetSamples sc in
       fold_left (fun a entry => Internal.HandleSample a entry) samples a)
    sampleGroup a.

Section Collaborators.
(** The libraries and the host behind the extension: each is used by the
    source through one call and is a parameter here. *)
Variable NewRegistry : Registry.                 (* prometheus.NewRegistry() *)
Variable Values : Type.                          (* url.Values *)
Variable ParseQuery : string -> Values + Error.  (* url.ParseQuery *)
Variable Decode : options -> Values -> options + Error.
                                                 (* schema.NewDecoder().Decode *)
Variable Sprintf_addr : string -> Z -> string.   (* fmt.Sprintf("%s:%d", ..) *)
Variable Listen : string -> option Error.        (* net.Listen("tcp", ..) *)
Variable template_Parse : option Error.          (* template.New(..).Parse(index) *)
Variable renderPage : string -> option Error.    (* url.Parse(opts.UI), tmpl.Execute *)
Variable NewPeriodicFlusher : Z -> PeriodicFlusher + Error.
                                                 (* output.NewPeriodicFlusher *)

Definition New (params : Params) : Output + Error :=
  let registry := NewRegistry in
  let o :=
    {| SampleBuffer := [];
       PrometheusAdapter :=
         fst (Internal.NewPrometheusAdapter registry (Logger params) "" "");
       arg := ConfigArgument params;
       logger := Logger params;
       flusher := None;
       addr := "";
       sampleChannel := {| queue := []; closed := false |};
       wg := 0;
       workGroupCount := 0 |} in
  inl o.

(** [getopts]: Go's pair of a pointer and an error, exactly one of which
    is [nil], is a sum. *)
Definition getopts (qs : string) : options + Error :=
  let opts := {| Port := defaultPort; Host := ""; Period := defaultPeriod;
                 UI := ""; Wait := 0 |} in
  if String.eqb qs "" then inl opts
  else
    match ParseQuery qs with
    | inr err => inr err
    | inl v =>
        match Decode opts v with
        | inr err => inr err
        | inl opts => inl opts
        end
    end.

Definition withAddr (o : Output) (a : string) : Output :=
  {| SampleBuffer := SampleBuffer o; PrometheusAdapter := PrometheusAdapter o;
     flusher := flusher o; addr := a; arg := arg o; logger := logger o;
     sampleChannel := sampleChannel o; wg := wg o;
     workGroupCount := workGroupCount o |}.

Definition withFlusher (o : Output) (f : option PeriodicFlusher) : Output :=
  {| SampleBuffer := SampleBuffer o; PrometheusAdapter := PrometheusAdapter o;
     flusher := f; addr := addr o; arg := arg o; logger := logger o;
     sampleChannel := sampleChannel o; wg := wg o;
     workGroupCount := workGroupCount o |}.

Definition withLogger (o : Output) (l : FieldLogger) : Output :=
  {| SampleBuffer := SampleBuffer o; PrometheusAdapter := PrometheusAdapter o;
     flusher := flusher o; addr := addr o; arg := arg o; logger := l;
     sampleChannel := sampleChannel o; wg := wg o;
     workGroupCount := workGroupCount o |}.

Definition withChannel (o : Output) (c : channel) : Output :=
  {| SampleBuffer := SampleBuffer o; PrometheusAdapter := PrometheusAdapter o;
     flusher := flusher o; addr := addr o; arg := arg o; logger := logger o;
     sampleChannel := c; wg := wg o;
     workGroupCount := workGroupCount o |}.

Definition withBuffer (o : Output) (b : list SampleContainer) : Output :=
  {| SampleBuffer := b; PrometheusAdapter := PrometheusAdapter o;
     flusher := flusher o; addr := addr o; arg := arg o; logger := logger o;
     sampleChannel := sampleChannel o; wg := wg o;
     workGroupCount := workGroupCount o |}.

(** [o.handler(opts)]: the error, if any.  Reading the scrape handler
    off a [nil] adapter is a nil dereference. *)
Definition handler (o : Output) (opts : options) : outcome (option Error) :=
  match template_Parse with
  | Some err => Done (Some err)
  | None =>
      match PrometheusAdapter o with
      | None => Panic
      | Some _ => Done (renderPage (UI opts))
      end
  end.

(** [Start]: the receiver afterwards, what was set off, and the error. *)
Definition Start (o : Output) : outcome (Output * list Event * option Error) :=
  match getopts (arg o) with
  | inr err => Done (o, [], Some err)
  | inl opts =>
      let o := withAddr o (Sprintf_addr (Host opts) (Port opts)) in
      match Listen (addr o) with
      | Some err => Done (o, [], Some err)
      | None =>
          match handler o opts with
          | OutOfFuel => OutOfFuel
          | Panic => Panic
          | Done (Some err) => Done (o, [EvListen (addr o)], Some err)
          | Done None =>
              let started := [EvListen (addr o); EvGoServe; EvGoMetricWorker] in
              match NewPeriodicFlusher (Period opts) with
              | inr err => Done (withFlusher o None, started, Some err)
              | inl f =>
                  Done (withFlusher o (Some f),
                        started ++ [EvFlusherStart (Period opts)], None)
              end
          end
      end
  end.

(** [o.GetBufferedSamples()]: hands out the buffer and leaves it empty. *)
Definition GetBufferedSamples (o : Output) : list SampleContainer * Output :=
  (SampleBuffer o, withBuffer o []).

(** [flushMetrics].  The sends block while the channel is full and resume
    as the dispatch loop receives; what is modelled is the sequence of
    values sent.  A send on a closed channel panics. *)
Definition flushMetrics (fuel : nat) (o : Output) : outcome Output :=
  let (bufferSamples, o) := GetBufferedSamples o in
  let batchSize := 10000 in
  match splitAndSend fuel batchSize bufferSamples with
  | OutOfFuel => OutOfFuel
  | Panic => Panic
  | Done sent =>
      match sent, closed (sampleChannel o) with
      | _ :: _, true => Panic
      | _, _ =>
          let o := withChannel o
                     {| queue := queue (sampleChannel o) ++ sent;
                        closed := closed (sampleChannel o) |} in
          Done (withLogger o
                  (WithField_Info "Count" (workGroupCount o) "Work Group"
                                  (logger o)))
      end
  end.

(** [close(c)]: closing a closed channel panics. *)
Definition close (c : channel) : option channel :=
  if closed c then None else Some {| queue := queue c; closed := true |}.

(** [Stop], seen from the calling goroutine: the receiver afterwards, the
    calls made in order (the deferred [close] last) and the error.
    [o.flusher.Stop()] on a [nil] flusher panics.  What the flusher does
    to the buffer and the channel inside its own [Stop] is not followed
    here; the goroutine model below follows it. *)
Definition Stop (o : Output) : outcome (Output * list Event * option Error) :=
  match flusher o with
  | None => Panic
  | Some f =>
      let o := withFlusher o (Some {| period := period f; running := false |}) in
      let done := [EvFlusherStop; EvWgWait] in
      let ret (o : Output) (evs : list Event) (err : option Error) :=
        match close (sampleChannel o) with
        | None => Panic
        | Some c => Done (withChannel o c, evs ++ [EvCloseChannel], err)
        end in
      match getopts (arg o) with
      | inr err => ret o done (Some err)
      | inl opts =>
          if Wait opts >? 0 then
            let o := withLogger o (Infof "All set and wait %ds" (Wait opts) (logger o)) in
            ret o (done ++ [EvSleep (Wait opts)]) None
          else
            ret o done None
      end
  end.

End Collaborators.
End Dashboard.

(* ===================================================================== *)
(** * The goroutines of a running Output, one statement at a time *)
(* ===================================================================== *)

Module Concurrent.
Import Metrics Prometheus Logrus Dashboard.

(** Where a worker goroutine (the [go func] literal of [MetricWorker])
    stands.  Its two [defer]s run in reverse order when the loops end. *)
Inductive workerPc :=
| WSpawned (sampleGroup : list SampleContainer)
                             (* created; [o.wg.Add(1)] is next *)
| WAdded (sampleGroup : list SampleContainer)
                             (* [atomic.AddInt64(&o.workGroupCount, 1)] is next *)
| WRunning (todo : list Sample)
                             (* in the loops: the samples still to handle *)
| WWgDone                    (* the counter is decremented; [o.wg.Done()] is next *)
| WExited.

(** Where the goroutine that calls [Stop] stands. *)
Inductive stopPc :=
| SNotCalled                 (* [o.flusher.Stop()] is next *)
| SWait                      (* [o.wg.Wait()] is next *)
| SGetopts                   (* [getopts], and the sleep if any, are next *)
| SClose (err : option Error)(* the deferred [close] is next *)
| SReturned (err : option Error).

Record state := {
  adapter : Internal.PrometheusAdapter;   (* the embedded adapter, not nil *)
  buffer : list SampleContainer;          (* the embedded SampleBuffer *)
  chan : channel;                         (* o.sampleChannel, capacity 10 *)
  flusherRunning : bool;                  (* the timer of o.flusher *)
  wgCounter : Z;                          (* o.wg *)
  inFlight : Z;                           (* o.workGroupCount *)
  workers : list workerPc;                (* the workers, in spawning order *)
  stop : stopPc;
  slept : list Z                          (* the sleeps of [Stop] *)
}.

(** The granularity of the interleaving: what one scheduling step can be. *)
Inductive action :=
| AProduce (sc : SampleContainer)  (* the host adds a container to the buffer *)
| ATick                            (* the timer fires [flushMetrics] *)
| AReceive                         (* [MetricWorker] receives and spawns *)
| AWorker (i : nat)                (* worker [i] runs its next statement *)
| AStop.                           (* [Stop] runs its next statement *)

Definition capacity : Z := 10.

Definition setAdapter (s : state) a :=
  {| adapter := a; buffer := buffer s; chan := chan s;
     flusherRunning := flusherRunning s; wgCounter := wgCounter s;
     inFlight := inFlight s; workers := workers s; stop := stop s;
     slept := slept s |}.
Definition setBuffer (s : state) b :=
  {| adapter := adapter s; buffer := b; chan := chan s;
     flusherRunning := flusherRunning s; wgCounter := wgCounter s;
     inFlight := inFlight s; workers := workers s; stop := stop s;
     slept := slept s |}.
Definition setChan (s : state) c :=
  {| adapter := adapter s; buffer := buffer s; chan := c;
     flusherRunning := flusherRunning s; wgCounter := wgCounter s;
     inFlight := inFlight s; workers := workers s; stop := stop s;
     slept := slept s |}.
Definition setFlusherRunning (s : state) b :=
  {| adapter := adapter s; buffer := buffer s; chan := chan s;
     flusherRunning := b; wgCounter := wgCounter s;
     inFlight := inFlight s; workers := workers s; stop := stop s;
     slept := slept s |}.
Definition setWgCounter (s : state) n :=
  {| adapter := adapter s; buffer := buffer s; chan := chan s;
     flusherRunning := flusherRunning s; wgCounter := n;
     inFlight := inFlight s; workers := workers s; stop := stop s;
     slept := slept s |}.
Definition setInFlight (s : state) n :=
  {| adapter := adapter s; buffer := buffer s; chan := chan s;
     flusherRunning := flusherRunning s; wgCounter := wgCounter s;
     inFlight := n; workers := workers s; stop := stop s;
     slept := slept s |}.
Definition setWorkers (s : state) ws :=
  {| adapter := adapter s; buffer := buffer s; chan := chan s;
     flusherRunning := flusherRunning s; wgCounter := wgCounter s;
     inFlight := inFlight s; workers := ws; stop := stop s;
     slept := slept s |}.
Definition setStop (s : state) pc :=
  {| adapter := adapter s; buffer := buffer s; chan := chan s;
     flusherRunning := flusherRunning s; wgCounter := wgCounter s;
     inFlight := inFlight s; workers := workers s; stop := pc;
     slept := slept s |}.
Definition setSlept (s : state) l :=
  {| adapter := adapter s; buffer := buffer s; chan := chan s;
     flusherRunning := flusherRunning s; wgCounter := wgCounter s;
     inFlight := inFlight s; workers := workers s; stop := stop s;
     slept := l |}.

(** [flushMetrics] as one step.  It is taken only when every window fits
    in the channel, so that no send blocks half-way: fewer interleavings
    than the program has, each of them one of the program's. *)
Definition flushStep (s : state) : option state :=
  match splitAndSend (length (buffer s)) 10000 (buffer s) with
  | Done sent =>
      if closed (chan s) then
        match sent with [] => Some (setBuffer s []) | _ => None end
      else if len (queue (chan s)) + len sent <=? capacity then
        Some (setChan (setBuffer s [])
                      {| queue := queue (chan s) ++ sent; closed := false |})
      else None
  | _ => None
  end.

(** The samples of a group in the order of the two nested [range] loops. *)
Definition samplesOf (sampleGroup : list SampleContainer) : list Sample :=
  concat (map GetSamples sampleGroup).

(** One statement of a worker. *)
Definition workerStep (s : state) (pc : workerPc) : option (state * workerPc) :=
  match pc with
  | WSpawned g => Some (setWgCounter s (wgCounter s + 1), WAdded g)
  | WAdded g => Some (setInFlight s (inFlight s + 1), WRunning (samplesOf g))
  | WRunning (entry :: todo) =>
      Some (setAdapter s (Internal.HandleSample (adapter s) entry), WRunning todo)
  | WRunning [] => Some (setInFlight s (inFlight s - 1), WWgDone)
  | WWgDone => Some (setWgCounter s (wgCounter s - 1), WExited)
  | WExited => None
  end.

Fixpoint replaceNth {A} (i : nat) (x : A) (l : list A) : list A :=
  match l, i with
  | [], _ => []
  | _ :: t, O => x :: t
  | h :: t, S i => h :: replaceNth i x t
  end.

(** One statement of [Stop]; [reparse] is the result of [getopts(o.arg)]. *)
Definition stopStep (reparse : options + Error) (s : state) : option state :=
  match stop s with
  | SNotCalled =>
      (* o.flusher.Stop(): the timer stops; the flusher runs the flush
         callback a last time before the call returns *)
      match flushStep s with
      | Some s => Some (setStop (setFlusherRunning s false) SWait)
      | None => None
      end
  | SWait =>
      (* o.wg.Wait() returns only when the counter is zero *)
      if wgCounter s =? 0 then Some (setStop s SGetopts) else None
  | SGetopts =>
      match reparse with
      | inr err => Some (setStop s (SClose (Some err)))
      | inl opts =>
          if Wait opts >? 0
          then Some (setStop (setSlept s (slept s ++ [Wait opts])) (SClose None))
          else Some (setStop s (SClose None))
      end
  | SClose err =>
      match close (chan s) with
      | Some c => Some (setStop (setChan s c) (SReturned err))
      | None => None
      end
  | SReturned _ => None
  end.

(** One scheduling step; [None] when the action is not enabled. *)
Definition step (reparse : options + Error) (a : action) (s : state)
  : option state :=
  match a with
  | AProduce sc => Some (setBuffer s (buffer s ++ [sc]))
  | ATick => if flusherRunning s then flushStep s else None
  | AReceive =>
      match queue (chan s) with
      | sampleGroup :: rest =>
          Some (setWorkers
                  (setChan s {| queue := rest; closed := closed (chan s) |})
                  (workers s ++ [WSpawned sampleGroup]))
      | [] =>
          (* a closed and drained channel yields the zero value *)
          if closed (chan s)
          then Some (setWorkers s (workers s ++ [WSpawned []]))
          else None
      end
  | AWorker i =>
      match nth_error (workers s) i with
      | None => None
      | Some pc =>
          match workerStep s pc with
          | None => None
          | Some (s, pc) => Some (setWorkers s (replaceNth i pc (workers s)))
          end
      end
  | AStop => stopStep reparse s
  end.

(** A schedule, run from a state. *)
Fixpoint run (reparse : options + Error) (sched : list action) (s : state)
  : option state :=
  match sched with
  | [] => Some s
  | a :: sched =>
      match step reparse a s with
      | None => None
      | Some s => run reparse sched s
      end
  end.

(** The state in which a successful [Start] leaves the goroutines. *)
Definition started (a : Internal.PrometheusAdapter) : state :=
  {| adapter := a; buffer := [];
     chan := {| queue := []; closed := false |};
     flusherRunning := true; wgCounter := 0; inFlight := 0;
     workers := []; stop := SNotCalled; slept := [] |}.

End Concurrent.

(* ===================================================================== *)
(** * Concrete registries, adapters and outputs *)
(* ===================================================================== *)

Module Examples.
Import Metrics Prometheus Logrus Internal Dashboard.
Local Open Scope string_scope.

Definition sameName (c d : Collector) : bool :=
  String.eqb (OName (opts c)) (OName (opts d))
  && String.eqb (Prometheus.Namespace (opts c)) (Prometheus.Namespace (opts d))
  && String.eqb (Prometheus.Subsystem (opts c)) (Prometheus.Subsystem (opts d)).

(** A registry that refuses a collector whose name is already taken. *)
Definition uniqueCheck (cs : list Collector) (c : Collector) : option Error :=
  if existsb (sameName c) cs
  then Some "duplicate metrics collector registration attempted"
  else None.

Definition emptyRegistry : Registry :=
  {| collectors := []; check := uniqueCheck |}.

(** A registry in which a collector named [data_sent] is registered. *)
Definition takenRegistry : Registry :=
  {| collectors :=
       [ {| kind := KCounter;
            opts := {| Prometheus.Namespace := ""; Prometheus.Subsystem := "";
                       OName := "data_sent"; Help := "taken" |} |} ];
     check := uniqueCheck |}.

(** The adapter that [NewPrometheusAdapter] builds on [emptyRegistry]. *)
Definition adapter0 : Internal.PrometheusAdapter :=
  {| Internal.Subsystem := ""; Internal.Namespace := ""; Internal.logger := [];
     registry := snd (NewPrometheusAdapter emptyRegistry [] "" "");
     builtin := newBuiltinMetrics emptyRegistry "" "" |}.

(** Samples. *)
Definition droppedIterations : Sample := mkSample "dropped_iterations" Counter 1.
Definition unknownTag : Sample := mkSample "vus" 7 1.
Definition vus (v : R) : Sample := mkSample "vus" Gauge v.

(** A batch of two containers of [vus] samples. *)
Definition vusGroup : list SampleContainer :=
  [ {| GetSamples := [vus 1; vus 3] |}; {| GetSamples := [vus 2] |} ].

(** Stand-ins for the collaborators of the output: a query parser that
    refuses a semicolon, a decoder that knows the single setting [Wait=5],
    a listener and a page that never fail, a flusher that wants a positive
    period. *)
Fixpoint hasSemicolon (qs : string) : bool :=
  match qs with
  | EmptyString => false
  | String c qs => Ascii.eqb c ";" || hasSemicolon qs
  end.

Definition demoParseQuery (qs : string) : string + Error :=
  if hasSemicolon qs then inr "invalid semicolon separator in query" else inl qs.

Definition demoDecode (opts : options) (v : string) : options + Error :=
  if String.eqb v "Wait=5"
  then inl {| Port := Port opts; Host := Host opts; Period := Period opts;
              UI := UI opts; Wait := 5 |}
  else inr "schema: invalid path".

Definition demoSprintf (host : string) (port : Z) : string := host.
Definition demoListen (addr : string) : option Error := None.
Definition demoRender (ui : string) : option Error := None.
Definition demoFlusher (p : Z) : PeriodicFlusher + Error :=
  if (p <=? 0)%Z then inr "metric flush period should be positive"
  else inl {| period := p; running := true |}.

(** An Output that has been started, with a given configuration. *)
Definition running (config : string) : Output :=
  {| SampleBuffer := [];
     PrometheusAdapter := Some adapter0;
     flusher := Some {| period := 10; running := true |};
     addr := ""; arg := config; logger := [];
     sampleChannel := {| queue := []; closed := false |};
     wg := 0; workGroupCount := 0 |}.

(** An Output as [New] leaves it, with a given configuration. *)
Definition created (config : string) : Output :=
  {| SampleBuffer := [];
     PrometheusAdapter := Some adapter0;
     flusher := None;
     addr := ""; arg := config; logger := [];
     sampleChannel := {| queue := []; closed := false |};
     wg := 0; workGroupCount := 0 |}.

(** The builtin collectors on [takenRegistry]: the eleven before the
    [data_sent] counter, that counter, and the twelve after it. *)
Definition onTaken : list Collector :=
  builtinCollectors (newBuiltinMetrics takenRegistry "" "").
Definition beforeDataSent : list Collector := firstn 11 onTaken.
Definition afterDataSent : list Collector := skipn 12 onTaken.
Definition dataSent : Collector :=
  counterCollector (newBuiltinMetrics takenRegistry "" "") DataSent.

(** A schedule: one [vus] sample is buffered, flushed and received; [Stop]
    runs up to and past its [Wait] while the worker has not yet reached
    its [Add]; the worker then counts itself in; [Stop] returns. *)
Definition stopEarly : list Concurrent.action :=
  [ Concurrent.AProduce {| GetSamples := [vus 7] |};
    Concurrent.ATick;
    Concurrent.AReceive;
    Concurrent.AStop;          (* o.flusher.Stop() *)
    Concurrent.AStop;          (* o.wg.Wait(): the counter is still 0 *)
    Concurrent.AWorker 0;      (* o.wg.Add(1) *)
    Concurrent.AWorker 0;      (* atomic.AddInt64(&o.workGroupCount, 1) *)
    Concurrent.AStop;          (* getopts *)
    Concurrent.AStop ].        (* close; Stop returns *)

(** The worker's next statement after that: [o.HandleSample(&entry)]. *)
Definition afterStop : list Concurrent.action := [ Concurrent.AWorker 0 ].

Definition defaults : options :=
  {| Port := 5665; Host := ""; Period := 10; UI := ""; Wait := 0 |}.

(** What is read off the state that a schedule leads to, from the start
    of a run with the default options ([None] when the schedule cannot be
    followed). *)
Definition after {A} (sched : list Concurrent.action) (read : Concurrent.state -> A)
  : option A :=
  option_map read (Concurrent.run (inl defaults) sched (Concurrent.started adapter0)).

Definition vusGauge (s : Concurrent.state) : R :=
  current (gauges (builtin (Concurrent.adapter s)) VUS).

End Examples.

Module FlushExamples.
Import Metrics Dashboard.

Definition container (name : string) (t : MetricType) (v : R) : SampleContainer :=
  {| GetSamples := [ {| metric := {| Name := name; Type_ := t |}; Value := v |} ] |}.

(** An Output with three containers in its buffer and an open channel. *)
Definition three : Output :=
  {| SampleBuffer := [ container "vus" Gauge 1; container "http_reqs" Counter 1;
                       container "vus" Gauge 2 ];
     PrometheusAdapter := None; flusher := None; addr := ""; arg := "";
     logger := [];
     sampleChannel := {| queue := []; closed := false |};
     wg := 0; workGroupCount := 0 |}.

End FlushExamples.

(* ===================================================================== *)
(** * What a stream of samples amounts to *)
(* ===================================================================== *)

Module Effects.
Import Metrics Prometheus Logrus Internal.

(** The entry of a catalog under a name, the first one if there are several. *)
Fixpoint lookup {B : Type} (name : string) (catalog : list (string * B)) : option B :=
  match catalog with
  | [] => None
  | (key, b) :: rest => if String.eqb name key then Some b else lookup name rest
  end.

(** The counter, the gauge and the histogram that a sample reaches, if any:
    its type tag selects the handler, its name the case. *)
Definition counterOf (s : Sample) : option counterField :=
  if Type_ (metric s) =? Counter then lookup (Name (metric s)) counterCatalog
  else None.

Definition gaugeOf (s : Sample) : option gaugeField :=
  if Type_ (metric s) =? Gauge then lookup (Name (metric s)) gaugeCatalog
  else if Type_ (metric s) =? Trend
       then option_map fst (lookup (Name (metric s)) trendCatalog)
       else None.

Definition histogramOf (s : Sample) : option histogramField :=
  if Type_ (metric s) =? Rate then lookup (Name (metric s)) rateCatalog
  else if Type_ (metric s) =? Trend
       then option_map snd (lookup (Name (metric s)) trendCatalog)
       else None.

Definition counterHit (f : counterField) (s : Sample) : bool :=
  match counterOf s with
  | Some f' => if counterField_eq_dec f' f then true else false
  | None => false
  end.

Definition gaugeHit (f : gaugeField) (s : Sample) : bool :=
  match gaugeOf s with
  | Some f' => if gaugeField_eq_dec f' f then true else false
  | None => false
  end.

Definition histogramHit (f : histogramField) (s : Sample) : bool :=
  match histogramOf s with
  | Some f' => if histogramField_eq_dec f' f then true else false
  | None => false
  end.

(** The update of [builtinMetrics] that a sample amounts to. *)
Definition effect (s : Sample) (m : builtinMetrics) : builtinMetrics :=
  let m := match counterOf s with
           | Some f => counterAdd f (Value s) m
           | None => m
           end in
  let m := match gaugeOf s with
           | Some f => gaugeSet f (Value s) m
           | None => m
           end in
  match histogramOf s with
  | Some f => histogramObserve f (Value s) m
  | None => m
  end.

(** The sum of the values that a stream adds to a counter, the values it
    feeds to a histogram, in order, and the value it last sets a gauge to. *)
Definition counterSum (f : counterField) (ss : list Sample) : R :=
  fold_right Rplus 0%R (map Value (filter (counterHit f) ss)).

Definition observed (f : histogramField) (ss : list Sample) : list R :=
  map Value (filter (histogramHit f) ss).

Fixpoint lastSet (f : gaugeField) (ss : list Sample) : option R :=
  match ss with
  | [] => None
  | s :: rest =>
      match lastSet f rest with
      | Some v => Some v
      | None => if gaugeHit f s then Some (Value s) else None
      end
  end.

(** The warning that [HandleSample] writes for an unknown type tag, and the
    warnings of a stream. *)
Definition unknownTypeWarning (s : Sample) : Entry :=
  {| level := WarnLevel; message := "Unknown metric type: %v";
     args := [Type_ (metric s)]; fields := [] |}.

Definition warnings (ss : list Sample) : list Entry :=
  map unknownTypeWarning
      (filter (fun s => negb (knownType (Type_ (metric s)))) ss).

(** Strictly increasing bounds. *)
Fixpoint increasing (l : list R) : Prop :=
  match l with
  | a :: (b :: _) as rest => (a < b)%R /\ increasing rest
  | _ => True
  end.

(** No string twice. *)
Fixpoint distinct (l : list string) : bool :=
  match l with
  | [] => true
  | x :: rest => negb (existsb (String.eqb x) rest) && distinct rest
  end.

(** The fully qualified name under which a collector is exposed. *)
Definition collectorNames (cs : list Collector) : list string :=
  map (fun c => OName (opts c)) cs.

End Effects.

(* ===================================================================== *)
(** * More collaborators and outputs *)
(* ===================================================================== *)

Module Cases.
Import Metrics Prometheus Logrus Internal Dashboard.
Local Open Scope string_scope.

(** [o.Description()]: [fmt.Sprintf] with one [%s] is a concatenation. *)
Definition Description (o : Output) : string :=
  "dashboard (" ++ addr o ++ ")".

(** A decoder that knows the settings [Wait=5] and [Period=0]. *)
Definition decodePeriod (opts : options) (v : string) : options + Error :=
  if String.eqb v "Wait=5"
  then inl {| Port := Port opts; Host := Host opts; Period := Period opts;
              UI := UI opts; Wait := 5 |}
  else if String.eqb v "Period=0"
  then inl {| Port := Port opts; Host := Host opts; Period := 0;
              UI := UI opts; Wait := Wait opts |}
  else inr "schema: invalid path".

(** A stream of mixed samples: counters, a gauge, a trend, a rate, a name
    that no handler knows and a type tag that [HandleSample] does not. *)
Definition mixed : list Sample :=
  [ mkSample "http_reqs" Counter 1;
    mkSample "vus" Gauge 3;
    mkSample "http_req_duration" Trend 120.5;
    mkSample "http_reqs" Counter 1;
    mkSample "checks" Rate 1;
    mkSample "dropped_iterations" Counter 4;
    mkSample "vus" 7%Z 9;
    mkSample "http_req_duration" Trend 80;
    mkSample "data_sent" Counter 512 ].

(** The mixed stream as a batch of two containers. *)
Definition mixedGroup : list SampleContainer :=
  [ {| GetSamples := firstn 4 mixed |}; {| GetSamples := skipn 4 mixed |} ].

(** The same samples in the opposite order. *)
Definition shuffled : list Sample := rev mixed.

(** A state of the goroutines after [Stop]: the channel closed and drained. *)
Definition stopped : Concurrent.state :=
  {| Concurrent.adapter := Examples.adapter0;
     Concurrent.buffer := [];
     Concurrent.chan := {| queue := []; closed := true |};
     Concurrent.flusherRunning := false;
     Concurrent.wgCounter := 0;
     Concurrent.inFlight := 0;
     Concurrent.workers := [];
     Concurrent.stop := Concurrent.SReturned None;
     Concurrent.slept := [] |}.


(** An Output whose channel is closed while its buffer holds a container. *)
Definition late : Output :=
  {| SampleBuffer := [ {| GetSamples := [mkSample "vus" Gauge 1] |} ];
     PrometheusAdapter := Some Examples.adapter0;
     flusher := Some {| period := 10; running := false |};
     addr := ""; arg := ""; logger := [];
     sampleChannel := {| queue := []; closed := true |};
     wg := 0; workGroupCount := 0 |}.

(** An Output that has been stopped. *)
Definition down : Output :=
  {| SampleBuffer := [];
     PrometheusAdapter := Some Examples.adapter0;
     flusher := Some {| period := 10; running := false |};
     addr := ""; arg := ""; logger := [];
     sampleChannel := {| queue := []; closed := true |};
     wg := 0; workGroupCount := 0 |}.

(** [FlushExamples.three] after a flush. *)
Definition flushed : Output :=
  {| SampleBuffer := [];
     PrometheusAdapter := None; flusher := None; addr := ""; arg := "";
     logger := [ {| level := InfoLevel; message := "Work Group"; args := [];
                    fields := [("Count", 0%Z)] |} ];
     sampleChannel := {| queue := [SampleBuffer FlushExamples.three];
                         closed := false |};
     wg := 0; workGroupCount := 0 |}.

(** The line that [flushMetrics] logs. *)
Definition workGroupLine (count : Z) : Entry :=
  {| level := InfoLevel; message := "Work Group"; args := [];
     fields := [("Count", count)] |}.

End Cases.

(* ===================================================================== *)
(** * The handlers with the guard of the counters *)
(* ===================================================================== *)

Module Guarded.
Import Metrics Prometheus Logrus Internal.

(** Modelled from the spec: the guard of [prometheus.Counter.Add].  A counter
    is a "monotonically non-decreasing" total: [Add] refuses a negative
    increment with a panic ("counter cannot decrease in value") and, for any
    other value, does what [Prometheus.Add] says. *)
Definition refuses (v : R) : {(v < 0)%R} + {~ (v < 0)%R} := Rlt_dec v 0.

(** [m.<f>.Add(v)]. *)
Definition counterAdd (f : counterField) (v : R) (m : builtinMetrics)
  : outcome builtinMetrics :=
  if refuses v then Panic else Done (Internal.counterAdd f v m).

(** A handler's adapter after an update that may have panicked. *)
Definition updated (a : PrometheusAdapter) (r : outcome builtinMetrics)
  : outcome PrometheusAdapter :=
  match r with
  | Done m => Done (withBuiltin a m)
  | Panic => Panic
  | OutOfFuel => OutOfFuel
  end.

Local Open Scope string_scope.

Definition handleCounter (a : PrometheusAdapter) (sample : Sample)
  : outcome PrometheusAdapter :=
  let name := Name (metric sample) in
  if String.eqb name "data_received" then
    updated a (counterAdd DataReceived (Value sample) (builtin a))
  else if String.eqb name "data_sent" then
    updated a (counterAdd DataSent (Value sample) (builtin a))
  else if String.eqb name "http_reqs" then
    updated a (counterAdd HTTPReqs (Value sample) (builtin a))
  else if String.eqb name "iterations" then
    updated a (counterAdd Iterations (Value sample) (builtin a))
  else Done a.

(** [HandleSample]: the gauges and the histograms take any value, so that
    the other three handlers and the default case always return. *)
Definition HandleSample (a : PrometheusAdapter) (sample : Sample)
  : outcome PrometheusAdapter :=
  let t := Type_ (metric sample) in
  if (t =? Counter)%Z then handleCounter a sample
  else if (t =? Gauge)%Z then Done (Internal.handleGauge a sample)
  else if (t =? Rate)%Z then Done (Internal.handleRate a sample)
  else if (t =? Trend)%Z then Done (Internal.handleTrend a sample)
  else Done (withLogger a (Warnf "Unknown metric type: %v" t (logger a))).

(** The inner loop of a worker, [for _, entry := range samples]: a panic
    ends it. *)
Fixpoint handleAll (a : PrometheusAdapter) (samples : list Sample)
  : outcome PrometheusAdapter :=
  match samples with
  | [] => Done a
  | entry :: rest =>
      match HandleSample a entry with
      | Done a => handleAll a rest
      | Panic => Panic
      | OutOfFuel => OutOfFuel
      end
  end.

(** The outer loop, [for _, sc := range sampleGroup]. *)
Fixpoint processGroup (a : PrometheusAdapter) (sampleGroup : list SampleContainer)
  : outcome PrometheusAdapter :=
  match sampleGroup with
  | [] => Done a
  | sc :: rest =>
      match handleAll a (GetSamples sc) with
      | Done a => processGroup a rest
      | Panic => Panic
      | OutOfFuel => OutOfFuel
      end
  end.

(** A sample that no counter refuses: it reaches no counter, or its value
    is not negative. *)
Definition accepted (s : Sample) : Prop :=
  Effects.counterOf s <> None -> (0 <= Value s)%R.

(** A negative Counter sample of [http_reqs]. *)
Definition negative : Sample := mkSample "http_reqs" Counter (-1).

(** Whether the bounds are in strictly increasing order. *)
Fixpoint ordered (l : list R) : bool :=
  match l with
  | a :: (b :: _) as rest => if Rlt_dec a b then ordered rest else false
  | _ => true
  end.

(** Modelled from the spec: the guard of [prometheus.NewHistogram], which
    panics when the upper bounds of the buckets are not in strictly
    increasing order.  [NewHistogram] of the adapter with that guard. *)
Definition NewHistogram (registry : Registry) (namespace subsystem name help : string)
           (buckets : list R) : outcome HistogramI :=
  let metric := Internal.NewHistogram registry namespace subsystem name help buckets in
  if ordered (Buckets metric) then Done metric else Panic.

End Guarded.

(* ===================================================================== *)
(** * The goroutines, one shared operation at a time *)
(* ===================================================================== *)

(** The goroutines of a running Output at the granularity of their
    operations on what they share: the buffer, the channel, the wait
    group, the in-flight counter, the instruments and the logger.  A send
    that finds the channel full is a state in which the flusher cannot
    move; a panic ends the process once the deferred calls of its goroutine
    have run. *)
Module Interleaving.
Import Metrics Prometheus Logrus Dashboard.

(** The run-time panics of the goroutines. *)
Inductive panic :=
| CounterDecrease            (* "counter cannot decrease in value" *)
| SendOnClosed               (* "send on closed channel" *)
| CloseOfClosed              (* "close of closed channel" *)
| SliceBounds                (* "slice bounds out of range" *)
| NegativeWaitGroup.         (* "sync: negative WaitGroup counter" *)

(** Where the goroutine of [o.flusher] stands.

    Modelled from the spec: the loop of [output.PeriodicFlusher], which
    waits for a tick of its timer or for the stop signal; on a tick it
    calls [flushMetrics] and waits again, on the stop signal it calls
    [flushMetrics] a last time and exits.  Inside [flushMetrics] the
    goroutine holds the drained buffer and the two bounds of the loop. *)
Inductive flusherPc :=
| FSelect                    (* waiting for a tick or for the stop signal *)
| FLoop (last : bool) (bufferSamples : list SampleContainer) (lower upper : Z)
                             (* at the test of the [for] of [flushMetrics] *)
| FExited.

(** Where a worker goroutine (the [go func] literal of [MetricWorker])
    stands.  Its two [defer]s run in reverse order when the loops end, and
    also when [HandleSample] panics. *)
Inductive workerPc :=
| WSpawned (sampleGroup : list SampleContainer)
                             (* created; [o.wg.Add(1)] is next *)
| WAdded (sampleGroup : list SampleContainer)
                             (* [atomic.AddInt64(&o.workGroupCount, 1)] is next *)
| WRunning (todo : list Sample)
                             (* in the loops: the samples still to handle *)
| WObserving (h : Internal.histogramField) (entry : Sample) (todo : list Sample)
                             (* in a case of [handleTrend] for [entry],
                                between its [Set] and its [Observe] *)
| WUnwinding (p : panic)     (* panicking; the deferred decrement is next *)
| WWgDone (p : option panic) (* the counter is decremented; [o.wg.Done()] is
                                next, and the crash if the worker panicked *)
| WExited.

(** Where the goroutine that calls [Stop] stands; [Stop] is called once. *)
Inductive stopPc :=
| SNotCalled                 (* [o.flusher.Stop()] is next: it signals *)
| SJoin                      (* ... and waits for the flusher to exit *)
| SWait                      (* [o.wg.Wait()] is next *)
| SGetopts                   (* [getopts], and the sleep if any, are next *)
| SClose (err : option Error)(* the deferred [close] is next *)
| SReturned (err : option Error).

Record state := {
  adapter : Internal.PrometheusAdapter;      (* the embedded adapter, not nil *)
  logger : FieldLogger;                      (* o.logger *)
  buffer : list SampleContainer;             (* the embedded SampleBuffer *)
  chan : channel;                            (* o.sampleChannel, capacity 10 *)
  flusher : flusherPc;                       (* the goroutine of o.flusher *)
  stopRequested : bool;                      (* the stop signal of o.flusher *)
  wgCounter : Z;                             (* the counter of o.wg, an int32 *)
  inFlight : Z;                              (* o.workGroupCount, an int64 *)
  workers : list workerPc;                   (* the workers, in spawning order *)
  stop : stopPc;                             (* the goroutine that calls Stop *)
  slept : list Z;                            (* the sleeps of Stop *)
  crashed : option panic                     (* the panic that ended the process *)
}.

Definition setAdapter (s : state) (x : Internal.PrometheusAdapter) : state :=
  {| adapter := x; logger := logger s; buffer := buffer s; chan := chan s;
     flusher := flusher s; stopRequested := stopRequested s;
     wgCounter := wgCounter s; inFlight := inFlight s; workers := workers s;
     stop := stop s; slept := slept s; crashed := crashed s |}.
Definition setLogger (s : state) (x : FieldLogger) : state :=
  {| adapter := adapter s; logger := x; buffer := buffer s; chan := chan s;
     flusher := flusher s; stopRequested := stopRequested s;
     wgCounter := wgCounter s; inFlight := inFlight s; workers := workers s;
     stop := stop s; slept := slept s; crashed := crashed s |}.
Definition setBuffer (s : state) (x : list SampleContainer) : state :=
  {| adapter := adapter s; logger := logger s; buffer := x; chan := chan s;
     flusher := flusher s; stopRequested := stopRequested s;
     wgCounter := wgCounter s; inFlight := inFlight s; workers := workers s;
     stop := stop s; slept := slept s; crashed := crashed s |}.
Definition setChan (s : state) (x : channel) : state :=
  {| adapter := adapter s; logger := logger s; buffer := buffer s; chan := x;
     flusher := flusher s; stopRequested := stopRequested s;
     wgCounter := wgCounter s; inFlight := inFlight s; workers := workers s;
     stop := stop s; slept := slept s; crashed := crashed s |}.
Definition setFlusher (s : state) (x : flusherPc) : state :=
  {| adapter := adapter s; logger := logger s; buffer := buffer s;
     chan := chan s; flusher := x; stopRequested := stopRequested s;
     wgCounter := wgCounter s; inFlight := inFlight s; workers := workers s;
     stop := stop s; slept := slept s; crashed := crashed s |}.
Definition setStopRequested (s : state) (x : bool) : state :=
  {| adapter := adapter s; logger := logger s; buffer := buffer s;
     chan := chan s; flusher := flusher s; stopRequested := x;
     wgCounter := wgCounter s; inFlight := inFlight s; workers := workers s;
     stop := stop s; slept := slept s; crashed := crashed s |}.
Definition setWgCounter (s : state) (x : Z) : state :=
  {| adapter := adapter s; logger := logger s; buffer := buffer s;
     chan := chan s; flusher := flusher s; stopRequested := stopRequested s;
     wgCounter := x; inFlight := inFlight s; workers := workers s;
     stop := stop s; slept := slept s; crashed := crashed s |}.
Definition setInFlight (s : state) (x : Z) : state :=
  {| adapter := adapter s; logger := logger s; buffer := buffer s;
     chan := chan s; flusher := flusher s; stopRequested := stopRequested s;
     wgCounter := wgCounter s; inFlight := x; workers := workers s;
     stop := stop s; slept := slept s; crashed := crashed s |}.
Definition setWorkers (s : state) (x : list workerPc) : state :=
  {| adapter := adapter s; logger := logger s; buffer := buffer s;
     chan := chan s; flusher := flusher s; stopRequested := stopRequested s;
     wgCounter := wgCounter s; inFlight := inFlight s; workers := x;
     stop := stop s; slept := slept s; crashed := crashed s |}.
Definition setStop (s : state) (x : stopPc) : state :=
  {| adapter := adapter s; logger := logger s; buffer := buffer s;
     chan := chan s; flusher := flusher s; stopRequested := stopRequested s;
     wgCounter := wgCounter s; inFlight := inFlight s; workers := workers s;
     stop := x; slept := slept s; crashed := crashed s |}.
Definition setSlept (s : state) (x : list Z) : state :=
  {| adapter := adapter s; logger := logger s; buffer := buffer s;
     chan := chan s; flusher := flusher s; stopRequested := stopRequested s;
     wgCounter := wgCounter s; inFlight := inFlight s; workers := workers s;
     stop := stop s; slept := x; crashed := crashed s |}.
Definition setCrashed (s : state) (x : option panic) : state :=
  {| adapter := adapter s; logger := logger s; buffer := buffer s;
     chan := chan s; flusher := flusher s; stopRequested := stopRequested s;
     wgCounter := wgCounter s; inFlight := inFlight s; workers := workers s;
     stop := stop s; slept := slept s; crashed := x |}.

(** What one scheduling step can be. *)
Inductive action :=
| AProduce (sc : SampleContainer)  (* the host adds a container to the buffer *)
| ATick                            (* the timer fires: the flusher wakes up *)
| AFlusher                         (* the flusher runs its next operation *)
| AReceive                         (* [MetricWorker] receives and spawns *)
| AWorker (i : nat)                (* worker [i] runs its next operation *)
| AStop.                           (* [Stop] runs its next operation *)

(** [make(chan []metrics.SampleContainer, 10)]. *)
Definition capacity : Z := 10.

(** Two's complement wrap-around into [int32]. *)
Definition wrap32 (z : Z) : Z := (z + 2 ^ 31) mod 2 ^ 32 - 2 ^ 31.

(** Modelled from the spec: [sync.WaitGroup.Add(delta)], of which
    [Done()] is [Add(-1)].  The counter is an [int32]; the call adds to it
    and then panics if it has become negative. *)
Definition wgAdd (delta counter : Z) : Z * bool :=
  let v := wrap32 (counter + delta) in (v, v <? 0).

(** The case of [handleTrend] that a sample of type Trend selects: the
    gauge that its first statement sets and the histogram that its second
    statement feeds. *)
Definition trendCase (sample : Sample) : option (Internal.gaugeField * Internal.histogramField) :=
  if Type_ (metric sample) =? Trend
  then Effects.lookup (Name (metric sample)) Internal.trendCatalog
  else None.

(** The samples of a group in the order of the two nested [range] loops. *)
Definition samplesOf (sampleGroup : list SampleContainer) : list Sample :=
  concat (map GetSamples sampleGroup).

(** The start of [flushMetrics]: the buffer is drained and the bounds of
    the first window are set. *)
Definition beginFlush (last : bool) (s : state) : state :=
  let bufferSamples := buffer s in
  let lower := 0 in
  let batchSize := 10000 in
  let bufferSize := len bufferSamples in
  let upper := if batchSize >? bufferSize then bufferSize else batchSize in
  setFlusher (setBuffer s []) (FLoop last bufferSamples lower upper).

(** One operation of the flusher: the start of the last flush when the
    stop signal is there, one round of the [for] of [flushMetrics] with
    its send, or the log line after the loop.  A send blocks while the
    channel is full ([None]: the goroutine cannot move) and panics when the
    channel is closed. *)
Definition flusherStep (s : state) : option state :=
  match flusher s with
  | FSelect => if stopRequested s then Some (beginFlush true s) else None
  | FLoop last bufferSamples lower upper =>
      let batchSize := 10000 in
      let bufferSize := len bufferSamples in
      if lower <=? int_sub bufferSize 1 then
        match slice bufferSamples lower upper with
        | None => Some (setCrashed s (Some SliceBounds))
        | Some samplesGroup =>
            if closed (chan s) then Some (setCrashed s (Some SendOnClosed))
            else if len (queue (chan s)) <? capacity then
              let lower := upper in
              let upper := int_add upper batchSize in
              let upper := if upper >=? bufferSize then bufferSize else upper in
              Some (setFlusher
                      (setChan s {| queue := queue (chan s) ++ [samplesGroup];
                                    closed := false |})
                      (FLoop last bufferSamples lower upper))
            else None
        end
      else
        Some (setFlusher
                (setLogger s (WithField_Info "Count" (inFlight s) "Work Group"
                                             (logger s)))
                (if last then FExited else FSelect))
  | FExited => None
  end.

(** One operation of a worker.  [HandleSample] is one operation on one
    instrument or on the logger, except in a case of [handleTrend], which
    is two: other workers can run between its [Set] and its [Observe]. *)
Definition workerStep (s : state) (pc : workerPc) : option (state * workerPc) :=
  match pc with
  | WSpawned g =>
      match wgAdd 1 (wgCounter s) with
      | (n, false) => Some (setWgCounter s n, WAdded g)
      | (n, true) => Some (setWgCounter s n, WUnwinding NegativeWaitGroup)
      end
  | WAdded g => Some (setInFlight s (int_add (inFlight s) 1), WRunning (samplesOf g))
  | WRunning (entry :: todo) =>
      match trendCase entry with
      | Some (g, h) =>
          Some (setAdapter s (Internal.withBuiltin (adapter s)
                                (Internal.gaugeSet g (Value entry)
                                   (Internal.builtin (adapter s)))),
                WObserving h entry todo)
      | None =>
          match Guarded.HandleSample (adapter s) entry with
          | Done a => Some (setAdapter s a, WRunning todo)
          | _ => Some (s, WUnwinding CounterDecrease)
          end
      end
  | WObserving h entry todo =>
      Some (setAdapter s (Internal.withBuiltin (adapter s)
                            (Internal.histogramObserve h (Value entry)
                               (Internal.builtin (adapter s)))),
            WRunning todo)
  | WRunning [] => Some (setInFlight s (int_add (inFlight s) (-1)), WWgDone None)
  | WUnwinding p => Some (setInFlight s (int_add (inFlight s) (-1)), WWgDone (Some p))
  | WWgDone p =>
      match wgAdd (-1) (wgCounter s), p with
      | (n, false), None => Some (setWgCounter s n, WExited)
      | (n, false), Some p => Some (setCrashed (setWgCounter s n) (Some p), WExited)
      | (n, true), _ =>
          Some (setCrashed (setWgCounter s n) (Some NegativeWaitGroup), WExited)
      end
  | WExited => None
  end.

Fixpoint replaceNth {A} (i : nat) (x : A) (l : list A) : list A :=
  match l, i with
  | [], _ => []
  | _ :: t, O => x :: t
  | h :: t, S i => h :: replaceNth i x t
  end.

(** One operation of [Stop]; [reparse] is the result of [getopts(o.arg)]. *)
Definition stopStep (reparse : options + Error) (s : state) : option state :=
  match stop s with
  | SNotCalled => Some (setStop (setStopRequested s true) SJoin)
  | SJoin =>
      match flusher s with
      | FExited => Some (setStop s SWait)
      | _ => None
      end
  | SWait =>
      (* o.wg.Wait() returns only when the counter is zero *)
      if wgCounter s =? 0 then Some (setStop s SGetopts) else None
  | SGetopts =>
      match reparse with
      | inr err => Some (setStop s (SClose (Some err)))
      | inl opts =>
          if Wait opts >? 0
          then Some (setStop
                       (setSlept
                          (setLogger s (Infof "All set and wait %ds" (Wait opts)
                                              (logger s)))
                          (slept s ++ [Wait opts]))
                       (SClose None))
          else Some (setStop s (SClose None))
      end
  | SClose err =>
      match close (chan s) with
      | Some c => Some (setStop (setChan s c) (SReturned err))
      | None => Some (setCrashed s (Some CloseOfClosed))
      end
  | SReturned _ => None
  end.

(** One scheduling step; [None] when the action is not enabled.  Nothing
    runs once the process has crashed. *)
Definition step (reparse : options + Error) (a : action) (s : state)
  : option state :=
  match crashed s with
  | Some _ => None
  | None =>
      match a with
      | AProduce sc => Some (setBuffer s (buffer s ++ [sc]))
      | ATick =>
          match flusher s with
          | FSelect => Some (beginFlush false s)
          | _ => None
          end
      | AFlusher => flusherStep s
      | AReceive =>
          match queue (chan s) with
          | sampleGroup :: rest =>
              Some (setWorkers
                      (setChan s {| queue := rest; closed := closed (chan s) |})
                      (workers s ++ [WSpawned sampleGroup]))
          | [] =>
              (* a closed and drained channel yields the zero value *)
              if closed (chan s)
              then Some (setWorkers s (workers s ++ [WSpawned []]))
              else None
          end
      | AWorker i =>
          match nth_error (workers s) i with
          | None => None
          | Some pc =>
              match workerStep s pc with
              | None => None
              | Some (s, pc) => Some (setWorkers s (replaceNth i pc (workers s)))
              end
          end
      | AStop => stopStep reparse s
      end
  end.

(** A schedule, run from a state. *)
Fixpoint run (reparse : options + Error) (sched : list action) (s : state)
  : option state :=
  match sched with
  | [] => Some s
  | a :: sched =>
      match step reparse a s with
      | None => None
      | Some s => run reparse sched s
      end
  end.

(** The state in which a successful [Start] leaves the goroutines. *)
Definition started (a : Internal.PrometheusAdapter) (l : FieldLogger) : state :=
  {| adapter := a; logger := l; buffer := [];
     chan := {| queue := []; closed := false |};
     flusher := FSelect; stopRequested := false;
     wgCounter := 0; inFlight := 0;
     workers := []; stop := SNotCalled; slept := []; crashed := None |}.

End Interleaving.

(* ===================================================================== *)
(** * Counting over the goroutines *)
(* ===================================================================== *)

Module Accounting.
Import Metrics Dashboard Interleaving.






(** The samples that a worker has yet to finish. *)
Definition todoOf (pc : workerPc) : list Sample :=
  match pc with
  | WSpawned g | WAdded g => samplesOf g
  | WRunning todo => todo
  | WObserving _ entry todo => entry :: todo
  | WUnwinding _ | WWgDone _ | WExited => []
  end.

(** The containers that the flusher has drained and not yet sent. *)
Definition inHand (pc : flusherPc) : list SampleContainer :=
  match pc with
  | FLoop _ bufferSamples lower _ => skipn (Z.to_nat lower) bufferSamples
  | _ => []
  end.

(** The bounds of the loop of [flushMetrics] are within the drained
    buffer, which is short enough for [upper += batchSize] not to wrap. *)
Definition inRange (pc : flusherPc) : Prop :=
  match pc with
  | FLoop _ bufferSamples lower upper =>
      0 <= lower <= upper /\ upper <= len bufferSamples
      /\ len bufferSamples + 10000 <= int_max
  | _ => True
  end.

(** The number of samples that are buffered, in the hands of the flusher,
    queued in the channel or held by a worker: everything that was produced
    and is not yet handled. *)
Definition pending (s : state) : nat :=
  (length (samplesOf (buffer s))
   + length (samplesOf (inHand (flusher s)))
   + length (samplesOf (concat (queue (chan s))))
   + length (concat (map todoOf (workers s))))%nat.

(** What an action adds to the pending samples. *)
Definition produces (a : action) : nat :=
  match a with
  | AProduce sc => length (GetSamples sc)
  | _ => O
  end.

(** What a step does to the samples. *)
Inductive event :=
| Quiet                        (* nothing *)
| Handles (entry : Sample)     (* [HandleSample] runs on it and returns *)
| Sets (entry : Sample) (g : Internal.gaugeField)
                               (* the [Set] of its case of [handleTrend] *)
| Observes (entry : Sample) (h : Internal.histogramField)
                               (* the [Observe] of that case, and the return *)
| Panics (lost : list Sample). (* the worker panics, in [o.wg.Add] or in
                                  [Counter.Add] on the first of [lost], and
                                  unwinds: it leaves [lost] unhandled *)

Definition eventOf (a : action) (s : state) : event :=
  match a with
  | AWorker i =>
      match nth_error (workers s) i with
      | Some (WSpawned g) =>
          if snd (wgAdd 1 (wgCounter s)) then Panics (samplesOf g) else Quiet
      | Some (WRunning (entry :: todo)) =>
          match trendCase entry with
          | Some (g, _) => Sets entry g
          | None =>
              match Guarded.HandleSample (adapter s) entry with
              | Done _ => Handles entry
              | _ => Panics (entry :: todo)
              end
          end
      | Some (WObserving h entry _) => Observes entry h
      | _ => Quiet
      end
  | _ => Quiet
  end.

End Accounting.

(* ===================================================================== *)
(** * Schedules of the goroutines *)
(* ===================================================================== *)

Module Schedules.
Import Metrics Logrus Internal Dashboard Interleaving.


(** The state at the start of a run with the adapter [Examples.adapter0]. *)
Definition start : state := started Examples.adapter0 [].

(** One [vus] sample is buffered, flushed and received; [Stop] stops the
    flusher, which flushes a last time, and passes its [Wait] while the
    worker has not yet reached its [Add]; the worker then counts itself in;
    [Stop] returns; the worker handles the sample. *)
Definition stopEarly : list action :=
  [ AProduce {| GetSamples := [Examples.vus 7] |};
    ATick;                     (* GetBufferedSamples *)
    AFlusher;                  (* the send of the only window *)
    AFlusher;                  (* the log line *)
    AReceive;
    AStop;                     (* o.flusher.Stop(): the signal *)
    AFlusher;                  (* the last flush: GetBufferedSamples *)
    AFlusher;                  (* its log line; the flusher exits *)
    AStop;                     (* o.flusher.Stop() returns *)
    AStop;                     (* o.wg.Wait(): the counter is still 0 *)
    AWorker 0;                 (* o.wg.Add(1) *)
    AWorker 0;                 (* atomic.AddInt64(&o.workGroupCount, 1) *)
    AStop;                     (* getopts *)
    AStop ].                   (* close; Stop returns *)


(** A worker about to handle a Trend sample of a handled name. *)
Definition trending : state :=
  {| adapter := Examples.adapter0;
     logger := [];
     buffer := [];
     chan := {| queue := []; closed := false |};
     flusher := FSelect; stopRequested := false;
     wgCounter := 1; inFlight := 1;
     workers := [WRunning [mkSample "http_req_duration" Trend 80]];
     stop := SNotCalled; slept := []; crashed := None |}.

(** The flusher holding eleven containers in front of a channel that
    already queues ten groups: its send cannot proceed. *)
Definition full : state :=
  {| adapter := Examples.adapter0;
     logger := [];
     buffer := [];
     chan := {| queue := repeat Examples.vusGroup 10; closed := false |};
     flusher := FLoop false Examples.vusGroup 0 2; stopRequested := false;
     wgCounter := 0; inFlight := 0;
     workers := [];
     stop := SNotCalled; slept := []; crashed := None |}.

(** The flusher holding the two containers of [Examples.vusGroup] in
    front of an empty channel, and the state after its send. *)
Definition sending : state :=
  {| adapter := Examples.adapter0;
     logger := [];
     buffer := [];
     chan := {| queue := []; closed := false |};
     flusher := FLoop false Examples.vusGroup 0 2; stopRequested := false;
     wgCounter := 0; inFlight := 0;
     workers := [];
     stop := SNotCalled; slept := []; crashed := None |}.

Definition sent : state :=
  {| adapter := Examples.adapter0;
     logger := [];
     buffer := [];
     chan := {| queue := [Examples.vusGroup]; closed := false |};
     flusher := FLoop false Examples.vusGroup 2 2; stopRequested := false;
     wgCounter := 0; inFlight := 0;
     workers := [];
     stop := SNotCalled; slept := []; crashed := None |}.

End Schedules.

(* ===================================================================== *)
(** * Properties *)
(* ===================================================================== *)

(** ** Go integers and slices *)

Section GoFacts.
Context {A : Type}.
Implicit Types s t : list A.

Lemma wrap_small (z : Z) : int_min <= z <= int_max -> wrap z = z.
Proof.
  unfold wrap, int_min, int_max. intros H.
  rewrite Z.mod_small; lia.
Qed.

Lemma len_nonneg s : 0 <= len s.
Proof. unfold len. lia. Qed.

Lemma len_app s t : len (s ++ t) = len s + len t.
Proof. unfold len. rewrite length_app. lia. Qed.

Lemma len_skipn n s : len (skipn n s) = len s - Z.min (Z.of_nat n) (len s).
Proof. unfold len. rewrite length_skipn. lia. Qed.

Lemma len_firstn n s : len (firstn n s) = Z.min (Z.of_nat n) (len s).
Proof. unfold len. rewrite length_firstn. lia. Qed.

Lemma slice_ok s lo hi :
  0 <= lo <= hi -> hi <= len s ->
  slice s lo hi = Some (firstn (Z.to_nat (hi - lo)) (skipn (Z.to_nat lo) s)).
Proof.
  intros [H1 H2] H3. unfold slice.
  destruct (Z.leb_spec 0 lo); try lia.
  destruct (Z.leb_spec lo hi); try lia.
  destruct (Z.leb_spec hi (len s)); try lia.
  reflexivity.
Qed.

End GoFacts.

(** ** Windows *)

Section WindowsFacts.
Context {A : Type}.
Implicit Types (l w : list A) (ws : list (list A)).

Lemma windows_of_nil k ws : windows k [] ws -> ws = [].
Proof.
  intros H. remember [] as l eqn:El.
  destruct H as [ | w Hw Hk | w rest ws' Hk Hr Hws ].
  - reflexivity.
  - congruence.
  - destruct w; simpl in El; [ congruence | discriminate ].
Qed.

Lemma app_inj_len (u v u' v' : list A) :
  u ++ v = u' ++ v' -> len u = len u' -> u = u' /\ v = v'.
Proof.
  unfold len. revert u'. induction u as [ | a u IH ]; intros [ | a' u' ] H Hl;
    simpl in *; try lia.
  - now split.
  - injection H as -> H. destruct (IH u' H) as [-> ->]; [ lia | now split ].
Qed.

Lemma windows_concat k l ws : windows k l ws -> concat ws = l.
Proof.
  induction 1; simpl.
  - reflexivity.
  - apply app_nil_r.
  - now f_equal.
Qed.

Lemma len_pos_of_nonnil (w : list A) : w <> [] -> 0 < len w.
Proof. destruct w; [congruence | unfold len; simpl; lia]. Qed.

Lemma windows_bounded k l ws :
  windows k l ws -> Forall (fun w => 0 < len w <= k) ws.
Proof.
  induction 1.
  - constructor.
  - constructor; [ | constructor ]. split; [ now apply len_pos_of_nonnil | assumption ].
  - constructor; [ | assumption ].
    pose proof (windows_of_nil k ws) as Hn.
    destruct ws as [ | w' ws' ].
    + inversion H1; subst; congruence.
    + inversion IHwindows as [ | ? ? Hw' _ ]; subst. lia.
Qed.

(** Every window that is followed by another one is full. *)
Lemma windows_full_but_last k l ws :
  windows k l ws ->
  forall i, (S i < length ws)%nat -> len (nth i ws []) = k.
Proof.
  induction 1; intros i Hi; simpl in Hi.
  - lia.
  - lia.
  - destruct i as [ | i ]; simpl.
    + assumption.
    + apply IHwindows. lia.
Qed.

(** The windows of a slice are unique. *)
Lemma windows_unique k l ws1 :
  windows k l ws1 -> forall ws2, 0 < k -> windows k l ws2 -> ws1 = ws2.
Proof.
  induction 1 as [ | w Hw Hk | w rest ws Hlen Hrest Hws IH ]; intros ws2 Hk0 H2.
  - now apply windows_of_nil in H2.
  - remember w as l eqn:El in H2.
    destruct H2 as [ | w' Hw' Hk' | w' rest' ws' Hlen' Hrest' Hws' ]; subst.
    + congruence.
    + reflexivity.
    + apply len_pos_of_nonnil in Hrest'. rewrite len_app in Hk. lia.
  - remember (w ++ rest) as l eqn:El in H2.
    destruct H2 as [ | w' Hw' Hk' | w' rest' ws' Hlen' Hrest' Hws' ].
    + exfalso. destruct w; simpl in *; try discriminate; congruence.
    + exfalso. subst w'. apply len_pos_of_nonnil in Hrest.
      rewrite len_app in Hk'. lia.
    + assert (Hsame : w' = w /\ rest' = rest).
      { apply app_inj_len; [ assumption | lia ]. }
      destruct Hsame; subst. f_equal. now apply IH.
Qed.

End WindowsFacts.

(** ** Small runs of the splitting loop *)

Example splitAndSend_small :
  splitAndSend 10 3 [1;2;3;4;5;6;7;8] = Done [[1;2;3];[4;5;6];[7;8]].
Proof. reflexivity. Qed.

Example splitAndSend_exact :
  splitAndSend 10 4 [1;2;3;4;5;6;7;8] = Done [[1;2;3;4];[5;6;7;8]].
Proof. reflexivity. Qed.

Example splitAndSend_empty : splitAndSend 10 3 (@nil Z) = Done [].
Proof. reflexivity. Qed.

(* ===================================================================== *)
(** * The loop sends exactly the windows *)
(* ===================================================================== *)

Section LoopCorrect.
Context {A : Type}.
Variable bufferSamples : list A.
Variable batchSize : Z.
Hypothesis batch_pos : 0 < batchSize.
Hypothesis no_overflow : len bufferSamples + batchSize <= int_max.

Let bufferSize := len bufferSamples.

(** With [lower] a window boundary and [upper] the next one, a budget of
    [bufferSize - lower] iterations is enough, and what is sent is the
    windows of the part of the slice that starts at [lower]. *)
Lemma flushLoop_windows (fuel : nat) :
  forall lower upper sent,
    0 <= lower <= bufferSize ->
    upper = Z.min (lower + batchSize) bufferSize ->
    bufferSize - lower <= Z.of_nat fuel ->
    exists ws,
      flushLoop fuel bufferSamples batchSize lower upper sent = Done (sent ++ ws)
      /\ windows batchSize (skipn (Z.to_nat lower) bufferSamples) ws.
Proof.
  pose proof (len_nonneg bufferSamples) as Hlen0.
  assert (Hsub : int_sub bufferSize 1 = bufferSize - 1).
  { unfold int_sub. apply wrap_small.
    unfold int_min, int_max in *. fold bufferSize in Hlen0, no_overflow. lia. }
  induction fuel as [ | fuel IH ]; intros lower upper sent Hlo Hup Hfuel.
  - (* no budget: the loop condition is already false *)
    assert (lower = bufferSize) by lia. subst lower.
    exists []. simpl. fold bufferSize. rewrite Hsub.
    destruct (Z.leb_spec bufferSize (bufferSize - 1)); try lia.
    split; [ now rewrite app_nil_r | ].
    rewrite skipn_all2; [ constructor | ]. unfold bufferSize, len. lia.
  - simpl. fold bufferSize. rewrite Hsub.
    destruct (Z.leb_spec lower (bufferSize - 1)) as [Hin | Hout].
    + rewrite slice_ok by (fold bufferSize; lia).
      unfold int_add. rewrite wrap_small
        by (unfold int_min, int_max in *; fold bufferSize in no_overflow; lia).
      set (upper' := if upper + batchSize >=? bufferSize
                     then bufferSize else upper + batchSize).
      assert (Hup' : upper' = Z.min (upper + batchSize) bufferSize).
      { unfold upper'. rewrite Z.geb_leb.
        destruct (Z.leb_spec bufferSize (upper + batchSize)); lia. }
      destruct (IH upper upper' (sent ++ [firstn (Z.to_nat (upper - lower))
                                    (skipn (Z.to_nat lower) bufferSamples)]))
        as [ws [Hrun Hws]]; try lia.
      exists (firstn (Z.to_nat (upper - lower))
                (skipn (Z.to_nat lower) bufferSamples) :: ws).
      split.
      { rewrite Hrun, <- app_assoc. reflexivity. }
      set (tl := skipn (Z.to_nat lower) bufferSamples) in *.
      assert (Htl : len tl = bufferSize - lower).
      { unfold tl. rewrite len_skipn. fold bufferSize. lia. }
      assert (Hrest : skipn (Z.to_nat upper) bufferSamples
                      = skipn (Z.to_nat (upper - lower)) tl).
      { unfold tl. rewrite skipn_skipn. f_equal. lia. }
      rewrite Hrest in Hws.
      destruct (Z.eq_dec upper bufferSize) as [Hlast | Hmore].
      * (* the last window *)
        rewrite skipn_all2 in Hws by (unfold len in Htl; lia).
        apply windows_of_nil in Hws. subst ws.
        rewrite firstn_all2 by (unfold len in Htl; lia).
        apply windows_last.
        -- intros E. rewrite E in Htl. unfold len in Htl. simpl in Htl. lia.
        -- lia.
      * (* a full window followed by more *)
        rewrite <- (firstn_skipn (Z.to_nat (upper - lower)) tl) at 1.
        apply windows_cons.
        -- rewrite len_firstn. lia.
        -- intros E. apply (f_equal len) in E. rewrite len_skipn in E.
           unfold len in E at 3. simpl in E. lia.
        -- exact Hws.
    + assert (lower = bufferSize) by lia. subst lower.
      exists []. split; [ now rewrite app_nil_r | ].
      rewrite skipn_all2; [ constructor | ]. unfold bufferSize, len. lia.
Qed.

(** From the top of [flushMetrics]: any budget of at least [bufferSize]
    iterations sends exactly the windows of the drained slice. *)
Lemma splitAndSend_windows (fuel : nat) :
  bufferSize <= Z.of_nat fuel ->
  exists ws,
    splitAndSend fuel batchSize bufferSamples = Done ws
    /\ windows batchSize bufferSamples ws.
Proof.
  intros Hfuel. pose proof (len_nonneg bufferSamples) as Hlen0.
  unfold splitAndSend. fold bufferSize.
  destruct (flushLoop_windows fuel 0
              (if batchSize >? bufferSize then bufferSize else batchSize) [])
    as [ws [Hrun Hws]]; try lia.
  - rewrite Z.gtb_ltb. destruct (Z.ltb_spec bufferSize batchSize); lia.
  - exists ws. split; [ exact Hrun | exact Hws ].
Qed.

End LoopCorrect.

(** ** Reading the windows off the length of the slice *)

Section WindowsBySize.
Context {A : Type}.
Implicit Types (l w : list A) (ws : list (list A)).

(** A slice longer than [k] starts with a full window. *)
Lemma windows_long k l ws :
  windows k l ws -> 0 < k < len l ->
  exists w rest ws',
    ws = w :: ws' /\ len w = k /\ len rest = len l - k /\ windows k rest ws'.
Proof.
  intros H Hk. destruct H as [ | w Hw Hle | w rest ws' Hlen Hrest Hws ].
  - unfold len in Hk. simpl in Hk. lia.
  - lia.
  - exists w, rest, ws'. rewrite len_app. repeat split; trivial. lia.
Qed.

(** A non-empty slice of at most [k] elements is its own single window. *)
Lemma windows_short k l ws :
  windows k l ws -> 0 < len l <= k -> map len ws = [len l].
Proof.
  intros H Hk. destruct H as [ | w Hw Hle | w rest ws' Hlen Hrest Hws ].
  - unfold len in Hk. simpl in Hk. lia.
  - reflexivity.
  - apply len_pos_of_nonnil in Hrest. rewrite len_app in Hk. lia.
Qed.

Lemma windows_25000 l ws :
  windows 10000 l ws -> len l = 25000 -> map len ws = [10000; 10000; 5000].
Proof.
  intros H Hl.
  destruct (windows_long _ _ _ H) as (w1 & r1 & ws1 & -> & Hw1 & Hr1 & H1); [ lia | ].
  destruct (windows_long _ _ _ H1) as (w2 & r2 & ws2 & -> & Hw2 & Hr2 & H2); [ lia | ].
  simpl. rewrite Hw1, Hw2, (windows_short _ _ _ H2) by lia.
  repeat f_equal. lia.
Qed.

End WindowsBySize.

(** ** C1: flushMetrics *)

Section FlushMetrics.
Import Metrics Dashboard.

(** C1.  With the channel open and a loop budget of at least the number of
    drained containers, [flushMetrics] returns, leaves the buffer empty and
    appends to the channel exactly the consecutive windows [ws] of the
    drained slice: their concatenation is the drained slice, every window
    has between 1 and 10,000 containers, every window but the last has
    exactly 10,000, 25,000 drained containers give windows of sizes
    10,000, 10,000 and 5,000, and an empty buffer gives no window. *)
Theorem flushMetrics_sends_windows (o : Output) (fuel : nat) :
  len (SampleBuffer o) + 10000 <= int_max ->
  closed (sampleChannel o) = false ->
  len (SampleBuffer o) <= Z.of_nat fuel ->
  exists ws o',
    flushMetrics fuel o = Done o'
    /\ queue (sampleChannel o') = queue (sampleChannel o) ++ ws
    /\ SampleBuffer o' = []
    /\ windows 10000 (SampleBuffer o) ws
    /\ concat ws = SampleBuffer o
    /\ Forall (fun w => 0 < len w <= 10000) ws
    /\ (forall i, (S i < length ws)%nat -> len (nth i ws []) = 10000)
    /\ (len (SampleBuffer o) = 25000 -> map len ws = [10000; 10000; 5000])
    /\ (SampleBuffer o = [] -> ws = []).
Proof.
  intros Hsize Hopen Hfuel.
  destruct (splitAndSend_windows (SampleBuffer o) 10000 ltac:(lia) Hsize fuel Hfuel)
    as [ws [Hrun Hws]].
  exists ws. unfold flushMetrics, GetBufferedSamples.
  cbv zeta. rewrite Hrun. cbn [sampleChannel withBuffer]. rewrite Hopen.
  eexists. split.
  { destruct ws; reflexivity. }
  cbn. repeat split.
  - exact Hws.
  - eapply windows_concat; eassumption.
  - eapply windows_bounded; eassumption.
  - eapply windows_full_but_last; eassumption.
  - intros H25. eapply windows_25000; eassumption.
  - intros Hnil. rewrite Hnil in Hws. eapply windows_of_nil; eassumption.
Qed.

(** The theorem at an Output with three buffered containers. *)
Lemma flushMetrics_sends_windows_witness :
  exists ws o',
    flushMetrics 3 FlushExamples.three = Done o'
    /\ queue (sampleChannel o') = queue (sampleChannel FlushExamples.three) ++ ws
    /\ SampleBuffer o' = []
    /\ windows 10000 (SampleBuffer FlushExamples.three) ws
    /\ concat ws = SampleBuffer FlushExamples.three
    /\ Forall (fun w => 0 < len w <= 10000) ws
    /\ (forall i, (S i < length ws)%nat -> len (nth i ws []) = 10000)
    /\ (len (SampleBuffer FlushExamples.three) = 25000
        -> map len ws = [10000; 10000; 5000])
    /\ (SampleBuffer FlushExamples.three = [] -> ws = []).
Proof.
  apply (flushMetrics_sends_windows FlushExamples.three 3).
  - unfold len, int_max. simpl. lia.
  - reflexivity.
  - unfold len. simpl. lia.
Defined.

End FlushMetrics.

(* ===================================================================== *)
(** * The sample handlers *)
(* ===================================================================== *)

Section Handlers.
Import Metrics Prometheus Logrus Internal.

Implicit Types (a : Internal.PrometheusAdapter) (s : Sample) (v : R).

(** Membership in a catalog, case by case. *)
Ltac catalog H :=
  simpl in H;
  repeat (destruct H as [H | H]; [ injection H as <- <- | ]);
  try contradiction.

(** ** What each handler does on a name of its catalog *)

Lemma HandleSample_counter name f a v :
  In (name, f) counterCatalog ->
  HandleSample a (mkSample name Counter v)
  = withBuiltin a (counterAdd f v (builtin a)).
Proof. intros H. catalog H; reflexivity. Qed.

Lemma HandleSample_gauge name f a v :
  In (name, f) gaugeCatalog ->
  HandleSample a (mkSample name Gauge v)
  = withBuiltin a (gaugeSet f v (builtin a)).
Proof. intros H. catalog H; reflexivity. Qed.

Lemma HandleSample_rate name f a v :
  In (name, f) rateCatalog ->
  HandleSample a (mkSample name Rate v)
  = withBuiltin a (histogramObserve f v (builtin a)).
Proof. intros H. catalog H; reflexivity. Qed.

Lemma HandleSample_trend name g h a v :
  In (name, (g, h)) trendCatalog ->
  HandleSample a (mkSample name Trend v)
  = withBuiltin a (setAndObserve g h v (builtin a)).
Proof.
  intros H. simpl in H.
  repeat (destruct H as [H | H]; [ injection H as <- <- <- | ]);
    try contradiction; reflexivity.
Qed.

(** ** Reading an instrument after an update *)

Lemma counterAdd_same f v m :
  total (counters (counterAdd f v m) f) = (total (counters m f) + v)%R.
Proof.
  unfold counterAdd. simpl. destruct (counterField_eq_dec f f); [ reflexivity | congruence ].
Qed.

Lemma gaugeSet_same f v m : current (gauges (gaugeSet f v m) f) = v.
Proof.
  unfold gaugeSet. simpl. destruct (gaugeField_eq_dec f f); [ reflexivity | congruence ].
Qed.

Lemma gaugeSet_other f f' v m : f' <> f -> gauges (gaugeSet f v m) f' = gauges m f'.
Proof.
  intros Hne. unfold gaugeSet. simpl.
  destruct (gaugeField_eq_dec f' f); [ congruence | reflexivity ].
Qed.

Lemma histogramObserve_same f v m :
  observations (histograms (histogramObserve f v m) f)
  = observations (histograms m f) ++ [v].
Proof.
  unfold histogramObserve. simpl.
  destruct (histogramField_eq_dec f f); [ reflexivity | congruence ].
Qed.

Lemma histogramObserve_other f f' v m :
  f' <> f -> histograms (histogramObserve f v m) f' = histograms m f'.
Proof.
  intros Hne. unfold histogramObserve. simpl.
  destruct (histogramField_eq_dec f' f); [ congruence | reflexivity ].
Qed.

(** The worker's nested loops handle the samples of the group in order. *)
Lemma processGroup_flat a sampleGroup :
  Dashboard.processGroup a sampleGroup
  = fold_left HandleSample (Concurrent.samplesOf sampleGroup) a.
Proof.
  unfold Dashboard.processGroup, Concurrent.samplesOf.
  revert a. induction sampleGroup as [ | sc g IH ]; intros a; simpl.
  - reflexivity.
  - rewrite fold_left_app. apply IH.
Qed.

(** A fresh adapter has every instrument at its zero. *)
Lemma NewPrometheusAdapter_builtin registry logger ns sub a r :
  NewPrometheusAdapter registry logger ns sub = (Some a, r) ->
  builtin a = newBuiltinMetrics registry ns sub.
Proof.
  unfold NewPrometheusAdapter.
  destruct (registerAll _ _) as [r' [ | ]]; intros H; inversion H. reflexivity.
Qed.

(** ** C2: counters accumulate *)

(** The theorem of C2 needs the guard of the counters and is further down. *)

(** ** C3: a gauge keeps the last value *)

Lemma sample_eta s name t :
  Name (metric s) = name -> Type_ (metric s) = t ->
  s = mkSample name t (Value s).
Proof. destruct s as [[n t'] v]. simpl. intros -> ->. reflexivity. Qed.

(** C3.  For a name of the Gauge handler's catalog, when the samples that
    one worker handles for a batch are all of type Gauge with that name,
    the gauge of that name ends at the value of the last sample, whatever
    the samples before it and whatever the gauge held. *)
Theorem handleGauge_last_wins (name : string) (f : gaugeField) :
  In (name, f) gaugeCatalog ->
  forall a sampleGroup ss last,
    Concurrent.samplesOf sampleGroup = ss ++ [last] ->
    Forall (fun s => Name (metric s) = name /\ Type_ (metric s) = Gauge)
           (ss ++ [last]) ->
    current (gauges (builtin (Dashboard.processGroup a sampleGroup)) f)
    = Value last.
Proof.
  intros Hin a sampleGroup ss last Hflat Hall.
  rewrite processGroup_flat, Hflat, fold_left_app. cbn [fold_left].
  apply Forall_app in Hall. destruct Hall as [_ Hlast].
  inversion Hlast as [ | ? ? [Hn Ht] _ ]; subst.
  rewrite (sample_eta last _ _ eq_refl Ht).
  rewrite (HandleSample_gauge _ f _ _ Hin).
  cbn [builtin withBuiltin Value mkSample]. apply gaugeSet_same.
Qed.

(** ** C4: a trend sets its gauge and feeds its histogram *)

Lemma trend_run name g h :
  In (name, (g, h)) trendCatalog ->
  forall ss a,
    Forall (fun s => Name (metric s) = name /\ Type_ (metric s) = Trend) ss ->
    sampleCount (histograms (builtin (fold_left HandleSample ss a)) h)
    = (sampleCount (histograms (builtin a) h) + length ss)%nat.
Proof.
  intros Hin ss. induction ss as [ | s ss IH ]; intros a Hall.
  - simpl. lia.
  - inversion Hall as [ | ? ? [Hn Ht] Hss ]; subst.
    cbn [fold_left]. rewrite (IH _ Hss).
    rewrite (sample_eta s _ _ eq_refl Ht).
    rewrite (HandleSample_trend _ g h _ _ Hin).
    cbn [builtin withBuiltin]. unfold setAndObserve, sampleCount.
    rewrite histogramObserve_same, length_app. simpl. lia.
Qed.

(** C4.  For a name of the Trend handler's catalog with its "current"
    gauge [g] and its histogram [h]: handling one Trend sample of that name
    sets [g] to the sample's value, appends that value to the observations
    of [h], and changes nothing else; after a run of such samples [g] holds
    the last value and [h] has as many more observations as there were
    samples; and one [http_req_duration] sample of value 120.5 handled by
    a fresh adapter leaves [http_req_duration_current] at 120.5 and the
    duration histogram with the single observation 120.5. *)
Theorem handleTrend_sets_and_observes (name : string)
        (g : gaugeField) (h : histogramField) :
  In (name, (g, h)) trendCatalog ->
  (forall a v,
      let a' := HandleSample a (mkSample name Trend v) in
      (forall g', gauges (builtin a') g'
                  = if gaugeField_eq_dec g' g
                    then Set_ v (gauges (builtin a) g')
                    else gauges (builtin a) g')
      /\ (forall h', histograms (builtin a') h'
                     = if histogramField_eq_dec h' h
                       then Observe v (histograms (builtin a) h')
                       else histograms (builtin a) h')
      /\ counters (builtin a') = counters (builtin a)
      /\ logger a' = logger a
      /\ registry a' = registry a)
  /\ (forall a ss last,
        Forall (fun s => Name (metric s) = name /\ Type_ (metric s) = Trend)
               (ss ++ [last]) ->
        let a' := fold_left HandleSample (ss ++ [last]) a in
        current (gauges (builtin a') g) = Value last
        /\ sampleCount (histograms (builtin a') h)
           = (sampleCount (histograms (builtin a) h) + length (ss ++ [last]))%nat)
  /\ (forall registry logger ns sub a r,
        NewPrometheusAdapter registry logger ns sub = (Some a, r) ->
        let a' := HandleSample a (mkSample "http_req_duration" Trend 120.5) in
        current (gauges (builtin a') HTTPReqDurationCurrent) = 120.5%R
        /\ observations (histograms (builtin a') HTTPReqDuration) = [120.5%R]).
Proof.
  intros Hin. split; [ | split ].
  - intros a v a'. subst a'.
    rewrite (HandleSample_trend _ g h _ _ Hin).
    repeat split; reflexivity.
  - intros a ss last Hall a'. subst a'. split.
    + rewrite fold_left_app. cbn [fold_left].
      apply Forall_app in Hall. destruct Hall as [_ Hlast].
      inversion Hlast as [ | ? ? [Hn Ht] _ ]; subst.
      rewrite (sample_eta last _ _ eq_refl Ht).
      rewrite (HandleSample_trend _ g h _ _ Hin).
      cbn [builtin withBuiltin Value mkSample]. unfold setAndObserve.
      unfold histogramObserve. cbn [gauges]. apply gaugeSet_same.
    + apply (trend_run _ g h Hin). exact Hall.
  - intros registry logger ns sub a r Hnew a'. subst a'.
    rewrite (HandleSample_trend "http_req_duration"
               HTTPReqDurationCurrent HTTPReqDuration) by (simpl; auto).
    cbn [builtin withBuiltin]. unfold setAndObserve. split.
    + unfold histogramObserve. cbn [gauges]. apply gaugeSet_same.
    + rewrite histogramObserve_same.
      rewrite (NewPrometheusAdapter_builtin _ _ _ _ _ _ Hnew). reflexivity.
Qed.

(** ** C5 and C6: samples that no case matches *)

(** In a handler, a name outside the catalog falls through every case. *)
Ltac fall_through Hnot :=
  repeat match goal with
         | |- context [String.eqb ?n ?lit] =>
             let E := fresh "E" in
             destruct (String.eqb_spec n lit) as [E | _];
             [ exfalso; apply Hnot; rewrite E; simpl;
               repeat (first [ left; reflexivity | right ]) | ]
         end.

Lemma handleCounter_miss a s :
  ~ In (Name (metric s)) (map fst counterCatalog) -> handleCounter a s = a.
Proof. intros Hnot. unfold handleCounter. cbv zeta. fall_through Hnot. reflexivity. Qed.

Lemma handleGauge_miss a s :
  ~ In (Name (metric s)) (map fst gaugeCatalog) -> handleGauge a s = a.
Proof. intros Hnot. unfold handleGauge. cbv zeta. fall_through Hnot. reflexivity. Qed.

Lemma handleRate_miss a s :
  ~ In (Name (metric s)) (map fst rateCatalog) -> handleRate a s = a.
Proof. intros Hnot. unfold handleRate. cbv zeta. fall_through Hnot. reflexivity. Qed.

Lemma handleTrend_miss a s :
  ~ In (Name (metric s)) (map fst trendCatalog) -> handleTrend a s = a.
Proof. intros Hnot. unfold handleTrend. cbv zeta. fall_through Hnot. reflexivity. Qed.

(** A sample of a known type with a name that its handler does not know
    leaves the adapter as it is, log included. *)
Lemma HandleSample_miss a s :
  knownType (Type_ (metric s)) = true ->
  ~ In (Name (metric s)) (handlerNames (Type_ (metric s))) ->
  HandleSample a s = a.
Proof.
  unfold HandleSample, knownType, handlerNames. cbv zeta.
  destruct (Type_ (metric s) =? Counter); [ intros _; apply handleCounter_miss | ].
  destruct (Type_ (metric s) =? Gauge); [ intros _; apply handleGauge_miss | ].
  destruct (Type_ (metric s) =? Rate); [ intros _; apply handleRate_miss | ].
  destruct (Type_ (metric s) =? Trend); [ intros _; apply handleTrend_miss | ].
  simpl. discriminate.
Qed.

(** A sample of an unknown type adds one warning and nothing else. *)
Lemma HandleSample_unknown_type a s :
  knownType (Type_ (metric s)) = false ->
  HandleSample a s
  = withLogger a (Warnf "Unknown metric type: %v" (Type_ (metric s)) (logger a)).
Proof.
  unfold HandleSample, knownType. cbv zeta.
  destruct (Type_ (metric s) =? Counter); [ discriminate | ].
  destruct (Type_ (metric s) =? Gauge); [ discriminate | ].
  destruct (Type_ (metric s) =? Rate); [ discriminate | ].
  destruct (Type_ (metric s) =? Trend); [ discriminate | ].
  reflexivity.
Qed.

Lemma dropped_builtin a s :
  knownType (Type_ (metric s)) = false
  \/ ~ In (Name (metric s)) (handlerNames (Type_ (metric s))) ->
  builtin (HandleSample a s) = builtin a.
Proof.
  intros [Hk | Hn].
  - now rewrite (HandleSample_unknown_type a s Hk).
  - destruct (knownType (Type_ (metric s))) eqn:Hk.
    + now rewrite (HandleSample_miss a s Hk Hn).
    + now rewrite (HandleSample_unknown_type a s Hk).
Qed.

(** C5.  A sample whose type tag is none of Counter, Gauge, Rate and Trend,
    or whose name is not a case of the handler of its type, is handled
    without a panic ([HandleSample] is a total function) and leaves every
    instrument as it was: the counters, the gauges and the histograms of
    the adapter and the registry are unchanged. *)
Theorem HandleSample_unrecognised_inert (a : Internal.PrometheusAdapter) (s : Sample) :
  knownType (Type_ (metric s)) = false
  \/ ~ In (Name (metric s)) (handlerNames (Type_ (metric s))) ->
  builtin (HandleSample a s) = builtin a
  /\ registry (HandleSample a s) = registry a.
Proof.
  intros H.
  destruct (knownType (Type_ (metric s))) eqn:Hk.
  - (* a known type: the name is the one that is not recognised *)
    destruct H as [H | H]; [ discriminate | ].
    rewrite (HandleSample_miss a s Hk H). split; reflexivity.
  - (* an unknown type: the default case only writes to the log *)
    rewrite (HandleSample_unknown_type a s Hk). split; reflexivity.
Qed.

(** What the instruments become does not depend on the log. *)
Lemma HandleSample_builtin a1 a2 s :
  builtin a1 = builtin a2 ->
  builtin (HandleSample a1 s) = builtin (HandleSample a2 s).
Proof.
  intros H.
  unfold HandleSample, handleCounter, handleGauge, handleRate, handleTrend.
  cbv zeta.
  repeat match goal with
         | |- context [if ?c then _ else _] => destruct c
         end;
    cbn [builtin withBuiltin withLogger]; rewrite ?H; reflexivity.
Qed.

Lemma fold_HandleSample_builtin ss : forall a1 a2,
  builtin a1 = builtin a2 ->
  builtin (fold_left HandleSample ss a1) = builtin (fold_left HandleSample ss a2).
Proof.
  induction ss as [ | s ss IH ]; intros a1 a2 H; simpl.
  - exact H.
  - apply IH, HandleSample_builtin, H.
Qed.

(** C6, as the code has it.  A dropped sample never stops the handling of
    the samples around it: the instruments end as if the sample had not
    been there.  A warning is logged only when the type tag is unknown: one
    entry at warning level is appended to the log.  When the type is known
    and only the name is not in its handler's catalog, the sample is
    dropped silently, the adapter and its log being left untouched. *)
Theorem HandleSample_drop (a : Internal.PrometheusAdapter) (s : Sample) :
  knownType (Type_ (metric s)) = false
  \/ ~ In (Name (metric s)) (handlerNames (Type_ (metric s))) ->
  (knownType (Type_ (metric s)) = false ->
     logger (HandleSample a s)
     = (logger a ++ [ {| level := WarnLevel;
                         message := "Unknown metric type: %v";
                         args := [Type_ (metric s)]; fields := [] |} ])%list)
  /\ (knownType (Type_ (metric s)) = true -> HandleSample a s = a)
  /\ (forall before after,
        builtin (fold_left HandleSample (before ++ s :: after) a)
        = builtin (fold_left HandleSample (before ++ after) a)).
Proof.
  intros H. split; [ | split ].
  - intros Hk. rewrite (HandleSample_unknown_type a s Hk). reflexivity.
  - intros Hk. destruct H as [H | H]; [ congruence | ].
    apply HandleSample_miss; assumption.
  - intros before after. rewrite !fold_left_app. cbn [fold_left].
    apply fold_HandleSample_builtin.
    apply (dropped_builtin _ s H).
Qed.

End Handlers.

(** ** The handler theorems at concrete samples *)

Section HandlerInstances.
Import Metrics Prometheus Logrus Internal Examples.

(** Three [vus] samples in two containers: the gauge ends at the last. *)
Lemma handleGauge_last_wins_witness :
  current (gauges (builtin (Dashboard.processGroup adapter0 vusGroup)) VUS) = 2%R.
Proof.
  apply (handleGauge_last_wins "vus" VUS) with (ss := [vus 1; vus 3]) (last := vus 2).
  - simpl. auto.
  - reflexivity.
  - repeat constructor.
Defined.

(** The Trend theorem at [http_req_duration]. *)
Lemma handleTrend_sets_and_observes_witness :
  let a' := HandleSample adapter0 (mkSample "http_req_duration" Trend 120.5) in
  current (gauges (builtin a') HTTPReqDurationCurrent) = 120.5%R
  /\ observations (histograms (builtin a') HTTPReqDuration) = [120.5%R].
Proof.
  refine (proj2 (proj2 (handleTrend_sets_and_observes "http_req_duration"
                          HTTPReqDurationCurrent HTTPReqDuration _))
                emptyRegistry [] ""%string ""%string adapter0 (registry adapter0) _).
  - simpl. auto.
  - reflexivity.
Defined.

(** A Counter sample named [dropped_iterations] changes no instrument. *)
Lemma HandleSample_unrecognised_inert_witness :
  builtin (HandleSample adapter0 droppedIterations) = builtin adapter0
  /\ registry (HandleSample adapter0 droppedIterations) = registry adapter0.
Proof.
  apply (HandleSample_unrecognised_inert adapter0 droppedIterations).
  right. simpl. intros H.
  repeat (destruct H as [H | H]; [ discriminate H | ]). exact H.
Defined.

(** C6 as stated fails: the Counter sample [dropped_iterations] is dropped
    (its name is no case of [handleCounter]) and nothing is logged. *)
Lemma HandleSample_silent_drop :
  knownType (Type_ (metric droppedIterations)) = true
  /\ ~ In (Name (metric droppedIterations))
          (handlerNames (Type_ (metric droppedIterations)))
  /\ builtin (HandleSample adapter0 droppedIterations) = builtin adapter0
  /\ ~ warned adapter0 droppedIterations.
Proof.
  split; [ reflexivity | split; [ | split ] ].
  - simpl. intros H.
    repeat (destruct H as [H | H]; [ discriminate H | ]). exact H.
  - reflexivity.
  - intros [e [He _]]. simpl in He. discriminate He.
Qed.

(** The drop theorem at a sample of unknown type tag 7, alone and between
    two [vus] samples. *)
Lemma HandleSample_drop_witness :
  logger (HandleSample adapter0 unknownTag)
  = [ {| level := WarnLevel; message := "Unknown metric type: %v";
         args := [7]; fields := [] |} ]
  /\ builtin (fold_left HandleSample ([vus 1] ++ unknownTag :: [vus 2]) adapter0)
     = builtin (fold_left HandleSample ([vus 1] ++ [vus 2]) adapter0).
Proof.
  destruct (HandleSample_drop adapter0 unknownTag) as [Hwarn [_ Hgoes_on]].
  - left. reflexivity.
  - split.
    + apply Hwarn. reflexivity.
    + apply Hgoes_on.
Defined.

End HandlerInstances.

(* ===================================================================== *)
(** * Construction, configuration, start and stop *)
(* ===================================================================== *)

Section Registration.
Import Prometheus Internal.

Lemma registry_eta (r : Registry) :
  {| collectors := collectors r; check := check r |} = r.
Proof. destruct r. reflexivity. Qed.

(** The loop registers an acceptable run and goes on with the rest. *)
Lemma registerAll_prefix (pre rest : list Collector) :
  forall registry,
    acceptsAll (check registry) (collectors registry) pre = true ->
    registerAll registry (pre ++ rest)
    = registerAll {| collectors := collectors registry ++ pre;
                     check := check registry |} rest.
Proof.
  induction pre as [ | c pre IH ]; intros registry Hacc.
  - simpl. rewrite app_nil_r, registry_eta. reflexivity.
  - simpl in Hacc |- *. unfold Register.
    destruct (check registry (collectors registry) c) eqn:Hc; [ discriminate | ].
    rewrite IH by exact Hacc. cbn [collectors check].
    rewrite <- app_assoc. reflexivity.
Qed.

(** At the first refusal the loop stops, with the run before it registered. *)
Lemma registerAll_refused (pre rest : list Collector) c err registry :
  acceptsAll (check registry) (collectors registry) pre = true ->
  check registry (collectors registry ++ pre) c = Some err ->
  registerAll registry (pre ++ c :: rest)
  = ({| collectors := collectors registry ++ pre; check := check registry |},
     false).
Proof.
  intros Hacc Hc. rewrite registerAll_prefix by exact Hacc.
  simpl. unfold Register. cbn [collectors check]. rewrite Hc. reflexivity.
Qed.

End Registration.

Section Lifecycle.
Import Metrics Prometheus Logrus Dashboard.

Variable NewRegistry : Registry.
Variable Values : Type.
Variable ParseQuery : string -> Values + Error.
Variable Decode : options -> Values -> options + Error.
Variable Sprintf_addr : string -> Z -> string.
Variable Listen : string -> option Error.
Variable template_Parse : option Error.
Variable renderPage : string -> option Error.
Variable NewPeriodicFlusher : Z -> PeriodicFlusher + Error.

Local Abbreviation New := (Dashboard.New NewRegistry).
Local Abbreviation getopts := (Dashboard.getopts Values ParseQuery Decode).
Local Abbreviation Start :=
  (Dashboard.Start Values ParseQuery Decode Sprintf_addr Listen
                   template_Parse renderPage NewPeriodicFlusher).
Local Abbreviation Stop := (Dashboard.Stop Values ParseQuery Decode).

(** The options before any decoding. *)
Let initial : options :=
  {| Port := defaultPort; Host := ""; Period := defaultPeriod; UI := ""; Wait := 0 |}.

(** C7.  On the empty configuration string [getopts] returns, without an
    error, the options with [Port = 5665], [Host] empty and [Period = 10];
    on a string for which the query parsing fails, or the parsing succeeds
    and the decoding fails, it returns that error and no options; and
    [Start] gives such an error back with the receiver untouched and
    nothing set off: no listener, no goroutine, no flusher. *)
Theorem getopts_defaults_and_errors :
  getopts "" = inl {| Port := 5665; Host := ""; Period := 10; UI := ""; Wait := 0 |}
  /\ (forall qs err,
        qs <> ""%string ->
        ParseQuery qs = inr err
        \/ (exists v, ParseQuery qs = inl v /\ Decode initial v = inr err) ->
        getopts qs = inr err)
  /\ (forall o err,
        getopts (arg o) = inr err ->
        Start o = Done (o, [], Some err)).
Proof.
  split; [ reflexivity | split ].
  - intros qs err Hne Hfail. unfold Dashboard.getopts.
    destruct (String.eqb_spec qs "") as [ | _ ]; [ contradiction | ].
    destruct Hfail as [Hp | [v [Hp Hd]]]; rewrite Hp.
    + reflexivity.
    + fold initial. rewrite Hd. reflexivity.
  - intros o err Hopts. unfold Dashboard.Start. rewrite Hopts. reflexivity.
Qed.

(** C9.  When the check of the registry refuses one of the builtin
    collectors, the run [pre] before it having been accepted,
    [NewPrometheusAdapter] returns [nil] and leaves [pre] registered in the
    registry; and when this is the registry, the logger and the empty
    namespace and subsystem that [New] uses, [New] still returns an Output
    and no error, and the adapter embedded in that Output is [nil]. *)
Theorem New_hides_registration_failure
        (registry : Registry) (logger : FieldLogger) (ns sub : string)
        (pre rest : list Collector) (c : Collector) (err : Error) :
  Internal.builtinCollectors (Internal.newBuiltinMetrics registry ns sub)
  = pre ++ c :: rest ->
  acceptsAll (check registry) (collectors registry) pre = true ->
  check registry (collectors registry ++ pre) c = Some err ->
  Internal.NewPrometheusAdapter registry logger ns sub
  = (None, {| collectors := collectors registry ++ pre; check := check registry |})
  /\ (forall params,
        registry = NewRegistry -> logger = Logger params ->
        ns = ""%string -> sub = ""%string ->
        exists o, New params = inl o /\ PrometheusAdapter o = None).
Proof.
  intros Hsplit Hacc Hc.
  assert (Hnew : Internal.NewPrometheusAdapter registry logger ns sub
                 = (None, {| collectors := collectors registry ++ pre;
                             check := check registry |})).
  { unfold Internal.NewPrometheusAdapter. cbv zeta.
    rewrite Hsplit, (registerAll_refused pre rest c err registry Hacc Hc).
    reflexivity. }
  split; [ exact Hnew | ].
  intros params -> -> -> ->. unfold Dashboard.New. cbv zeta.
  eexists. split; [ reflexivity | ].
  cbn [PrometheusAdapter]. rewrite Hnew. reflexivity.
Qed.


End Lifecycle.

(* ===================================================================== *)
(** * A worker, run to its end *)
(* ===================================================================== *)

Section WorkerRun.
Import Metrics Internal Dashboard Concurrent.

Variable reparse : options + Prometheus.Error.





End WorkerRun.

(* ===================================================================== *)
(** * Stop and the workers *)
(* ===================================================================== *)

Section StopRace.
Import Metrics Prometheus Internal Dashboard Concurrent Examples.

(** C8 fails on the code.  A worker counts itself into the wait group only
    once it runs ([o.wg.Add(1)] is the first statement of the goroutine, not
    a statement of the dispatch loop before [go]), so [o.wg.Wait()] can
    return while a spawned worker has not started.  In the schedule
    [stopEarly], [Stop] returns with no error and the channel closed while
    the wait group and the in-flight counter both stand at 1 and the [vus]
    gauge is still 0; the worker's next statement then sets the gauge to 7:
    an instrument is mutated after [Stop] has returned. *)
Theorem Stop_returns_with_worker_in_flight :
  after stopEarly stop = Some (SReturned None)
  /\ after stopEarly (fun s => closed (chan s)) = Some true
  /\ after stopEarly inFlight = Some 1
  /\ after stopEarly wgCounter = Some 1
  /\ after stopEarly workers = Some [WRunning [vus 7]]
  /\ after stopEarly vusGauge = Some 0%R
  /\ after (stopEarly ++ afterStop) stop = Some (SReturned None)
  /\ after (stopEarly ++ afterStop) vusGauge = Some 7%R.
Proof.
  repeat split; lazy; reflexivity.
Qed.

End StopRace.

(** ** The lifecycle theorems at concrete outputs *)

Section LifecycleInstances.
Import Metrics Prometheus Logrus Dashboard Examples.

(** A semicolon fails the parsing, an unknown setting fails the decoding,
    and [Start] hands the error back with nothing set off. *)
Lemma getopts_defaults_and_errors_witness :
  Dashboard.getopts string demoParseQuery demoDecode "Port=1;Wait=2"
  = inr "invalid semicolon separator in query"%string
  /\ Dashboard.getopts string demoParseQuery demoDecode "Port=abc"
     = inr "schema: invalid path"%string
  /\ Dashboard.Start string demoParseQuery demoDecode demoSprintf demoListen
                     None demoRender demoFlusher (created "Port=abc")
     = Done (created "Port=abc", [], Some "schema: invalid path"%string).
Proof.
  destruct (getopts_defaults_and_errors string demoParseQuery demoDecode
              demoSprintf demoListen None demoRender demoFlusher)
    as [_ [Herr Hstart]].
  split; [ | split ].
  - apply Herr; [ discriminate | left; reflexivity ].
  - apply Herr; [ discriminate | right; eexists; split; reflexivity ].
  - apply Hstart. apply Herr; [ discriminate | right; eexists; split; reflexivity ].
Defined.

(** On a registry where [data_sent] is taken, the eleven collectors before
    it stay registered, the adapter is [nil], and [New] reports nothing. *)
Lemma New_hides_registration_failure_witness :
  Internal.NewPrometheusAdapter takenRegistry [] "" ""
  = (None, {| collectors := collectors takenRegistry ++ beforeDataSent;
              check := check takenRegistry |})
  /\ exists o,
      Dashboard.New takenRegistry {| ConfigArgument := ""; Logger := [] |} = inl o
      /\ PrometheusAdapter o = None.
Proof.
  destruct (New_hides_registration_failure takenRegistry takenRegistry []
              ""%string ""%string
              beforeDataSent afterDataSent dataSent
              "duplicate metrics collector registration attempted"%string
              eq_refl eq_refl eq_refl) as [Hnil Hnew].
  split; [ exact Hnil | ].
  apply (Hnew {| ConfigArgument := ""; Logger := [] |}); reflexivity.
Defined.


End LifecycleInstances.

(* ===================================================================== *)
(** * Streams of mixed samples *)
(* ===================================================================== *)

Section Streams.
Import Metrics Prometheus Logrus Internal Effects.

Implicit Types (a : Internal.PrometheusAdapter) (s : Sample) (ss : list Sample).

(** Two type tags at once: no such sample. *)
Ltac tags :=
  repeat match goal with
         | H : (_ =? _)%Z = true |- _ => apply Z.eqb_eq in H
         end;
  try congruence; subst.

(** Whatever the sample, [HandleSample] does to the instruments what
    [effect] says, and writes a warning exactly for an unknown type. *)
Lemma HandleSample_effect a s :
  builtin (HandleSample a s) = effect s (builtin a).
Proof.
  destruct s as [[name t] v].
  unfold HandleSample, effect, counterOf, gaugeOf, histogramOf.
  cbn [metric Type_ Name Value].
  destruct (t =? Counter) eqn:Ec; destruct (t =? Gauge) eqn:Eg;
    destruct (t =? Rate) eqn:Er; destruct (t =? Trend) eqn:Et;
    try (exfalso; tags; discriminate).
  - unfold handleCounter. cbn [metric Name Value lookup counterCatalog].
    repeat match goal with
           | |- context [String.eqb name ?lit] => destruct (String.eqb name lit)
           end; reflexivity.
  - unfold handleGauge. cbn [metric Name Value lookup gaugeCatalog].
    repeat match goal with
           | |- context [String.eqb name ?lit] => destruct (String.eqb name lit)
           end; reflexivity.
  - unfold handleRate. cbn [metric Name Value lookup rateCatalog].
    repeat match goal with
           | |- context [String.eqb name ?lit] => destruct (String.eqb name lit)
           end; reflexivity.
  - unfold handleTrend. cbn [metric Name Value lookup trendCatalog option_map].
    repeat match goal with
           | |- context [String.eqb name ?lit] => destruct (String.eqb name lit)
           end; reflexivity.
  - reflexivity.
Qed.

Lemma HandleSample_logger a s :
  logger (HandleSample a s)
  = (logger a ++ warnings [s])%list.
Proof.
  unfold warnings. cbn [filter].
  destruct (knownType (Type_ (metric s))) eqn:Hk; cbn [negb map].
  - rewrite app_nil_r. revert Hk.
    unfold HandleSample, knownType, handleCounter, handleGauge, handleRate,
      handleTrend. cbv zeta.
    repeat match goal with
           | |- context [if ?c then _ else _] => destruct c
           end; cbn; try reflexivity; discriminate.
  - rewrite (HandleSample_unknown_type a s Hk). reflexivity.
Qed.

(** ** One sample, instrument by instrument *)

Lemma effect_counters s m f :
  counters (effect s m) f
  = if counterHit f s then Add (Value s) (counters m f) else counters m f.
Proof.
  unfold effect, counterHit.
  destruct (gaugeOf s); destruct (histogramOf s);
    (destruct (counterOf s) as [f' | ];
     cbn [counters gauges histograms counterAdd gaugeSet histogramObserve];
     [ destruct (counterField_eq_dec f' f); destruct (counterField_eq_dec f f');
       try congruence; reflexivity
     | reflexivity ]).
Qed.

Lemma effect_gauges s m f :
  gauges (effect s m) f
  = if gaugeHit f s then Set_ (Value s) (gauges m f) else gauges m f.
Proof.
  unfold effect, gaugeHit.
  destruct (counterOf s); destruct (histogramOf s);
    (destruct (gaugeOf s) as [f' | ];
     cbn [counters gauges histograms counterAdd gaugeSet histogramObserve];
     [ destruct (gaugeField_eq_dec f' f); destruct (gaugeField_eq_dec f f');
       try congruence; reflexivity
     | reflexivity ]).
Qed.

Lemma effect_histograms s m f :
  histograms (effect s m) f
  = if histogramHit f s then Observe (Value s) (histograms m f) else histograms m f.
Proof.
  unfold effect, histogramHit.
  destruct (counterOf s); destruct (gaugeOf s);
    (destruct (histogramOf s) as [f' | ];
     cbn [counters gauges histograms counterAdd gaugeSet histogramObserve];
     [ destruct (histogramField_eq_dec f' f); destruct (histogramField_eq_dec f f');
       try congruence; reflexivity
     | reflexivity ]).
Qed.

(** ** A whole stream *)

Lemma stream_counter f : forall ss a,
  total (counters (builtin (fold_left HandleSample ss a)) f)
  = (total (counters (builtin a) f) + counterSum f ss)%R.
Proof.
  induction ss as [ | s ss IH ]; intros a.
  - unfold counterSum. simpl. lra.
  - cbn [fold_left]. rewrite IH, HandleSample_effect, effect_counters.
    unfold counterSum. cbn [filter].
    destruct (counterHit f s); cbn [map fold_right total Add]; lra.
Qed.

Lemma stream_histogram f : forall ss a,
  histograms (builtin (fold_left HandleSample ss a)) f
  = {| histogramOpts := histogramOpts (histograms (builtin a) f);
       Buckets := Buckets (histograms (builtin a) f);
       observations := observations (histograms (builtin a) f) ++ observed f ss |}.
Proof.
  induction ss as [ | s ss IH ]; intros a.
  - unfold observed. simpl. rewrite app_nil_r.
    destruct (histograms (builtin a) f). reflexivity.
  - cbn [fold_left]. rewrite IH, HandleSample_effect, effect_histograms.
    unfold observed. cbn [filter].
    destruct (histogramHit f s); cbn [map histogramOpts Buckets observations Observe].
    + rewrite <- app_assoc. reflexivity.
    + reflexivity.
Qed.

Lemma stream_gauge f : forall ss a,
  gauges (builtin (fold_left HandleSample ss a)) f
  = {| gaugeOpts := gaugeOpts (gauges (builtin a) f);
       current := match lastSet f ss with
                  | Some v => v
                  | None => current (gauges (builtin a) f)
                  end |}.
Proof.
  induction ss as [ | s ss IH ]; intros a.
  - simpl. destruct (gauges (builtin a) f). reflexivity.
  - cbn [fold_left lastSet]. rewrite IH, HandleSample_effect, effect_gauges.
    destruct (lastSet f ss); destruct (gaugeHit f s); reflexivity.
Qed.

Lemma stream_counter_opts f : forall ss a,
  counterOpts (counters (builtin (fold_left HandleSample ss a)) f)
  = counterOpts (counters (builtin a) f).
Proof.
  induction ss as [ | s ss IH ]; intros a; [ reflexivity | ].
  cbn [fold_left]. rewrite IH, HandleSample_effect, effect_counters.
  destruct (counterHit f s); reflexivity.
Qed.

Lemma stream_logger : forall ss a,
  logger (fold_left HandleSample ss a) = (logger a ++ warnings ss)%list.
Proof.
  induction ss as [ | s ss IH ]; intros a.
  - unfold warnings. simpl. now rewrite app_nil_r.
  - cbn [fold_left]. rewrite IH, HandleSample_logger, <- app_assoc.
    f_equal. unfold warnings. cbn [filter].
    destruct (negb (knownType (Type_ (metric s)))); reflexivity.
Qed.

Lemma stream_registry : forall ss a,
  registry (fold_left HandleSample ss a) = registry a
  /\ Internal.Namespace (fold_left HandleSample ss a) = Internal.Namespace a
  /\ Internal.Subsystem (fold_left HandleSample ss a) = Internal.Subsystem a.
Proof.
  induction ss as [ | s ss IH ]; intros a; [ auto | ].
  cbn [fold_left]. destruct (IH (HandleSample a s)) as (-> & -> & ->).
  unfold HandleSample, handleCounter, handleGauge, handleRate, handleTrend.
  cbv zeta.
  repeat match goal with
         | |- context [if ?c then _ else _] => destruct c
         end; auto.
Qed.

End Streams.

(* ===================================================================== *)
(** * The guard of the counters *)
(* ===================================================================== *)

Section Guards.
Import Metrics Prometheus Logrus Internal Effects.

Implicit Types (a : Internal.PrometheusAdapter) (s : Sample) (ss : list Sample).

Ltac two_tags :=
  repeat match goal with
         | H : (_ =? _)%Z = true |- _ => apply Z.eqb_eq in H
         end;
  try congruence; subst.

(** The guarded handler panics exactly on a negative sample that reaches a
    counter, and otherwise returns what the plain handler computes. *)
Lemma HandleSample_guard a s :
  Guarded.HandleSample a s
  = match counterOf s with
    | Some _ => if Guarded.refuses (Value s) then Panic
                else Done (HandleSample a s)
    | None => Done (HandleSample a s)
    end.
Proof.
  destruct s as [[name t] v].
  unfold Guarded.HandleSample, HandleSample, counterOf.
  cbn [metric Type_ Name Value].
  destruct (t =? Counter) eqn:Ec.
  - unfold Guarded.handleCounter, handleCounter, Guarded.counterAdd, Guarded.updated.
    cbn [metric Name Value lookup counterCatalog].
    repeat match goal with
           | |- context [String.eqb name ?lit] => destruct (String.eqb name lit)
           end;
      try reflexivity; destruct (Guarded.refuses v); reflexivity.
  - destruct (t =? Gauge); [ reflexivity | ].
    destruct (t =? Rate); [ reflexivity | ].
    destruct (t =? Trend); reflexivity.
Qed.

Lemma HandleSample_accepted a s :
  Guarded.accepted s -> Guarded.HandleSample a s = Done (HandleSample a s).
Proof.
  intros Hacc. rewrite HandleSample_guard. unfold Guarded.accepted in Hacc.
  destruct (counterOf s); [ | reflexivity ].
  destruct (Guarded.refuses (Value s)) as [Hneg | _]; [ | reflexivity ].
  assert (0 <= Value s)%R by (apply Hacc; discriminate). lra.
Qed.

Lemma HandleSample_refused a s :
  ~ Guarded.accepted s -> Guarded.HandleSample a s = Panic.
Proof.
  intros Hrej. rewrite HandleSample_guard. unfold Guarded.accepted in Hrej.
  destruct (counterOf s).
  - destruct (Guarded.refuses (Value s)) as [_ | Hpos]; [ reflexivity | ].
    exfalso. apply Hrej. intros _. lra.
  - exfalso. apply Hrej. intros H. congruence.
Qed.

Lemma handleAll_accepted : forall ss a,
  Forall Guarded.accepted ss ->
  Guarded.handleAll a ss = Done (fold_left HandleSample ss a).
Proof.
  induction ss as [ | s ss IH ]; intros a Hall; [ reflexivity | ].
  inversion Hall as [ | ? ? Hs Hss ]; subst.
  cbn [Guarded.handleAll fold_left]. rewrite (HandleSample_accepted a s Hs).
  apply IH, Hss.
Qed.

Lemma handleAll_app : forall ss1 ss2 a,
  Guarded.handleAll a (ss1 ++ ss2)
  = match Guarded.handleAll a ss1 with
    | Done a' => Guarded.handleAll a' ss2
    | Panic => Panic
    | OutOfFuel => OutOfFuel
    end.
Proof.
  induction ss1 as [ | s ss1 IH ]; intros ss2 a; [ reflexivity | ].
  cbn [app Guarded.handleAll].
  destruct (Guarded.HandleSample a s); [ apply IH | reflexivity | reflexivity ].
Qed.

(** The two loops of a worker handle the samples of the batch in order. *)
Lemma processGroup_guarded_flat : forall sampleGroup a,
  Guarded.processGroup a sampleGroup
  = Guarded.handleAll a (Concurrent.samplesOf sampleGroup).
Proof.
  unfold Concurrent.samplesOf.
  induction sampleGroup as [ | sc g IH ]; intros a; [ reflexivity | ].
  cbn [Guarded.processGroup map concat]. rewrite handleAll_app.
  destruct (Guarded.handleAll a (GetSamples sc)); [ apply IH | reflexivity | reflexivity ].
Qed.

Lemma processGroup_accepted a (sampleGroup : list SampleContainer) :
  Forall Guarded.accepted (Concurrent.samplesOf sampleGroup) ->
  Guarded.processGroup a sampleGroup = Done (Dashboard.processGroup a sampleGroup).
Proof.
  intros Hall. rewrite processGroup_guarded_flat, processGroup_flat.
  apply handleAll_accepted, Hall.
Qed.

Lemma counter_sample_accepted name f v :
  In (name, f) counterCatalog -> (0 <= v)%R ->
  Guarded.accepted (mkSample name Counter v).
Proof. intros _ Hv _. exact Hv. Qed.

Lemma counter_sample_refused name f v :
  In (name, f) counterCatalog -> (v < 0)%R ->
  ~ Guarded.accepted (mkSample name Counter v).
Proof.
  intros Hin Hv Hacc. unfold Guarded.accepted in Hacc.
  assert (0 <= v)%R; [ | lra ].
  apply Hacc. unfold counterOf. simpl in Hin |- *.
  repeat (destruct Hin as [Hin | Hin]; [ injection Hin as <- <-; discriminate | ]).
  contradiction.
Qed.

(** C2 as stated fails: a Counter sample of [http_reqs] with the value -1 is
    not added to the counter, the counter refuses it and the worker that
    handles it panics. *)
Lemma negative_counter_sample_panics :
  Guarded.handleAll Examples.adapter0 [Guarded.negative] = Panic
  /\ In ("http_reqs"%string, HTTPReqs) counterCatalog
  /\ Guarded.negative = mkSample "http_reqs" Counter (-1).
Proof.
  split; [ | split; [ simpl; auto | reflexivity ] ].
  cbn [Guarded.handleAll]. rewrite HandleSample_refused; [ reflexivity | ].
  apply (counter_sample_refused "http_reqs" HTTPReqs); [ simpl; auto | lra ].
Qed.

(** C2, as the code has it.  For a name of the Counter handler's catalog
    and a value [v] that is not negative, handling N samples of type Counter
    with that name and value [v] each returns and adds [N * v] to the
    counter of that name; five [http_reqs] samples of value 1 handled by a
    fresh adapter leave its [http_reqs] counter at 5.  A negative value is
    refused by the counter: handling such samples panics. *)
Theorem handleCounter_accumulates (name : string) (f : counterField) :
  In (name, f) counterCatalog ->
  (forall a v ss,
      (0 <= v)%R ->
      Forall (fun s => s = mkSample name Counter v) ss ->
      exists a',
        Guarded.handleAll a ss = Done a'
        /\ total (counters (builtin a') f)
           = (total (counters (builtin a) f) + INR (length ss) * v)%R)
  /\ (forall a v ss,
        (v < 0)%R -> ss <> [] ->
        Forall (fun s => s = mkSample name Counter v) ss ->
        Guarded.handleAll a ss = Panic)
  /\ (forall registry logger ns sub a r,
        NewPrometheusAdapter registry logger ns sub = (Some a, r) ->
        exists a',
          Guarded.handleAll a (repeat (mkSample "http_reqs" Counter 1) 5) = Done a'
          /\ total (counters (builtin a') HTTPReqs) = 5%R).
Proof.
  intros Hin.
  assert (Hgen : forall name f, In (name, f) counterCatalog ->
            forall ss a v,
              (0 <= v)%R ->
              Forall (fun s => s = mkSample name Counter v) ss ->
              exists a',
                Guarded.handleAll a ss = Done a'
                /\ total (counters (builtin a') f)
                   = (total (counters (builtin a) f) + INR (length ss) * v)%R).
  { clear. intros name f Hin ss. induction ss as [ | s ss IH ]; intros a v Hv Hall.
    - exists a. split; [ reflexivity | ]. simpl. lra.
    - inversion Hall as [ | ? ? Hs Hss ]; subst.
      cbn [Guarded.handleAll].
      rewrite (HandleSample_accepted a _ (counter_sample_accepted name f v Hin Hv)).
      destruct (IH (HandleSample a (mkSample name Counter v)) v Hv Hss)
        as [a' [Hrun Htot]].
      exists a'. split; [ exact Hrun | ].
      rewrite Htot, (HandleSample_counter name f a v Hin).
      cbn [builtin withBuiltin]. rewrite counterAdd_same.
      change (length (mkSample name Counter v :: ss)) with (S (length ss)).
      rewrite S_INR. lra. }
  split; [ | split ].
  - intros a v ss. apply Hgen, Hin.
  - intros a v ss Hv Hne Hall. destruct ss as [ | s ss ]; [ congruence | ].
    inversion Hall as [ | ? ? Hs _ ]; subst.
    cbn [Guarded.handleAll].
    rewrite (HandleSample_refused a _ (counter_sample_refused name f v Hin Hv)).
    reflexivity.
  - intros registry logger ns sub a r Hnew.
    destruct (Hgen "http_reqs"%string HTTPReqs ltac:(simpl; auto)
                (repeat (mkSample "http_reqs" Counter 1) 5) a 1%R ltac:(lra)
                ltac:(repeat constructor)) as [a' [Hrun Htot]].
    exists a'. split; [ exact Hrun | ].
    rewrite Htot, (NewPrometheusAdapter_builtin _ _ _ _ _ _ Hnew). simpl. lra.
Qed.

(** The theorem at the [http_reqs] counter: three samples of value 2.5, and
    the five samples of value 1, on the adapter of the examples. *)
Lemma handleCounter_accumulates_witness :
  (exists a',
      Guarded.handleAll Examples.adapter0 (repeat (mkSample "http_reqs" Counter 2.5) 3)
      = Done a'
      /\ total (counters (builtin a') HTTPReqs)
         = (total (counters (builtin Examples.adapter0) HTTPReqs) + INR 3 * 2.5)%R)
  /\ (exists a',
        Guarded.handleAll Examples.adapter0 (repeat (mkSample "http_reqs" Counter 1) 5)
        = Done a'
        /\ total (counters (builtin a') HTTPReqs) = 5%R).
Proof.
  destruct (handleCounter_accumulates "http_reqs" HTTPReqs) as [Hgen [_ Hfive]].
  - simpl. auto.
  - split.
    + apply Hgen; [ lra | repeat constructor ].
    + apply (Hfive Examples.emptyRegistry [] ""%string ""%string
                   Examples.adapter0 (registry Examples.adapter0)).
      reflexivity.
Defined.

End Guards.

(* ===================================================================== *)
(** * What a batch does to the registry *)
(* ===================================================================== *)

Section Batches.
Import Metrics Prometheus Logrus Internal Effects.

Implicit Types (a : Internal.PrometheusAdapter) (s : Sample) (ss : list Sample).

(** X1.  A run of Rate samples with a name of the Rate handler ([checks],
    [http_req_failed]) appends their values, in order, to the observations
    of the histogram of that name, and touches no gauge and no counter. *)
Theorem handleRate_observes (name : string) (h : histogramField) :
  In (name, h) rateCatalog ->
  forall a ss,
    Forall (fun s => Name (metric s) = name /\ Type_ (metric s) = Rate) ss ->
    observations (histograms (builtin (fold_left HandleSample ss a)) h)
    = observations (histograms (builtin a) h) ++ map Value ss
    /\ gauges (builtin (fold_left HandleSample ss a)) = gauges (builtin a)
    /\ counters (builtin (fold_left HandleSample ss a)) = counters (builtin a).
Proof.
  intros Hin a ss. revert a. induction ss as [ | s ss IH ]; intros a Hall.
  - simpl. rewrite app_nil_r. auto.
  - inversion Hall as [ | ? ? [Hn Ht] Hss ]; subst.
    cbn [fold_left map]. destruct (IH (HandleSample a s) Hss) as (-> & -> & ->).
    rewrite (sample_eta s _ _ eq_refl Ht).
    rewrite (HandleSample_rate _ h _ _ Hin).
    cbn [builtin withBuiltin Value mkSample].
    rewrite histogramObserve_same, <- app_assoc. auto.
Qed.

(** X2.  When no Counter sample of a handled name in the batch is
    negative, the worker handles the whole batch without a panic, and each
    counter then stands at what it was plus the sum of the values of the
    Counter samples of the batch that carry the counter's name (the values
    being read as exact reals, that is, up to the rounding of the [float64]
    additions); its description is unchanged. *)
Theorem batch_counter_total a (sampleGroup : list SampleContainer) (f : counterField) :
  Forall Guarded.accepted (Concurrent.samplesOf sampleGroup) ->
  exists a',
    Guarded.processGroup a sampleGroup = Done a'
    /\ total (counters (builtin a') f)
       = (total (counters (builtin a) f)
          + counterSum f (Concurrent.samplesOf sampleGroup))%R
    /\ counterOpts (counters (builtin a') f) = counterOpts (counters (builtin a) f).
Proof.
  intros Hall. exists (Dashboard.processGroup a sampleGroup).
  split; [ apply processGroup_accepted, Hall | ].
  rewrite processGroup_flat. split.
  - apply stream_counter.
  - apply stream_counter_opts.
Qed.

(** X3.  When no Counter sample of a handled name in the batch is
    negative, the worker handles the whole batch without a panic, and each
    histogram then holds the observations it had, followed by the values,
    in the order of the batch, of the Rate samples and of the Trend samples
    that carry the histogram's name; its buckets and its description are
    the same. *)
Theorem batch_histogram_observations a (sampleGroup : list SampleContainer)
        (f : histogramField) :
  Forall Guarded.accepted (Concurrent.samplesOf sampleGroup) ->
  exists a',
    Guarded.processGroup a sampleGroup = Done a'
    /\ observations (histograms (builtin a') f)
       = observations (histograms (builtin a) f)
           ++ observed f (Concurrent.samplesOf sampleGroup)
    /\ Buckets (histograms (builtin a') f) = Buckets (histograms (builtin a) f)
    /\ histogramOpts (histograms (builtin a') f)
       = histogramOpts (histograms (builtin a) f).
Proof.
  intros Hall. exists (Dashboard.processGroup a sampleGroup).
  split; [ apply processGroup_accepted, Hall | ].
  rewrite processGroup_flat, stream_histogram. repeat split.
Qed.

(** X4.  When no Counter sample of a handled name in the batch is
    negative, the worker handles the whole batch without a panic, and each
    gauge then holds the value of the last sample of the batch that sets it
    (a Gauge sample with the gauge's name, or a Trend sample whose "current"
    gauge it is), and what it held before when no sample of the batch sets
    it. *)
Theorem batch_gauge_last_set a (sampleGroup : list SampleContainer) (f : gaugeField) :
  Forall Guarded.accepted (Concurrent.samplesOf sampleGroup) ->
  exists a',
    Guarded.processGroup a sampleGroup = Done a'
    /\ current (gauges (builtin a') f)
       = match lastSet f (Concurrent.samplesOf sampleGroup) with
         | Some v => v
         | None => current (gauges (builtin a) f)
         end
    /\ gaugeOpts (gauges (builtin a') f) = gaugeOpts (gauges (builtin a) f).
Proof.
  intros Hall. exists (Dashboard.processGroup a sampleGroup).
  split; [ apply processGroup_accepted, Hall | ].
  rewrite processGroup_flat, stream_gauge. split; reflexivity.
Qed.

(** X5.  When no Counter sample of a handled name in the batch is
    negative, the worker handles the whole batch without a panic, and has
    then written to the log one warning for each sample of the batch whose
    type tag is none of the four, in the order of the batch, and nothing
    else. *)
Theorem batch_log_warnings a (sampleGroup : list SampleContainer) :
  Forall Guarded.accepted (Concurrent.samplesOf sampleGroup) ->
  exists a',
    Guarded.processGroup a sampleGroup = Done a'
    /\ logger a' = logger a ++ warnings (Concurrent.samplesOf sampleGroup).
Proof.
  intros Hall. exists (Dashboard.processGroup a sampleGroup).
  split; [ apply processGroup_accepted, Hall | ].
  rewrite processGroup_flat. apply stream_logger.
Qed.

(** X6.  Handling samples never changes what is registered: the registry,
    the namespace and the subsystem of the adapter are the same after any
    batch. *)
Theorem batch_keeps_registry a (sampleGroup : list SampleContainer) :
  registry (Dashboard.processGroup a sampleGroup) = registry a
  /\ Internal.Namespace (Dashboard.processGroup a sampleGroup) = Internal.Namespace a
  /\ Internal.Subsystem (Dashboard.processGroup a sampleGroup) = Internal.Subsystem a.
Proof.
  rewrite processGroup_flat. apply stream_registry.
Qed.

(** ** Order *)

Lemma observed_perm f ss ss' :
  Permutation ss ss' -> Permutation (observed f ss) (observed f ss').
Proof.
  unfold observed.
  induction 1 as [ | x l l' _ IH | x y l | l l' l'' _ IH1 _ IH2 ]; cbn [filter].
  - constructor.
  - destruct (histogramHit f x); cbn [map]; auto.
  - destruct (histogramHit f x); destruct (histogramHit f y); cbn [map];
      auto using perm_swap.
  - eapply perm_trans; eassumption.
Qed.

Lemma accepted_perm ss ss' :
  Permutation ss ss' -> Forall Guarded.accepted ss -> Forall Guarded.accepted ss'.
Proof.
  intros Hperm Hall. rewrite Forall_forall in *. intros s Hin.
  apply Hall. eapply Permutation_in; [ apply Permutation_sym, Hperm | exact Hin ].
Qed.

(** X7.  The order in which samples are handled does not matter to what
    the histograms have observed: two streams with the same samples in
    different orders, none of them a negative Counter sample of a handled
    name, are both handled without a panic and leave every histogram with
    the same observations up to their order. *)
Theorem order_does_not_matter a ss ss' :
  Permutation ss ss' ->
  Forall Guarded.accepted ss ->
  exists a1 a2,
    Guarded.handleAll a ss = Done a1
    /\ Guarded.handleAll a ss' = Done a2
    /\ (forall f, Permutation (observations (histograms (builtin a1) f))
                              (observations (histograms (builtin a2) f))).
Proof.
  intros Hperm Hall.
  exists (fold_left HandleSample ss a), (fold_left HandleSample ss' a).
  split; [ apply handleAll_accepted, Hall | ].
  split; [ apply handleAll_accepted, (accepted_perm ss ss' Hperm Hall) | ].
  intros f. rewrite !stream_histogram. cbn [observations].
  apply Permutation_app_head, observed_perm, Hperm.
Qed.

Lemma counterSum_nonneg f ss :
  Forall (fun s => (0 <= Value s)%R) ss -> (0 <= counterSum f ss)%R.
Proof.
  unfold counterSum. induction 1 as [ | s ss Hs _ IH ]; cbn [filter].
  - simpl. lra.
  - destruct (counterHit f s); cbn [map fold_right]; lra.
Qed.

(** X8.  When no sample has a negative value, no counter ever decreases. *)
Theorem counters_never_decrease a ss (f : counterField) :
  Forall (fun s => (0 <= Value s)%R) ss ->
  (total (counters (builtin a) f)
   <= total (counters (builtin (fold_left HandleSample ss a)) f))%R.
Proof.
  intros Hpos. rewrite stream_counter.
  pose proof (counterSum_nonneg f ss Hpos). lra.
Qed.

Lemma never_dropped_iterations s : counterHit DroppedIterations s = false.
Proof.
  destruct s as [[name t] v]. unfold counterHit, counterOf.
  cbn [metric Type_ Name lookup counterCatalog].
  destruct (t =? Counter); [ | reflexivity ].
  repeat match goal with
         | |- context [String.eqb name ?lit] => destruct (String.eqb name lit)
         end; reflexivity.
Qed.

End Batches.

(* ===================================================================== *)
(** * What the constructor registers *)
(* ===================================================================== *)

Section Construction.
Import Metrics Prometheus Logrus Internal Effects.

Lemma registerAll_done : forall metrics registry r,
  registerAll registry metrics = (r, true) ->
  collectors r = collectors registry ++ metrics /\ check r = check registry.
Proof.
  induction metrics as [ | c metrics IH ]; intros registry r H; simpl in H.
  - inversion H; subst. now rewrite app_nil_r.
  - unfold Register in H.
    destruct (check registry (collectors registry) c); [ discriminate | ].
    apply IH in H. cbn [collectors check] in H. destruct H as [-> ->].
    now rewrite <- app_assoc.
Qed.

Lemma NewPrometheusAdapter_done reg lg ns sub a r :
  NewPrometheusAdapter reg lg ns sub = (Some a, r) ->
  builtin a = newBuiltinMetrics reg ns sub
  /\ Internal.registry a = r
  /\ Internal.logger a = lg
  /\ collectors r = collectors reg ++ builtinCollectors (builtin a)
  /\ check r = check reg.
Proof.
  unfold NewPrometheusAdapter. cbv zeta.
  destruct (registerAll _ _) as [r' [ | ]] eqn:Hreg; intros H; inversion H; subst.
  cbn [builtin Internal.registry Internal.logger].
  destruct (registerAll_done _ _ _ Hreg) as [Hc Hk]. auto.
Qed.

Lemma distinct_NoDup : forall l, distinct l = true -> NoDup l.
Proof.
  induction l as [ | x l IH ]; intros H; simpl in H.
  - constructor.
  - apply andb_true_iff in H. destruct H as [Hx Hl]. constructor.
    + intros Hin. apply negb_true_iff in Hx.
      assert (existsb (String.eqb x) l = true) as Hex.
      { apply existsb_exists. exists x. split; [ exact Hin | apply String.eqb_refl ]. }
      congruence.
    + apply IH, Hl.
Qed.

(** X9.  When every builtin collector passes the check of the registry,
    [NewPrometheusAdapter] returns an adapter, and the registry has gained
    exactly the twenty-four builtin collectors, in the order of the source,
    behind the collectors it had; their names are pairwise distinct; and
    every counter and gauge of the adapter starts at 0 and every histogram
    with no observation. *)
Theorem NewPrometheusAdapter_registers reg lg (ns sub : string) :
  acceptsAll (check reg) (collectors reg)
             (builtinCollectors (newBuiltinMetrics reg ns sub)) = true ->
  exists a,
    NewPrometheusAdapter reg lg ns sub = (Some a, Internal.registry a)
    /\ collectors (Internal.registry a)
       = collectors reg ++ builtinCollectors (builtin a)
    /\ length (builtinCollectors (builtin a)) = 24%nat
    /\ NoDup (collectorNames (builtinCollectors (builtin a)))
    /\ (forall f, total (counters (builtin a) f) = 0%R)
    /\ (forall f, current (gauges (builtin a) f) = 0%R)
    /\ (forall f, observations (histograms (builtin a) f) = []).
Proof.
  intros Hacc.
  pose proof (registerAll_prefix
                (builtinCollectors (newBuiltinMetrics reg ns sub)) []
                reg Hacc) as Hreg.
  rewrite app_nil_r in Hreg. cbn [registerAll] in Hreg.
  unfold NewPrometheusAdapter. cbv zeta. rewrite Hreg.
  exists {| Internal.Subsystem := sub; Internal.Namespace := ns;
            Internal.logger := lg;
            Internal.registry :=
              {| collectors := collectors reg
                               ++ builtinCollectors (newBuiltinMetrics reg ns sub);
                 check := check reg |};
            builtin := newBuiltinMetrics reg ns sub |}.
  split; [ reflexivity | ].
  cbn [Internal.registry builtin collectors].
  split; [ reflexivity | ]. split; [ reflexivity | ].
  split; [ apply distinct_NoDup; reflexivity | ].
  split; [ | split ]; intros f; destruct f; reflexivity.
Qed.

(** X10.  The [dropped_iterations] counter of an adapter that the
    constructor has returned is registered, and therefore exposed, but no
    sample ever changes it: after any stream of samples it still reads 0. *)
Theorem dropped_iterations_stays_zero reg lg (ns sub : string) a r ss :
  NewPrometheusAdapter reg lg ns sub = (Some a, r) ->
  In (counterCollector (builtin a) DroppedIterations)
     (collectors (Internal.registry (fold_left HandleSample ss a)))
  /\ total (counters (builtin (fold_left HandleSample ss a)) DroppedIterations)
     = 0%R.
Proof.
  intros Hnew.
  destruct (NewPrometheusAdapter_done _ _ _ _ _ _ Hnew) as (Hb & Hr & _ & Hc & _).
  split.
  - destruct (stream_registry ss a) as [-> _]. rewrite Hr, Hc.
    apply in_or_app. right. unfold builtinCollectors. simpl. tauto.
  - rewrite stream_counter.
    assert (Hzero : counterSum DroppedIterations ss = 0%R).
    { unfold counterSum. induction ss as [ | s ss IH ]; [ reflexivity | ].
      cbn [filter]. rewrite never_dropped_iterations. exact IH. }
    rewrite Hzero, Hb. simpl. lra.
Qed.

(** X11.  The [iteration_duration] histogram is fed by every Trend sample
    of that name, yet it is not among the collectors that the constructor
    registers: on a registry that did not have it, its observations are
    never exposed. *)
Theorem iteration_duration_not_registered reg lg (ns sub : string) a r :
  NewPrometheusAdapter reg lg ns sub = (Some a, r) ->
  ~ In (histogramCollector (builtin a) IterationDuration) (collectors reg) ->
  ~ In (histogramCollector (builtin a) IterationDuration) (collectors r)
  /\ (forall a' v,
        observations
          (histograms (builtin (HandleSample a' (mkSample "iteration_duration" Trend v)))
                      IterationDuration)
        = observations (histograms (builtin a') IterationDuration) ++ [v]).
Proof.
  intros Hnew Hfresh.
  destruct (NewPrometheusAdapter_done _ _ _ _ _ _ Hnew) as (Hb & _ & _ & Hc & _).
  split.
  - rewrite Hc. intros Hin. apply in_app_or in Hin. destruct Hin as [Hin | Hin].
    + exact (Hfresh Hin).
    + rewrite Hb in Hin. unfold builtinCollectors in Hin. simpl in Hin.
      repeat (destruct Hin as [Hin | Hin]; [ discriminate Hin | ]). exact Hin.
  - intros a' v.
    rewrite (HandleSample_trend "iteration_duration"
               IterationDurationCurrent IterationDuration) by (simpl; tauto).
    cbn [builtin withBuiltin]. unfold setAndObserve.
    rewrite histogramObserve_same. reflexivity.
Qed.

Lemma ordered_increasing : forall l, Guarded.ordered l = true <-> increasing l.
Proof.
  induction l as [ | a [ | b rest ] IH ]; cbn [Guarded.ordered increasing].
  - tauto.
  - tauto.
  - destruct (Rlt_dec a b) as [Hlt | Hge].
    + rewrite IH. tauto.
    + split; [ discriminate | tauto ].
Qed.

(** X12.  Given no buckets, [NewHistogram] takes the default ones: the nine
    tenths from 0.1 to 0.9 followed by the sixteen powers of two from 1 to
    32768, twenty-five bounds in strictly increasing order, which the
    histogram accepts.  Given a non-empty list of bounds it passes that
    list on: the histogram is created with these bounds when they are in
    strictly increasing order, and the call panics when they are not. *)
Theorem NewHistogram_buckets reg (ns sub name help : string) :
  Buckets (NewHistogram reg ns sub name help []) = defaultBuckets
  /\ length defaultBuckets = 25%nat
  /\ increasing defaultBuckets
  /\ nth 9 defaultBuckets 0%R = 1%R
  /\ last defaultBuckets 0%R = 32768%R
  /\ Guarded.NewHistogram reg ns sub name help []
     = Done (NewHistogram reg ns sub name help [])
  /\ (forall b bs,
        increasing (b :: bs) ->
        exists metric,
          Guarded.NewHistogram reg ns sub name help (b :: bs) = Done metric
          /\ Buckets metric = b :: bs
          /\ observations metric = [])
  /\ (forall b bs,
        ~ increasing (b :: bs) ->
        Guarded.NewHistogram reg ns sub name help (b :: bs) = Panic).
Proof.
  assert (Hdefault : increasing defaultBuckets).
  { unfold defaultBuckets. cbn [ExponentialBuckets app increasing].
    repeat split; lra. }
  split; [ reflexivity | ]. split; [ reflexivity | ].
  split; [ exact Hdefault | ]. split; [ reflexivity | ].
  split; [ unfold defaultBuckets; cbn [ExponentialBuckets app last]; lra | ].
  split; [ | split ].
  - unfold Guarded.NewHistogram. cbv zeta.
    assert (Guarded.ordered (Buckets (NewHistogram reg ns sub name help [])) = true)
      as -> by (apply ordered_increasing; exact Hdefault).
    reflexivity.
  - intros b bs Hinc. eexists. unfold Guarded.NewHistogram. cbv zeta.
    assert (Guarded.ordered (Buckets (NewHistogram reg ns sub name help (b :: bs)))
            = true) as -> by (apply ordered_increasing; exact Hinc).
    repeat split.
  - intros b bs Hnot. unfold Guarded.NewHistogram. cbv zeta.
    destruct (Guarded.ordered (Buckets (NewHistogram reg ns sub name help (b :: bs))))
      eqn:Ho; [ | reflexivity ].
    exfalso. apply Hnot. apply ordered_increasing in Ho. exact Ho.
Qed.

End Construction.

(* ===================================================================== *)
(** * Start, flush and stop, one after the other *)
(* ===================================================================== *)

Section Sequences.
Import Metrics Prometheus Logrus Dashboard.

Variable NewRegistry : Registry.
Variable Values : Type.
Variable ParseQuery : string -> Values + Error.
Variable Decode : options -> Values -> options + Error.
Variable Sprintf_addr : string -> Z -> string.
Variable Listen : string -> option Error.
Variable template_Parse : option Error.
Variable renderPage : string -> option Error.
Variable NewPeriodicFlusher : Z -> PeriodicFlusher + Error.

Local Abbreviation New := (Dashboard.New NewRegistry).
Local Abbreviation getopts := (Dashboard.getopts Values ParseQuery Decode).
Local Abbreviation Start :=
  (Dashboard.Start Values ParseQuery Decode Sprintf_addr Listen
                   template_Parse renderPage NewPeriodicFlusher).
Local Abbreviation Stop := (Dashboard.Stop Values ParseQuery Decode).

(** Everything that a [Start] without error has gone through. *)
Lemma Start_ok_inv o o' evs :
  Start o = Done (o', evs, None) ->
  exists opts f ad,
    getopts (arg o) = inl opts
    /\ PrometheusAdapter o = Some ad
    /\ NewPeriodicFlusher (Period opts) = inl f
    /\ o' = withFlusher (withAddr o (Sprintf_addr (Host opts) (Port opts))) (Some f)
    /\ evs = [EvListen (Sprintf_addr (Host opts) (Port opts));
              EvGoServe; EvGoMetricWorker; EvFlusherStart (Period opts)].
Proof.
  unfold Dashboard.Start, Dashboard.handler.
  destruct (getopts (arg o)) as [opts | err]; [ | discriminate ].
  cbn [addr withAddr PrometheusAdapter].
  destruct (Listen _); [ discriminate | ].
  destruct template_Parse; [ discriminate | ].
  destruct (PrometheusAdapter o) as [ad | ]; [ | discriminate ].
  destruct (renderPage _); [ discriminate | ].
  destruct (NewPeriodicFlusher _) as [f | err] eqn:Hf; [ | discriminate ].
  intros H. inversion H; subst. exists opts, f, ad. auto.
Qed.

(** X13.  When [Start] returns no error, the configuration was parsed, the
    adapter is not [nil], the address is the one formatted from the host and
    the port, the listener, the server, the dispatch loop and the flusher
    were set off in this order, the flusher is kept in the Output, and
    [Description] shows the address. *)
Theorem Start_without_error o o' evs :
  Start o = Done (o', evs, None) ->
  exists opts f,
    getopts (arg o) = inl opts
    /\ PrometheusAdapter o <> None
    /\ addr o' = Sprintf_addr (Host opts) (Port opts)
    /\ flusher o' = Some f
    /\ evs = [EvListen (addr o'); EvGoServe; EvGoMetricWorker;
              EvFlusherStart (Period opts)]
    /\ arg o' = arg o
    /\ sampleChannel o' = sampleChannel o
    /\ Cases.Description o'
       = ("dashboard (" ++ Sprintf_addr (Host opts) (Port opts) ++ ")")%string.
Proof.
  intros H. destruct (Start_ok_inv _ _ _ H) as (opts & f & ad & Ho & Ha & Hf & -> & ->).
  exists opts, f. rewrite Ha.
  split; [ exact Ho | ]. split; [ discriminate | ].
  repeat split.
Qed.


(** X15.  When the flusher cannot be created, [Start] returns its error
    although the server and the dispatch loop are already running; the
    Output is left without a flusher, and a [Stop] on it panics. *)
Theorem Start_flusher_error o opts ad err :
  getopts (arg o) = inl opts ->
  Listen (Sprintf_addr (Host opts) (Port opts)) = None ->
  template_Parse = None ->
  PrometheusAdapter o = Some ad ->
  renderPage (UI opts) = None ->
  NewPeriodicFlusher (Period opts) = inr err ->
  exists o',
    Start o = Done (o', [EvListen (Sprintf_addr (Host opts) (Port opts));
                         EvGoServe; EvGoMetricWorker], Some err)
    /\ flusher o' = None
    /\ Stop o' = Panic.
Proof.
  intros Ho Hl Ht Ha Hr Hf.
  unfold Dashboard.Start, Dashboard.handler. rewrite Ho.
  cbn [addr withAddr PrometheusAdapter]. rewrite Hl, Ht, Ha, Hr, Hf.
  eexists. split; [ reflexivity | ]. split; reflexivity.
Qed.

(** X17.  [Stop] cannot be called twice: the second call closes a channel
    that is already closed, and panics. *)
Theorem Stop_twice o o' evs err :
  Stop o = Done (o', evs, err) -> Stop o' = Panic.
Proof.
  unfold Dashboard.Stop.
  destruct (flusher o) as [f | ] eqn:Hfl; [ | discriminate ].
  cbn [arg withFlusher]. unfold close.
  assert (Hret : forall o1 evs1 err1,
             flusher o1 = Some {| period := period f; running := false |} ->
             match (if closed (sampleChannel o1) then None
                    else Some {| queue := queue (sampleChannel o1); closed := true |})
             with
             | Some c => Done (withChannel o1 c, evs1 ++ [EvCloseChannel], err1)
             | None => Panic
             end = Done (o', evs, err) ->
             flusher o' = Some {| period := period f; running := false |}
             /\ closed (sampleChannel o') = true).
  { intros o1 evs1 err1 Hf1 H1.
    destruct (closed (sampleChannel o1)); [ discriminate | ].
    inversion H1; subst. auto. }
  intros H.
  assert (Hstate : flusher o' = Some {| period := period f; running := false |}
                   /\ closed (sampleChannel o') = true).
  { destruct (getopts (arg o)) as [opts | e].
    - destruct (Wait opts >? 0); eapply Hret; try exact H; reflexivity.
    - eapply Hret; try exact H; reflexivity. }
  destruct Hstate as [Hf' Hc']. rewrite Hf'.
  cbn [arg withFlusher period].
  destruct (getopts (arg o')) as [opts | e].
  - destruct (Wait opts >? 0);
      cbn [sampleChannel withLogger withFlusher]; rewrite Hc'; reflexivity.
  - cbn [sampleChannel withFlusher]. rewrite Hc'. reflexivity.
Qed.

End Sequences.

(* ===================================================================== *)
(** * Flushes *)
(* ===================================================================== *)

Section Flushes.
Import Metrics Logrus Dashboard.

(** X18.  A flush that returns has emptied the buffer, has appended to the
    log the one line "Work Group" with the in-flight count, and has changed
    nothing else of the Output but the queue of the channel; a second flush
    right after it, whatever its loop budget, sends nothing and only logs
    that line again. *)
Theorem flushMetrics_then_again (fuel : nat) (o o' : Output) :
  flushMetrics fuel o = Done o' ->
  SampleBuffer o' = []
  /\ logger o' = logger o ++ [Cases.workGroupLine (workGroupCount o)]
  /\ PrometheusAdapter o' = PrometheusAdapter o
  /\ flusher o' = flusher o /\ addr o' = addr o /\ arg o' = arg o
  /\ wg o' = wg o /\ workGroupCount o' = workGroupCount o
  /\ closed (sampleChannel o') = closed (sampleChannel o)
  /\ (forall fuel',
        exists o'',
          flushMetrics fuel' o' = Done o''
          /\ sampleChannel o'' = sampleChannel o'
          /\ logger o'' = logger o' ++ [Cases.workGroupLine (workGroupCount o)]).
Proof.
  unfold flushMetrics at 1. unfold GetBufferedSamples. cbv zeta.
  destruct (splitAndSend fuel 10000 (SampleBuffer o)) as [sent | | ];
    try discriminate.
  cbn [sampleChannel withBuffer]. intros H.
  assert (Ho' : o' = withLogger
                       (withChannel (withBuffer o [])
                          {| queue := queue (sampleChannel o) ++ sent;
                             closed := closed (sampleChannel o) |})
                       (logger o ++ [Cases.workGroupLine (workGroupCount o)])).
  { revert H. destruct sent as [ | g sent ].
    - intros H. inversion H. reflexivity.
    - destruct (closed (sampleChannel o)); [ discriminate | ].
      intros H. inversion H. reflexivity. }
  subst o'. clear H.
  repeat (split; [ reflexivity | ]).
  intros fuel'. unfold flushMetrics, GetBufferedSamples. cbv zeta.
  cbn [SampleBuffer withLogger withChannel withBuffer].
  assert (Hempty : splitAndSend fuel' 10000 (@nil Metrics.SampleContainer) = Done []).
  { destruct fuel'; reflexivity. }
  rewrite Hempty. eexists. split; [ reflexivity | ].
  cbn [sampleChannel logger workGroupCount withLogger withChannel withBuffer
       queue closed].
  split; [ | reflexivity ].
  rewrite app_nil_r. reflexivity.
Qed.

(** X19.  A flush that finds containers in the buffer after the channel has
    been closed panics on its first send; with an empty buffer it returns,
    having sent nothing. *)
Theorem flushMetrics_closed_channel (fuel : nat) (o : Output) :
  closed (sampleChannel o) = true ->
  len (SampleBuffer o) + 10000 <= int_max ->
  len (SampleBuffer o) <= Z.of_nat fuel ->
  (SampleBuffer o <> [] -> flushMetrics fuel o = Panic)
  /\ (SampleBuffer o = [] ->
      exists o', flushMetrics fuel o = Done o'
                 /\ sampleChannel o' = sampleChannel o).
Proof.
  intros Hclosed Hsize Hfuel.
  destruct (splitAndSend_windows (SampleBuffer o) 10000 ltac:(lia) Hsize fuel Hfuel)
    as [ws [Hrun Hws]].
  unfold flushMetrics, GetBufferedSamples. cbv zeta. rewrite Hrun.
  cbn [sampleChannel withBuffer]. rewrite Hclosed. split.
  - intros Hne. destruct ws as [ | w ws ]; [ | reflexivity ].
    apply windows_concat in Hws. simpl in Hws. congruence.
  - intros Hnil. rewrite Hnil in Hws. apply windows_of_nil in Hws. subst ws.
    eexists. split; [ reflexivity | ].
    cbn [sampleChannel withLogger withChannel withBuffer].
    rewrite app_nil_r, <- Hclosed. destruct (sampleChannel o). reflexivity.
Qed.

End Flushes.

(* ===================================================================== *)
(** * The counters and the samples across the goroutines *)
(* ===================================================================== *)

Section Goroutines.
Import Metrics Internal Dashboard Interleaving Accounting.

Variable reparse : options + Prometheus.Error.

(** The fields of a state after an update. *)
Ltac fields :=
  cbn [adapter Interleaving.logger buffer chan flusher stopRequested wgCounter
       inFlight workers stop slept crashed
       setAdapter setLogger setBuffer setChan setFlusher setStopRequested
       setWgCounter setInFlight setWorkers setStop setSlept setCrashed
       beginFlush queue closed].












(** ** Where the samples are *)

Lemma samplesOf_app g1 g2 : samplesOf (g1 ++ g2) = samplesOf g1 ++ samplesOf g2.
Proof. unfold samplesOf. now rewrite map_app, concat_app. Qed.

Lemma todo_app l1 l2 :
  length (concat (map todoOf (l1 ++ l2)))
  = (length (concat (map todoOf l1)) + length (concat (map todoOf l2)))%nat.
Proof. now rewrite map_app, concat_app, length_app. Qed.

Lemma todo_replaceNth : forall l i x y,
  nth_error l i = Some x ->
  (length (concat (map todoOf (replaceNth i y l))) + length (todoOf x)
   = length (concat (map todoOf l)) + length (todoOf y))%nat.
Proof.
  induction l as [ | h t IH ]; intros [ | i ] x y H; simpl in *; try discriminate.
  - inversion H; subst. rewrite !length_app. lia.
  - rewrite !length_app. specialize (IH _ _ y H). lia.
Qed.

(** What is left of a buffer after a window is the window and what is left
    after it. *)
Lemma skipn_window {A} (l : list A) (lower upper : Z) :
  0 <= lower <= upper ->
  skipn (Z.to_nat lower) l
  = firstn (Z.to_nat (upper - lower)) (skipn (Z.to_nat lower) l)
      ++ skipn (Z.to_nat upper) l.
Proof.
  intros H.
  replace (Z.to_nat upper) with (Z.to_nat (upper - lower) + Z.to_nat lower)%nat by lia.
  rewrite <- skipn_skipn. symmetry. apply firstn_skipn.
Qed.

(** [HandleSample] returns what the total handler computes, when it
    returns. *)
Lemma HandleSample_done a s a' :
  Guarded.HandleSample a s = Done a' -> a' = HandleSample a s.
Proof.
  rewrite HandleSample_guard.
  destruct (Effects.counterOf s); [ destruct (Guarded.refuses (Value s)) | ];
    intros H; inversion H; reflexivity.
Qed.

Lemma lookup_In {B} name : forall (catalog : list (string * B)) b,
  Effects.lookup name catalog = Some b -> In (name, b) catalog.
Proof.
  induction catalog as [ | [key b'] rest IH ]; intros b H; simpl in *.
  - discriminate.
  - destruct (String.eqb_spec name key) as [E | _].
    + inversion H; subst. left. reflexivity.
    + right. apply IH, H.
Qed.

(** The two operations of a worker on a Trend sample amount, when no
    other worker runs between them, to [HandleSample] on the sample. *)
Lemma trend_in_two_operations a s g h :
  trendCase s = Some (g, h) ->
  let a1 := withBuiltin a (gaugeSet g (Value s) (builtin a)) in
  withBuiltin a1 (histogramObserve h (Value s) (builtin a1)) = HandleSample a s.
Proof.
  unfold trendCase. destruct (Type_ (metric s) =? Trend) eqn:Et; [ | discriminate ].
  intros Hlook. apply lookup_In in Hlook. apply Z.eqb_eq in Et.
  pose proof (sample_eta s (Name (metric s)) Trend eq_refl Et) as E.
  transitivity (HandleSample a (mkSample (Name (metric s)) Trend (Value s))).
  - rewrite (HandleSample_trend _ g h a (Value s) Hlook). reflexivity.
  - rewrite <- E. reflexivity.
Qed.

(** The start of a flush keeps every sample. *)
Lemma beginFlush_pending last s :
  len (buffer s) + 10000 <= int_max ->
  flusher s = FSelect ->
  inRange (flusher (beginFlush last s))
  /\ pending (beginFlush last s) = pending s
  /\ adapter (beginFlush last s) = adapter s
  /\ crashed (beginFlush last s) = crashed s.
Proof.
  intros Hsize Hf. unfold pending. rewrite Hf. fields.
  cbn [inHand inRange Z.to_nat skipn].
  pose proof (len_nonneg (buffer s)).
  split; [ destruct (Z.gtb_spec 10000 (len (buffer s))); lia | ].
  split; [ simpl; lia | auto ].
Qed.

(** One operation of the flusher keeps every sample and the bounds of the
    loop, and its slice is within the buffer. *)
Lemma flusherStep_pending s s' :
  len (buffer s) + 10000 <= int_max ->
  inRange (flusher s) ->
  flusherStep s = Some s' ->
  inRange (flusher s') /\ pending s' = pending s /\ adapter s' = adapter s
  /\ (crashed s' = crashed s \/ crashed s' = Some SendOnClosed).
Proof.
  intros Hsize Hrange. unfold flusherStep.
  destruct (flusher s) as [ | last buf lower upper | ] eqn:Hf.
  - destruct (stopRequested s); [ | discriminate ].
    intros H. inversion H; subst.
    destruct (beginFlush_pending true s Hsize Hf) as (? & ? & ? & ?). auto.
  - cbv zeta. cbn [inRange] in Hrange. destruct Hrange as (Hlo & Hup & Hlen).
    rewrite (slice_ok buf lower upper Hlo Hup).
    unfold int_sub. rewrite wrap_small by (unfold int_min, int_max in *; lia).
    destruct (Z.leb_spec lower (len buf - 1)) as [Hin | Hout].
    + destruct (closed (chan s)) eqn:Hclosed.
      * intros H. inversion H; subst. unfold pending. fields. rewrite Hf.
        cbn [inRange]. auto 6.
      * destruct (len (queue (chan s)) <? capacity); [ | discriminate ].
        intros H. inversion H; subst. unfold pending. fields. rewrite Hf.
        cbn [inRange inHand]. unfold int_add.
        rewrite wrap_small by (unfold int_min, int_max in *; lia).
        split; [ destruct (Z.geb_spec (upper + 10000) (len buf)); lia | ].
        split; [ | auto ].
        pose proof (skipn_window buf lower upper Hlo) as Hsplit.
        remember (firstn (Z.to_nat (upper - lower)) (skipn (Z.to_nat lower) buf))
          as window eqn:Hwindow.
        rewrite Hsplit.
        rewrite concat_app, !samplesOf_app, !length_app. simpl.
        rewrite app_nil_r. lia.
    + intros H. inversion H; subst. unfold pending. fields. rewrite Hf.
      cbn [inHand].
      assert (Hnil : skipn (Z.to_nat lower) buf = []).
      { apply skipn_all2. unfold len in *. lia. }
      rewrite Hnil. split; [ destruct last; exact I | ].
      split; [ destruct last; simpl; lia | auto ].
  - discriminate.
Qed.

(** X22.  No operation of the goroutines loses or duplicates a sample,
    short of a panic.  The goroutines are taken one shared operation at a
    time: each send of the flusher is a step of its own, which waits while
    the channel is full, and the two statements of a case of [handleTrend]
    are two steps.  As long as the buffer is short enough for the loop of
    the flush not to overflow, the bounds of that loop stay within the
    drained buffer, its slice is never out of range, and the number of
    samples that are buffered, in the hands of the flusher, queued or held
    by a worker changes only
    - when the host produces a container: it grows by the samples of the
      container;
    - when a worker's [HandleSample] returns: it shrinks by one, the
      adapter being the one that [HandleSample] computes for the sample,
      or, for the second statement of a case of [handleTrend], the one
      after the [Observe];
    - when a worker panics, on a negative value for a counter or on the
      wait group: it shrinks by the samples that the worker leaves
      unhandled, the adapter being as it was.
    Every other step leaves the number as it is, and the adapter too,
    except the first statement of a case of [handleTrend], which sets the
    gauge. *)
Theorem samples_are_conserved a s s' :
  len (buffer s) + 10000 <= int_max ->
  inRange (flusher s) ->
  step reparse a s = Some s' ->
  inRange (flusher s')
  /\ (a = AFlusher -> crashed s' <> Some SliceBounds)
  /\ match eventOf a s with
     | Quiet =>
         pending s' = (pending s + produces a)%nat
         /\ adapter s' = adapter s
     | Handles entry =>
         (pending s' + 1 = pending s)%nat
         /\ adapter s' = HandleSample (adapter s) entry
     | Sets entry g =>
         pending s' = pending s
         /\ adapter s'
            = withBuiltin (adapter s)
                (gaugeSet g (Value entry) (builtin (adapter s)))
     | Observes entry h =>
         (pending s' + 1 = pending s)%nat
         /\ adapter s'
            = withBuiltin (adapter s)
                (histogramObserve h (Value entry) (builtin (adapter s)))
     | Panics lost =>
         (pending s' + length lost = pending s)%nat
         /\ adapter s' = adapter s
     end.
Proof.
  intros Hsize Hrange Hstep. unfold step in Hstep.
  destruct (crashed s) eqn:Hc; [ discriminate | ].
  destruct a as [ sc | | | | i | ]; cbn [eventOf produces].
  - inversion Hstep; subst. unfold pending. fields.
    split; [ exact Hrange | ]. split; [ discriminate | ].
    rewrite samplesOf_app, length_app. unfold samplesOf at 2. simpl.
    rewrite app_nil_r. split; [ lia | reflexivity ].
  - destruct (flusher s) eqn:Hf; try discriminate.
    inversion Hstep; subst.
    destruct (beginFlush_pending false s Hsize Hf) as (? & ? & ? & ?).
    split; [ assumption | ]. split; [ discriminate | ].
    split; [ lia | assumption ].
  - destruct (flusherStep_pending s s' Hsize Hrange Hstep) as (? & ? & ? & Hcr).
    split; [ assumption | ]. split.
    + intros _. rewrite Hc in Hcr. destruct Hcr as [-> | ->]; discriminate.
    + split; [ lia | assumption ].
  - split; [ | split; [ discriminate | ] ].
    + destruct (queue (chan s)); [ destruct (closed (chan s)); [ | discriminate ] | ];
        inversion Hstep; subst; fields; exact Hrange.
    + destruct (queue (chan s)) as [ | g rest ] eqn:Hq.
      * destruct (closed (chan s)); [ | discriminate ].
        inversion Hstep; subst. unfold pending. fields. rewrite Hq, todo_app. simpl.
        split; [ lia | reflexivity ].
      * inversion Hstep; subst. unfold pending. fields. rewrite Hq, todo_app.
        cbn [concat map todoOf]. rewrite app_nil_r, samplesOf_app, !length_app.
        split; [ lia | reflexivity ].
  - destruct (nth_error (workers s) i) as [pc | ] eqn:Hpc; [ | discriminate ].
    pose proof (fun y => todo_replaceNth _ _ _ y Hpc) as Hrep.
    split; [ | split; [ discriminate | ] ].
    + destruct (workerStep s pc) as [[s1 pc1] | ] eqn:Hw; [ | discriminate ].
      inversion Hstep; subst. fields.
      assert (flusher s1 = flusher s) as ->; [ | exact Hrange ].
      destruct pc as [ g | g | [ | entry todo ] | h entry todo | p | p | ];
        cbn [workerStep] in Hw.
      * unfold wgAdd in Hw. destruct (_ <? 0); inversion Hw; reflexivity.
      * inversion Hw; reflexivity.
      * inversion Hw; reflexivity.
      * destruct (trendCase entry) as [[g h] | ]; [ inversion Hw; reflexivity | ].
        destruct (Guarded.HandleSample _ _); inversion Hw; reflexivity.
      * inversion Hw; reflexivity.
      * inversion Hw; reflexivity.
      * unfold wgAdd in Hw. destruct (_ <? 0); destruct p; inversion Hw; reflexivity.
      * discriminate.
    + destruct pc as [ g | g | [ | entry todo ] | h entry todo | p | p | ];
        cbn [workerStep] in Hstep; cbv beta iota.
      * unfold wgAdd in *. cbn [snd].
        destruct (wrap32 (wgCounter s + 1) <? 0);
          inversion Hstep; subst; unfold pending; fields.
        -- specialize (Hrep (WUnwinding NegativeWaitGroup)).
           cbn [todoOf length] in Hrep |- *. split; [ lia | reflexivity ].
        -- specialize (Hrep (WAdded g)).
           cbn [todoOf length] in Hrep |- *. split; [ lia | reflexivity ].
      * inversion Hstep; subst. unfold pending. fields.
        specialize (Hrep (WRunning (samplesOf g))).
        cbn [todoOf length] in Hrep |- *. split; [ lia | reflexivity ].
      * inversion Hstep; subst. unfold pending. fields.
        specialize (Hrep (WWgDone None)).
        cbn [todoOf length] in Hrep |- *. split; [ lia | reflexivity ].
      * destruct (trendCase entry) as [[g h] | ].
        -- inversion Hstep; subst. unfold pending. fields.
           specialize (Hrep (WObserving h entry todo)).
           cbn [todoOf length] in Hrep |- *. split; [ lia | reflexivity ].
        -- destruct (Guarded.HandleSample (adapter s) entry) as [a' | | ] eqn:Hh;
             inversion Hstep; subst; unfold pending; fields.
           ++ specialize (Hrep (WRunning todo)).
              cbn [todoOf length] in Hrep |- *.
              split; [ lia | apply HandleSample_done, Hh ].
           ++ specialize (Hrep (WUnwinding CounterDecrease)).
              cbn [todoOf length] in Hrep |- *. split; [ lia | reflexivity ].
           ++ specialize (Hrep (WUnwinding CounterDecrease)).
              cbn [todoOf length] in Hrep |- *. split; [ lia | reflexivity ].
      * inversion Hstep; subst. unfold pending. fields.
        specialize (Hrep (WRunning todo)).
        cbn [todoOf length] in Hrep |- *. split; [ lia | reflexivity ].
      * inversion Hstep; subst. unfold pending. fields.
        specialize (Hrep (WWgDone (Some p))).
        cbn [todoOf length] in Hrep |- *. split; [ lia | reflexivity ].
      * unfold wgAdd in Hstep.
        destruct (wrap32 (wgCounter s + -1) <? 0); destruct p;
          inversion Hstep; subst; unfold pending; fields;
          specialize (Hrep WExited); cbn [todoOf length] in Hrep |- *;
          (split; [ lia | reflexivity ]).
      * discriminate.
  - unfold stopStep in Hstep. split; [ | split; [ discriminate | ] ].
    + assert (flusher s' = flusher s) as ->; [ | exact Hrange ].
      destruct (stop s);
        repeat match type of Hstep with
               | context [match ?c with _ => _ end] => destruct c eqn:?
               | context [if ?c then _ else _] => destruct c eqn:?
               end; inversion Hstep; subst; fields; congruence.
    + destruct (stop s);
        repeat match type of Hstep with
               | context [match ?c with _ => _ end] => destruct c eqn:?
               | context [if ?c then _ else _] => destruct c eqn:?
               end; inversion Hstep; subst; unfold pending; fields;
        try (split; [ lia | reflexivity ]).
      match goal with
      | H : close (chan s) = Some ?c |- _ =>
          unfold close in H; destruct (closed (chan s)); [ discriminate | ];
          inversion H; subst
      end.
      fields. split; [ lia | reflexivity ].
Qed.

End Goroutines.

(* ===================================================================== *)
(** * The dispatch loop after the close *)
(* ===================================================================== *)

Section Dispatch.
Import Metrics Internal Dashboard Concurrent.

Variable reparse : options + Prometheus.Error.

(** X23.  Once the channel is closed and drained, the dispatch loop no
    longer waits: each of its receives yields an empty group at once and
    spawns a worker for it, any number of times, the channel and the adapter
    staying as they are. *)
Theorem closed_channel_spins (n : nat) : forall s,
  closed (chan s) = true ->
  queue (chan s) = [] ->
  exists s',
    run reparse (repeat AReceive n) s = Some s'
    /\ workers s' = workers s ++ repeat (WSpawned []) n
    /\ chan s' = chan s
    /\ adapter s' = adapter s
    /\ wgCounter s' = wgCounter s
    /\ inFlight s' = inFlight s.
Proof.
  induction n as [ | n IH ]; intros s Hclosed Hq.
  - exists s. simpl. rewrite app_nil_r. repeat split.
  - cbn [repeat run step]. rewrite Hq, Hclosed.
    destruct (IH (setWorkers s (workers s ++ [WSpawned []])) Hclosed Hq)
      as (s' & Hrun & Hw & Hc & Ha & Hg & Hi).
    exists s'. split; [ exact Hrun | ].
    rewrite Hw, Hc, Ha, Hg, Hi. cbn. rewrite <- app_assoc. repeat split.
Qed.

End Dispatch.

(* ===================================================================== *)
(** * The further properties at concrete inputs *)
(* ===================================================================== *)

Section Instances.
Import Metrics Prometheus Logrus Internal Effects Dashboard Concurrent.
Import Examples.

(** Two [checks] samples on a fresh adapter. *)
Lemma handleRate_observes_witness :
  observations
    (histograms (builtin (fold_left HandleSample
                            [mkSample "checks" Rate 1; mkSample "checks" Rate 0]
                            adapter0)) Checks)
  = observations (histograms (builtin adapter0) Checks) ++ [1%R; 0%R]
  /\ gauges (builtin (fold_left HandleSample
                        [mkSample "checks" Rate 1; mkSample "checks" Rate 0]
                        adapter0)) = gauges (builtin adapter0)
  /\ counters (builtin (fold_left HandleSample
                          [mkSample "checks" Rate 1; mkSample "checks" Rate 0]
                          adapter0)) = counters (builtin adapter0).
Proof.
  apply (handleRate_observes "checks" Checks).
  - simpl. auto.
  - repeat constructor.
Defined.

(** The mixed stream and its reverse. *)
Lemma order_does_not_matter_witness :
  exists a1 a2,
    Guarded.handleAll adapter0 Cases.mixed = Done a1
    /\ Guarded.handleAll adapter0 Cases.shuffled = Done a2
    /\ (forall f, Permutation (observations (histograms (builtin a1) f))
                              (observations (histograms (builtin a2) f))).
Proof.
  apply (order_does_not_matter adapter0 Cases.mixed Cases.shuffled).
  - apply Permutation_rev.
  - unfold Cases.mixed.
    repeat (apply Forall_cons; [ intros _; cbn; lra | ]). apply Forall_nil.
Defined.

(** The mixed stream as a batch: the [http_reqs] counter. *)
Lemma batch_counter_total_witness :
  exists a',
    Guarded.processGroup adapter0 Cases.mixedGroup = Done a'
    /\ total (counters (builtin a') HTTPReqs)
       = (total (counters (builtin adapter0) HTTPReqs)
          + counterSum HTTPReqs (samplesOf Cases.mixedGroup))%R
    /\ counterOpts (counters (builtin a') HTTPReqs)
       = counterOpts (counters (builtin adapter0) HTTPReqs).
Proof.
  apply (batch_counter_total adapter0 Cases.mixedGroup HTTPReqs).
  unfold Cases.mixedGroup, Cases.mixed, samplesOf. cbn [flat_map GetSamples firstn skipn app].
  repeat (apply Forall_cons; [ intros _; cbn; lra | ]). apply Forall_nil.
Defined.

(** The mixed stream as a batch: the duration histogram. *)
Lemma batch_histogram_observations_witness :
  exists a',
    Guarded.processGroup adapter0 Cases.mixedGroup = Done a'
    /\ observations (histograms (builtin a') HTTPReqDuration)
       = observations (histograms (builtin adapter0) HTTPReqDuration)
           ++ observed HTTPReqDuration (samplesOf Cases.mixedGroup)
    /\ Buckets (histograms (builtin a') HTTPReqDuration)
       = Buckets (histograms (builtin adapter0) HTTPReqDuration)
    /\ histogramOpts (histograms (builtin a') HTTPReqDuration)
       = histogramOpts (histograms (builtin adapter0) HTTPReqDuration).
Proof.
  apply (batch_histogram_observations adapter0 Cases.mixedGroup HTTPReqDuration).
  unfold Cases.mixedGroup, Cases.mixed, samplesOf. cbn [flat_map GetSamples firstn skipn app].
  repeat (apply Forall_cons; [ intros _; cbn; lra | ]). apply Forall_nil.
Defined.

(** The mixed stream as a batch: the "current" gauge of the duration. *)
Lemma batch_gauge_last_set_witness :
  exists a',
    Guarded.processGroup adapter0 Cases.mixedGroup = Done a'
    /\ current (gauges (builtin a') HTTPReqDurationCurrent)
       = match lastSet HTTPReqDurationCurrent (samplesOf Cases.mixedGroup) with
         | Some v => v
         | None => current (gauges (builtin adapter0) HTTPReqDurationCurrent)
         end
    /\ gaugeOpts (gauges (builtin a') HTTPReqDurationCurrent)
       = gaugeOpts (gauges (builtin adapter0) HTTPReqDurationCurrent).
Proof.
  apply (batch_gauge_last_set adapter0 Cases.mixedGroup HTTPReqDurationCurrent).
  unfold Cases.mixedGroup, Cases.mixed, samplesOf. cbn [flat_map GetSamples firstn skipn app].
  repeat (apply Forall_cons; [ intros _; cbn; lra | ]). apply Forall_nil.
Defined.

(** The mixed stream as a batch: its one sample of unknown type. *)
Lemma batch_log_warnings_witness :
  exists a',
    Guarded.processGroup adapter0 Cases.mixedGroup = Done a'
    /\ Internal.logger a'
       = Internal.logger adapter0 ++ warnings (samplesOf Cases.mixedGroup).
Proof.
  apply (batch_log_warnings adapter0 Cases.mixedGroup).
  unfold Cases.mixedGroup, Cases.mixed, samplesOf. cbn [flat_map GetSamples firstn skipn app].
  repeat (apply Forall_cons; [ intros _; cbn; lra | ]). apply Forall_nil.
Defined.

(** Two increasing bounds. *)
Lemma NewHistogram_buckets_witness :
  exists metric,
    Guarded.NewHistogram emptyRegistry "" "" "checks" "The rate of successful checks"
                         [0.5; 1]%R = Done metric
    /\ Buckets metric = [0.5; 1]%R
    /\ observations metric = [].
Proof.
  apply (NewHistogram_buckets emptyRegistry ""%string ""%string
           "checks"%string "The rate of successful checks"%string).
  simpl. split; [ lra | exact I ].
Defined.

(** The mixed stream has no negative value. *)
Lemma counters_never_decrease_witness :
  (total (counters (builtin adapter0) HTTPReqs)
   <= total (counters (builtin (fold_left HandleSample Cases.mixed adapter0)) HTTPReqs))%R.
Proof.
  apply (counters_never_decrease adapter0 Cases.mixed HTTPReqs).
  unfold Cases.mixed. repeat constructor; simpl; lra.
Defined.

(** The constructor on the empty registry. *)
Lemma NewPrometheusAdapter_registers_witness :
  exists a,
    NewPrometheusAdapter emptyRegistry [] "" "" = (Some a, registry a)
    /\ collectors (registry a)
       = collectors emptyRegistry ++ builtinCollectors (builtin a)
    /\ length (builtinCollectors (builtin a)) = 24%nat
    /\ NoDup (collectorNames (builtinCollectors (builtin a)))
    /\ (forall f, total (counters (builtin a) f) = 0%R)
    /\ (forall f, current (gauges (builtin a) f) = 0%R)
    /\ (forall f, observations (histograms (builtin a) f) = []).
Proof.
  apply (NewPrometheusAdapter_registers emptyRegistry [] ""%string ""%string).
  reflexivity.
Defined.

(** The mixed stream, which has a [dropped_iterations] sample of value 4. *)
Lemma dropped_iterations_stays_zero_witness :
  In (counterCollector (builtin adapter0) DroppedIterations)
     (collectors (registry (fold_left HandleSample Cases.mixed adapter0)))
  /\ total (counters (builtin (fold_left HandleSample Cases.mixed adapter0))
                     DroppedIterations) = 0%R.
Proof.
  apply (dropped_iterations_stays_zero emptyRegistry [] ""%string ""%string
           adapter0 (registry adapter0) Cases.mixed).
  reflexivity.
Defined.

(** The registry of the examples does not expose [iteration_duration]. *)
Lemma iteration_duration_not_registered_witness :
  ~ In (histogramCollector (builtin adapter0) IterationDuration)
       (collectors (registry adapter0))
  /\ (forall a' v,
        observations
          (histograms (builtin (HandleSample a' (mkSample "iteration_duration" Trend v)))
                      IterationDuration)
        = observations (histograms (builtin a') IterationDuration) ++ [v]).
Proof.
  apply (iteration_duration_not_registered emptyRegistry [] ""%string ""%string
           adapter0 (registry adapter0)).
  - reflexivity.
  - simpl. tauto.
Defined.

(** [Start] on an Output with the empty configuration. *)
Lemma Start_without_error_witness :
  exists opts f,
    Dashboard.getopts string demoParseQuery demoDecode (arg (created "")) = inl opts
    /\ PrometheusAdapter (created "") <> None
    /\ addr (running "") = demoSprintf (Host opts) (Port opts)
    /\ flusher (running "") = Some f
    /\ [EvListen ""; EvGoServe; EvGoMetricWorker; EvFlusherStart 10]
       = [EvListen (addr (running "")); EvGoServe; EvGoMetricWorker;
          EvFlusherStart (Period opts)]
    /\ arg (running "") = arg (created "")
    /\ sampleChannel (running "") = sampleChannel (created "")
    /\ Cases.Description (running "")
       = ("dashboard (" ++ demoSprintf (Host opts) (Port opts) ++ ")")%string.
Proof.
  exact (Start_without_error string demoParseQuery demoDecode demoSprintf
           demoListen None demoRender demoFlusher
           (created "") (running "")
           [EvListen ""; EvGoServe; EvGoMetricWorker; EvFlusherStart 10]
           eq_refl).
Defined.


(** A period of 0, which the flusher refuses. *)
Lemma Start_flusher_error_witness :
  exists o',
    Dashboard.Start string demoParseQuery Cases.decodePeriod demoSprintf demoListen
                    None demoRender demoFlusher (created "Period=0")
    = Done (o', [EvListen ""; EvGoServe; EvGoMetricWorker],
            Some "metric flush period should be positive"%string)
    /\ flusher o' = None
    /\ Dashboard.Stop string demoParseQuery Cases.decodePeriod o' = Panic.
Proof.
  exact (Start_flusher_error string demoParseQuery Cases.decodePeriod demoSprintf
           demoListen None demoRender demoFlusher
           (created "Period=0")
           {| Port := 5665; Host := ""; Period := 0; UI := ""; Wait := 0 |}
           adapter0 "metric flush period should be positive"%string
           eq_refl eq_refl eq_refl eq_refl eq_refl eq_refl).
Defined.

(** A second [Stop]. *)
Lemma Stop_twice_witness :
  Dashboard.Stop string demoParseQuery demoDecode Cases.down = Panic.
Proof.
  exact (Stop_twice string demoParseQuery demoDecode (running "") Cases.down
           [EvFlusherStop; EvWgWait; EvCloseChannel] None eq_refl).
Defined.

(** The three buffered containers, flushed, and flushed again. *)
Lemma flushMetrics_then_again_witness :
  SampleBuffer Cases.flushed = []
  /\ logger Cases.flushed
     = logger FlushExamples.three
         ++ [Cases.workGroupLine (workGroupCount FlushExamples.three)]
  /\ PrometheusAdapter Cases.flushed = PrometheusAdapter FlushExamples.three
  /\ flusher Cases.flushed = flusher FlushExamples.three
  /\ addr Cases.flushed = addr FlushExamples.three
  /\ arg Cases.flushed = arg FlushExamples.three
  /\ wg Cases.flushed = wg FlushExamples.three
  /\ workGroupCount Cases.flushed = workGroupCount FlushExamples.three
  /\ closed (sampleChannel Cases.flushed) = closed (sampleChannel FlushExamples.three)
  /\ (forall fuel',
        exists o'',
          flushMetrics fuel' Cases.flushed = Done o''
          /\ sampleChannel o'' = sampleChannel Cases.flushed
          /\ logger o'' = logger Cases.flushed
                            ++ [Cases.workGroupLine (workGroupCount FlushExamples.three)]).
Proof.
  apply (flushMetrics_then_again 3 FlushExamples.three Cases.flushed).
  reflexivity.
Defined.

(** A container that arrives after the channel was closed. *)
Lemma flushMetrics_closed_channel_witness :
  flushMetrics 1 Cases.late = Panic.
Proof.
  apply (flushMetrics_closed_channel 1 Cases.late).
  - reflexivity.
  - unfold len, int_max. simpl. lia.
  - unfold len. simpl. lia.
  - discriminate.
Defined.


(** Three receives after [Stop]. *)
Lemma closed_channel_spins_witness :
  exists s',
    run (inl defaults) (repeat AReceive 3) Cases.stopped = Some s'
    /\ workers s' = workers Cases.stopped ++ repeat (WSpawned []) 3
    /\ chan s' = chan Cases.stopped
    /\ adapter s' = adapter Cases.stopped
    /\ wgCounter s' = wgCounter Cases.stopped
    /\ inFlight s' = inFlight Cases.stopped.
Proof.
  apply (closed_channel_spins (inl defaults) 3 Cases.stopped); reflexivity.
Defined.

End Instances.

(* ===================================================================== *)
(** * The goroutines at concrete schedules *)
(* ===================================================================== *)

Section GoroutineInstances.
Import Metrics Prometheus Logrus Internal Dashboard Interleaving Accounting.

(** A send that finds the channel full waits: the flusher has no step. *)
Lemma full_channel_blocks reparse :
  step reparse AFlusher Schedules.full = None.
Proof. reflexivity. Qed.

(** A worker handles a Trend sample in two steps, which together are
    [HandleSample]. *)
Lemma trend_sample_in_two_steps reparse :
  option_map adapter (run reparse [AWorker 0; AWorker 0] Schedules.trending)
  = Some (HandleSample Examples.adapter0 (mkSample "http_req_duration" Trend 80)).
Proof. reflexivity. Qed.

(** [Stop] can return while a worker is in flight, also when the
    goroutines are taken one operation at a time; the worker then sets the
    gauge. *)
Lemma stop_returns_early_in_operations :
  option_map (fun s => (stop s, wgCounter s, inFlight s, crashed s))
             (run (inl Examples.defaults) Schedules.stopEarly Schedules.start)
  = Some (SReturned None, 1, 1, None)
  /\ option_map (fun s => current (gauges (builtin (adapter s)) VUS))
                (run (inl Examples.defaults) (Schedules.stopEarly ++ [AWorker 0])
                     Schedules.start)
     = Some 7%R.
Proof. split; reflexivity. Qed.


(** The send of a window of two containers. *)
Lemma samples_are_conserved_witness :
  inRange (flusher Schedules.sent)
  /\ (AFlusher = AFlusher -> crashed Schedules.sent <> Some SliceBounds)
  /\ pending Schedules.sent = (pending Schedules.sending + 0)%nat
  /\ adapter Schedules.sent = adapter Schedules.sending.
Proof.
  apply (samples_are_conserved (inl Examples.defaults) AFlusher
           Schedules.sending Schedules.sent).
  - unfold len, int_max. simpl. lia.
  - simpl. unfold len, int_max. simpl. lia.
  - reflexivity.
Defined.

End GoroutineInstances.
